(** * pi-pokecardmaker: the card generators, embedded and checked against their
    specification.

    The repository ships three scripts:
    - [card-generator.py] (the id-based neutral generator): [deep_merge],
      [get_dotted], [render_placeholders], [normalize_id], [main];
    - [card-generator.cropmeta.dexstats.py] and
      [card-generator.cropmeta.dexstats.fixed3.py] (the picture generators with
      the crop sidecar): [deep_merge], [render_template],
      [_inject_src_into_images], [_iter_image_dicts], [_sync_crop_sidecar].

    Python values are embedded as a tagged JSON tree.  A Python [dict] keeps
    its insertion order, and the order shows in the written JSON, so a dict is
    an association list: [d[k] = v] replaces the value in place when [k] is
    present and appends the pair otherwise.  In-place mutation of the rendered
    tree is embedded as a function returning the mutated tree. *)

From Stdlib Require Import ZArith String Ascii List Bool Lia.
From stdpp Require Import base option list strings gmap pretty.

Local Open Scope string_scope.
Local Open Scope list_scope.

(** ** Python values of JSON shape *)

Module Py.

Unset Elimination Schemes.

(** [JFloat r] is a finite float whose [repr] is the text [r]. *)
Inductive json : Type :=
| JNull
| JBool (b : bool)
| JInt (n : Z)
| JFloat (r : string)
| JStr (s : string)
| JList (l : list json)
| JDict (d : list (string * json)).

Set Elimination Schemes.

Abbreviation dict := (list (string * json)).

Section json_induction.
Variable P : json -> Prop.
Hypothesis Hnull : P JNull.
Hypothesis Hbool : forall b, P (JBool b).
Hypothesis Hint : forall n, P (JInt n).
Hypothesis Hfloat : forall r, P (JFloat r).
Hypothesis Hstr : forall s, P (JStr s).
Hypothesis Hlist : forall l, Forall P l -> P (JList l).
Hypothesis Hdict : forall d, Forall (fun kv => P (snd kv)) d -> P (JDict d).

Fixpoint json_ind (j : json) : P j :=
  match j with
  | JNull => Hnull
  | JBool b => Hbool b
  | JInt n => Hint n
  | JFloat r => Hfloat r
  | JStr s => Hstr s
  | JList l =>
      Hlist l ((fix all (l : list json) : Forall P l :=
                  match l with
                  | [] => List.Forall_nil _
                  | x :: r => List.Forall_cons _ x r (json_ind x) (all r)
                  end) l)
  | JDict d =>
      Hdict d ((fix all (d : dict) : Forall (fun kv => P (snd kv)) d :=
                  match d with
                  | [] => List.Forall_nil _
                  | kv :: r => List.Forall_cons _ kv r (json_ind (snd kv)) (all r)
                  end) d)
  end.
End json_induction.

(** *** dict operations *)

(** [k in d] *)
Fixpoint dict_has (k : string) (d : dict) : bool :=
  match d with
  | [] => false
  | (k', _) :: r => if String.eqb k k' then true else dict_has k r
  end.

(** [d[k]], [None] standing for [KeyError] *)
Fixpoint dict_lookup (k : string) (d : dict) : option json :=
  match d with
  | [] => None
  | (k', v) :: r => if String.eqb k k' then Some v else dict_lookup k r
  end.

(** [d.get(k)]: Python's [None] when the key is missing *)
Definition dict_get (k : string) (d : dict) : json :=
  match dict_lookup k d with
  | Some v => v
  | None => JNull
  end.

(** [d[k] = v] *)
Fixpoint dict_set (k : string) (v : json) (d : dict) : dict :=
  match d with
  | [] => [(k, v)]
  | (k', v') :: r =>
      if String.eqb k k' then (k', v) :: r else (k', v') :: dict_set k v r
  end.

(** [d.update(params)], also the loop [for k, v in params.items(): d[k] = v] *)
Definition dict_update (d params : dict) : dict :=
  fold_left (fun acc kv => dict_set (fst kv) (snd kv) acc) params d.

Definition keys (d : dict) : list string := map fst d.

(** [x is not None] *)
Definition is_not_none (j : json) : bool :=
  match j with
  | JNull => false
  | _ => true
  end.

End Py.

Import Py.

(** ** Errors and the sidecar files *)

(** The exceptions that can leave a function of the scripts. *)
Inductive exn : Type :=
| AttributeError    (* a method of dict called on a value that has none *)
| KeyError (k : string)
| ValueError (msg : string)
| RuntimeError (msg : string)
| OSError
| NameError (name : string).   (* a call of a function that no file defines *)

Inductive outcome (A : Type) : Type :=
| Ok (a : A)
| Raise (e : exn).
Arguments Ok {A} a.
Arguments Raise {A} e.

Definition bind {A B} (m : outcome A) (f : A -> outcome B) : outcome B :=
  match m with
  | Ok a => f a
  | Raise e => Raise e
  end.

Definition raises {A} (m : outcome A) : bool :=
  match m with
  | Ok _ => false
  | Raise _ => true
  end.

(** ** The picture generators: what the two [cropmeta.dexstats] scripts share *)

Module Crop.

(** [_inject_src_into_images]: only [rendered["images"]], only items that are
    dicts holding a ["src"] key. *)
Definition inject_item (data_uri : string) (item : json) : json :=
  match item with
  | JDict i => if dict_has "src" i then JDict (dict_set "src" (JStr data_uri) i) else item
  | _ => item
  end.

Definition _inject_src_into_images (rendered : dict) (data_uri : string) : dict :=
  match dict_get "images" rendered with
  | JList images => dict_set "images" (JList (map (inject_item data_uri) images)) rendered
  | _ => rendered
  end.

Definition _CROP_KEYS : list string :=
  ["croppedArea"; "croppedAreaPixels"; "crop"; "zoom"; "rotation"; "aspect"].

(** [k in _CROP_KEYS] *)
Definition is_crop_key (k : string) : bool := existsb (String.eqb k) _CROP_KEYS.

(** the dict items of a list: [for item in v: if isinstance(item, dict): yield item] *)
Fixpoint dict_items (v : list json) : list dict :=
  match v with
  | [] => []
  | JDict i :: r => i :: dict_items r
  | _ :: r => dict_items r
  end.

(** [_iter_image_dicts], as the list of the dicts it yields, in order.  An
    ["images"] list is not searched any deeper; every other value is. *)
Fixpoint _iter_image_dicts (obj : json) : list dict :=
  match obj with
  | JDict d =>
      flat_map (fun kv =>
                  match snd kv with
                  | JList v => if String.eqb (fst kv) "images" then dict_items v
                               else _iter_image_dicts (snd kv)
                  | _ => _iter_image_dicts (snd kv)
                  end) d
  | JList l => flat_map _iter_image_dicts l
  | _ => []
  end.

(** [_extract_crop_params_from_image] *)
Definition _extract_crop_params_from_image (img_dict : dict) : dict :=
  fold_left (fun params k =>
               match dict_lookup k img_dict with
               | Some v => dict_set k v params
               | None => params
               end) _CROP_KEYS [].

(** [_apply_crop_params_to_image]: every item of [params], whatever its key *)
Definition _apply_crop_params_to_image (img_dict params : dict) : dict :=
  dict_update img_dict params.

(** The tree after a loop [for img_dict in _iter_image_dicts(obj): mutate img_dict]:
    the dicts the walk yields are replaced where they stand. *)
Definition on_dict (f : dict -> dict) (item : json) : json :=
  match item with
  | JDict i => JDict (f i)
  | _ => item
  end.

Fixpoint map_image_dicts (f : dict -> dict) (obj : json) : json :=
  match obj with
  | JDict d =>
      JDict (map (fun kv =>
                    (fst kv,
                     match snd kv with
                     | JList v => if String.eqb (fst kv) "images" then JList (map (on_dict f) v)
                                  else map_image_dicts f (snd kv)
                     | _ => map_image_dicts f (snd kv)
                     end)) d)
  | JList l => JList (map (map_image_dicts f) l)
  | _ => obj
  end.

Definition map_image_items (f : dict -> dict) (d : dict) : dict :=
  map (fun kv =>
         (fst kv,
          match snd kv with
          | JList v => if String.eqb (fst kv) "images" then JList (map (on_dict f) v)
                       else map_image_dicts f (snd kv)
          | _ => map_image_dicts f (snd kv)
          end)) d.

(** [_apply_crop_params_to_images] (defined in the [fixed3] script only) *)
Definition _apply_crop_params_to_images (rendered_json crop_params : dict) : dict :=
  map_image_items (fun img_dict => _apply_crop_params_to_image img_dict crop_params)
                  rendered_json.

End Crop.

(** What the walk of the reconciler is to find.  [image_of img obj]: [img] is
    a dict item of a list stored under the key [images], in a dict that is
    [obj] itself or is reached from [obj] through values of dicts and items
    of lists, at any depth, without entering an [images] list. *)
Inductive image_of (img : dict) : json -> Prop :=
| image_item (d : dict) (l : list json) :
    In ("images", JList l) d -> In (JDict img) l -> image_of img (JDict d)
| image_under_key (d : dict) (k : string) (v : json) :
    In (k, v) d -> (k = "images" -> forall l, v <> JList l) -> image_of img v ->
    image_of img (JDict d)
| image_in_list (l : list json) (x : json) :
    In x l -> image_of img x -> image_of img (JList l).

(** ** The directory of sidecar files

    A sidecar is only ever read by [json.loads(path.read_text())] and written
    by [path.write_text(json.dumps(obj))], so a file's text is kept as what
    [json.loads] makes of it: [Dumps j] is text that loads as [j] (JSON text
    that [json.dumps] wrote loads back as the value written), [Malformed] is
    text on which it raises.  Reads of the paths in [rd_deny] and writes of
    the paths in [wr_deny] raise [OSError]; a write that raises leaves the file
    as it was.  [journal] lists the writes that went through, oldest first. *)

Inductive text : Type :=
| Malformed
| Dumps (j : json).

Record fs : Type := MkFs {
  files : gmap string text;
  rd_deny : gset string;
  wr_deny : gset string;
  journal : list (string * json)
}.

(** [path.exists()] *)
Definition path_exists (st : fs) (p : string) : bool :=
  match files st !! p with
  | Some _ => true
  | None => false
  end.

(** [json.loads(path.read_text(encoding="utf-8"))] of an existing path *)
Definition read_json (st : fs) (p : string) : outcome json :=
  if decide (p ∈ rd_deny st) then Raise OSError
  else match files st !! p with
       | Some (Dumps j) => Ok j
       | Some Malformed => Raise (ValueError "json.loads")
       | None => Raise OSError
       end.

(** [path.write_text(json.dumps(obj, ensure_ascii=False, indent=2))] *)
Definition write_json (st : fs) (p : string) (obj : json) : outcome fs :=
  if decide (p ∈ wr_deny st) then Raise OSError
  else Ok (MkFs (<[p := Dumps obj]> (files st)) (rd_deny st) (wr_deny st)
                (journal st ++ [(p, obj)])).

(** [try: path.write_text(...) except Exception: pass] *)
Definition try_write_json (st : fs) (p : string) (obj : json) : fs :=
  match write_json st p obj with
  | Ok st' => st'
  | Raise _ => st
  end.

(** ** [card-generator.cropmeta.dexstats.fixed3.py] *)

Module Fixed3.
Import Crop.

(** [_sync_crop_sidecar(rendered_json, sidecar_path)]: the rendered tree after
    the call and the files after it, or the exception that leaves it.
    [sidecar_path.parent] is the directory the picture was found in, so the
    [mkdir(parents=True, exist_ok=True)] of the creating branch does nothing. *)
Definition _sync_crop_sidecar (rendered_json : dict) (sidecar_path : string) (st : fs)
  : outcome (dict * fs) :=
  match _iter_image_dicts (JDict rendered_json) with
  | [] => Ok (rendered_json, st)
  | img0 :: _ =>
      if path_exists st sidecar_path then
        match read_json st sidecar_path with
        | Raise _ => Ok (rendered_json, st)
        | Ok (JDict existing) =>
            let rendered1 := _apply_crop_params_to_images rendered_json existing in
            if is_not_none (dict_get "dexStats" existing) then
              Ok (dict_set "dexStats" (dict_get "dexStats" existing) rendered1, st)
            else if is_not_none (dict_get "dexStats" rendered1) then
              let existing' := dict_set "dexStats" (dict_get "dexStats" rendered1) existing in
              Ok (rendered1, try_write_json st sidecar_path (JDict existing'))
            else Ok (rendered1, st)
        | Ok _ =>
            (* [params.items()] in [_apply_crop_params_to_image], at the first image *)
            Raise AttributeError
        end
      else
        let crop_params := _extract_crop_params_from_image img0 in
        let sidecar := dict_update [] crop_params in
        let sidecar :=
          if is_not_none (dict_get "dexStats" rendered_json)
          then dict_set "dexStats" (dict_get "dexStats" rendered_json) sidecar
          else sidecar in
        Ok (rendered_json, try_write_json st sidecar_path (JDict sidecar))
  end.

(** One turn of the loop of [main], from the parsed rendering on: the picture
    is resolved (its data URI and the sidecar path beside it are given), the
    [src] fields are set, the sidecar is reconciled, the record is written to
    [out_dir/<stem>.json] (a directory the run has just made: the write is
    taken to succeed). *)
Record record : Type := MkRecord {
  stem : string;
  rendered : json;
  data_uri : string;
  sidecar : string
}.

Record run_state : Type := MkRun {
  disk : fs;
  outputs : list (string * dict)
}.

Definition process (r : record) (s : run_state) : outcome run_state :=
  match rendered r with
  | JDict rd =>
      let rd1 := _inject_src_into_images rd (data_uri r) in
      bind (_sync_crop_sidecar rd1 (sidecar r) (disk s)) (fun res =>
        Ok (MkRun (snd res) (outputs s ++ [(stem r, fst res)])))
  | _ => Raise AttributeError   (* [rendered.get] on a value that is no dict *)
  end.

(** The loop over the sorted configs; an exception ends the run. *)
Fixpoint run (rs : list record) (s : run_state) : outcome run_state :=
  match rs with
  | [] => Ok s
  | r :: rest => bind (process r s) (run rest)
  end.

(** *** When a run has nothing left to write

    [stable_at cap p st]: with the files [st], reconciling a tree that has an
    image, and has a top-level caption exactly when [cap] is true, against
    the sidecar [p] returns and writes nothing.  Either the sidecar cannot be
    written (and does not read as JSON that is no object), or it exists and
    cannot be read or parsed, or it reads as an object that has a caption
    already or is asked for none. *)
Definition stable_at (cap : bool) (p : string) (st : fs) : Prop :=
  (p ∈ wr_deny st /\ forall j, read_json st p = Ok j -> exists e, j = JDict e) \/
  (exists t, files st !! p = Some t /\ raises (read_json st p) = true) \/
  (exists e, files st !! p = Some (Dumps (JDict e)) /\ (p ∉ rd_deny st) /\
             (is_not_none (dict_get "dexStats" e) = true \/ cap = false)).

(** [settled r st]: the record [r] is one that [process] handles, and with
    the files [st] its reconciliation writes nothing. *)
Definition settled (r : record) (st : fs) : Prop :=
  match rendered r with
  | JDict rd =>
      let rd1 := _inject_src_into_images rd (data_uri r) in
      _iter_image_dicts (JDict rd1) = [] \/
      stable_at (is_not_none (dict_get "dexStats" rd1)) (sidecar r) st
  | _ => False
  end.

End Fixed3.

(** ** Python text

    A [string] is the sequence of the code points of a Python [str], for code
    points below 256. *)

Module PyText.

Local Open Scope nat_scope.

Definition code (c : ascii) : nat := nat_of_ascii c.

(** the double quote *)
Definition dquote : ascii := ascii_of_nat 34.

(** [str.isspace] of one character, which is also the class [\s] of [re] *)
Definition is_space (c : ascii) : bool :=
  let n := code c in
  ((9 <=? n) && (n <=? 13)) || ((28 <=? n) && (n <=? 32)) || (n =? 133) || (n =? 160).

(** the class [[a-zA-Z0-9_.-]] *)
Definition is_key_char (c : ascii) : bool :=
  let n := code c in
  ((97 <=? n) && (n <=? 122)) || ((65 <=? n) && (n <=? 90)) || ((48 <=? n) && (n <=? 57))
  || (n =? 95) || (n =? 46) || (n =? 45).

Fixpoint lstrip (s : string) : string :=
  match s with
  | EmptyString => EmptyString
  | String c r => if is_space c then lstrip r else s
  end.

Fixpoint rstrip (s : string) : string :=
  match s with
  | EmptyString => EmptyString
  | String c r =>
      match rstrip r with
      | EmptyString => if is_space c then EmptyString else String c EmptyString
      | r' => String c r'
      end
  end.

(** [s.strip()] *)
Definition strip (s : string) : string := rstrip (lstrip s).

(** truth of a [str]: it is not empty *)
Definition nonempty (s : string) : bool :=
  match s with
  | EmptyString => false
  | _ => true
  end.

(** [c in s] *)
Fixpoint has_char (c : ascii) (s : string) : bool :=
  match s with
  | EmptyString => false
  | String c' r => if Ascii.eqb c c' then true else has_char c r
  end.

(** every character of [s] is in the class *)
Fixpoint all_chars (cls : ascii -> bool) (s : string) : bool :=
  match s with
  | EmptyString => true
  | String c r => cls c && all_chars cls r
  end.

(** [sep.join(parts)] *)
Fixpoint join (sep : string) (parts : list string) : string :=
  match parts with
  | [] => ""
  | [p] => p
  | p :: r => p +:+ sep +:+ join sep r
  end.

(** [s.split(".")] *)
Fixpoint split_dot (s : string) : list string :=
  match s with
  | EmptyString => [""]
  | String c r =>
      if Ascii.eqb c "." then "" :: split_dot r
      else match split_dot r with
           | h :: t => String c h :: t
           | [] => [String c ""]
           end
  end.

Definition hex_digit (n : nat) : ascii :=
  match n with
  | 0 => "0" | 1 => "1" | 2 => "2" | 3 => "3" | 4 => "4" | 5 => "5" | 6 => "6" | 7 => "7"
  | 8 => "8" | 9 => "9" | 10 => "a" | 11 => "b" | 12 => "c" | 13 => "d" | 14 => "e"
  | _ => "f"
  end%char.

Definition hex2 (c : ascii) : string :=
  String (hex_digit (code c / 16)) (String (hex_digit (code c mod 16)) "").

(** *** [repr] and [str] *)

(** [str.isprintable] of one character *)
Definition is_printable (c : ascii) : bool :=
  let n := code c in
  ((32 <=? n) && (n <=? 126)) || ((161 <=? n) && negb (n =? 173)).

Definition repr_char (quote c : ascii) : string :=
  if Ascii.eqb c quote || Ascii.eqb c "\" then String "\" (String c "")
  else if code c =? 9 then "\t"
  else if code c =? 10 then "\n"
  else if code c =? 13 then "\r"
  else if is_printable c then String c ""
  else "\x" +:+ hex2 c.

Fixpoint repr_chars (quote : ascii) (s : string) : string :=
  match s with
  | EmptyString => ""
  | String c r => repr_char quote c +:+ repr_chars quote r
  end.

(** [repr] of a [str]: single quotes, unless the text has one and no double quote *)
Definition repr_str (s : string) : string :=
  let quote : ascii := if has_char "'" s && negb (has_char dquote s) then dquote else "'"%char in
  String quote (repr_chars quote s +:+ String quote "").

(** [repr(v)] *)
Fixpoint repr (v : json) : string :=
  match v with
  | JNull => "None"
  | JBool true => "True"
  | JBool false => "False"
  | JInt n => pretty n
  | JFloat r => r
  | JStr s => repr_str s
  | JList l => "[" +:+ join ", " (map repr l) +:+ "]"
  | JDict d => "{" +:+ join ", " (map (fun kv => repr_str (fst kv) +:+ ": " +:+ repr (snd kv)) d) +:+ "}"
  end.

(** [str(v)] *)
Definition str (v : json) : string :=
  match v with
  | JStr s => s
  | _ => repr v
  end.

(** *** [json.dumps(v, ensure_ascii=False)] *)

Definition dumps_char (c : ascii) : string :=
  if Ascii.eqb c dquote then String "\" (String dquote "")
  else if Ascii.eqb c "\" then "\\"
  else if code c =? 10 then "\n"
  else if code c =? 13 then "\r"
  else if code c =? 9 then "\t"
  else if code c =? 8 then "\b"
  else if code c =? 12 then "\f"
  else if code c <? 32 then "\u00" +:+ hex2 c
  else String c "".

Fixpoint dumps_chars (s : string) : string :=
  match s with
  | EmptyString => ""
  | String c r => dumps_char c +:+ dumps_chars r
  end.

Definition dumps_str (s : string) : string :=
  String dquote (dumps_chars s +:+ String dquote "").

Fixpoint json_dumps (v : json) : string :=
  match v with
  | JNull => "null"
  | JBool true => "true"
  | JBool false => "false"
  | JInt n => pretty n
  | JFloat r => r
  | JStr s => dumps_str s
  | JList l => "[" +:+ join ", " (map json_dumps l) +:+ "]"
  | JDict d => "{" +:+ join ", " (map (fun kv => dumps_str (fst kv) +:+ ": " +:+ json_dumps (snd kv)) d) +:+ "}"
  end.

End PyText.

(** ** The placeholder pattern

    [{{\s*([a-zA-Z0-9_.-]+)\s*}}], the same in the three scripts.  Blanks, key
    characters and the closing brace are pairwise disjoint classes, so the
    greedy scan below is the only way the pattern can match at a position. *)

Module Placeholder.
Import PyText.

Local Open Scope nat_scope.

(** the longest prefix whose characters are in the class, and what follows it *)
Fixpoint span (cls : ascii -> bool) (s : string) : string * string :=
  match s with
  | EmptyString => (EmptyString, EmptyString)
  | String c r =>
      if cls c then (String c (fst (span cls r)), snd (span cls r))
      else (EmptyString, s)
  end.

(** A match of the pattern at the start of [s]: [group(1)] and the length of
    [group(0)]. *)
Definition match_here (s : string) : option (string * nat) :=
  match s with
  | String "{" (String "{" r) =>
      let (w1, r1) := span is_space r in
      let (key, r2) := span is_key_char r1 in
      let (w2, r3) := span is_space r2 in
      match key, r3 with
      | String _ _, String "}" (String "}" _) =>
          Some (key, 2 + String.length w1 + String.length key + String.length w2 + 2)
      | _, _ => None
      end
  | _ => None
  end.


(** The scan of [pattern.sub] and [pattern.finditer]: matches are taken from
    left to right and do not overlap; [skip] counts the characters of the
    current match still to be passed over.  A match carries [group(1)] and
    [group(0)]. *)
Inductive piece : Type :=
| Lit (c : ascii)
| Hit (key m0 : string).

Fixpoint pieces_from (skip : nat) (s : string) : list piece :=
  match s with
  | EmptyString => []
  | String c r =>
      match skip with
      | S n => pieces_from n r
      | O =>
          match match_here s with
          | Some (key, len) => Hit key (substring 0 len s) :: pieces_from (len - 1) r
          | None => Lit c :: pieces_from 0 r
          end
      end
  end.

Definition pieces (s : string) : list piece := pieces_from 0 s.

(** [pattern.sub(repl, s)] for a [repl] that returns *)
Fixpoint sub_pieces (repl : string -> string -> string) (ps : list piece) : string :=
  match ps with
  | [] => EmptyString
  | Lit c :: r => String c (sub_pieces repl r)
  | Hit key m0 :: r => repl key m0 +:+ sub_pieces repl r
  end.

Definition sub (repl : string -> string -> string) (s : string) : string :=
  sub_pieces repl (pieces s).

(** [pattern.sub(repl, s)] for a [repl] that may raise: the leftmost raise
    leaves the call *)
Fixpoint sub_pieces_raising (repl : string -> string -> outcome string) (ps : list piece)
  : outcome string :=
  match ps with
  | [] => Ok EmptyString
  | Lit c :: r => bind (sub_pieces_raising repl r) (fun rest => Ok (String c rest))
  | Hit key m0 :: r =>
      bind (repl key m0) (fun t =>
      bind (sub_pieces_raising repl r) (fun rest => Ok (t +:+ rest)))
  end.

Definition sub_raising (repl : string -> string -> outcome string) (s : string)
  : outcome string :=
  sub_pieces_raising repl (pieces s).

End Placeholder.

(** ** [card-generator.py] *)

Module Neutral.
Import PyText Placeholder.

(** [deep_merge(base, override)]; [out.get(k)] is [None] for a key [base] lacks. *)
Fixpoint deep_merge (base override : json) : json :=
  match override with
  | JDict o =>
      match base with
      | JDict b =>
          JDict (fold_left (fun out kv =>
                              dict_set (fst kv) (deep_merge (dict_get (fst kv) out) (snd kv)) out)
                           o b)
      | _ => override
      end
  | JNull => base
  | _ => override
  end.

(** [get_dotted(data, key)] *)
Fixpoint get_parts (cur : json) (parts : list string) (key : string) : outcome json :=
  match parts with
  | [] => Ok cur
  | part :: rest =>
      match cur with
      | JDict d =>
          match dict_lookup part d with
          | Some v => get_parts v rest key
          | None => Raise (KeyError key)
          end
      | _ => Raise (KeyError key)
      end
  end.

Definition get_dotted (data : json) (key : string) : outcome json :=
  get_parts data (split_dot key) key.

Definition has_dotted (data : json) (key : string) : bool :=
  negb (raises (get_dotted data key)).

(** [get_dotted(variables, k) if "." in k else variables[k]] *)
Definition resolve (variables : dict) (k : string) : outcome json :=
  if has_char "." k then get_dotted (JDict variables) k
  else match dict_lookup k variables with
       | Some v => Ok v
       | None => Raise (KeyError k)
       end.

(** [repl] of [render_placeholders] *)
Definition repl (variables : dict) (strict : bool) (k m0 : string) : outcome string :=
  match resolve variables k with
  | Raise _ => if strict then Raise (KeyError ("Placeholder mancante: " +:+ k)) else Ok m0
  | Ok JNull => Ok EmptyString
  | Ok v => Ok (str v)
  end.

Fixpoint render_placeholders (obj : json) (variables : dict) (strict : bool) : outcome json :=
  match obj with
  | JStr s => bind (sub_raising (repl variables strict) s) (fun t => Ok (JStr t))
  | JList l =>
      bind ((fix each (l : list json) : outcome (list json) :=
               match l with
               | [] => Ok []
               | v :: r =>
                   bind (render_placeholders v variables strict) (fun v' =>
                   bind (each r) (fun r' => Ok (v' :: r')))
               end) l)
           (fun l' => Ok (JList l'))
  | JDict d =>
      bind ((fix each (d : dict) : outcome dict :=
               match d with
               | [] => Ok []
               | kv :: r =>
                   bind (render_placeholders (snd kv) variables strict) (fun v' =>
                   bind (each r) (fun r' => Ok ((fst kv, v') :: r')))
               end) d)
           (fun d' => Ok (JDict d'))
  | _ => Ok obj
  end.

(** [require_keys] *)
Definition require_keys (variables : dict) (keys : list string) : outcome unit :=
  match filter (fun k => negb (has_dotted (JDict variables) k)) keys with
  | [] => Ok tt
  | missing =>
      Raise (KeyError ("Chiavi richieste mancanti in variables: " +:+ join ", " missing))
  end.

(** [re.sub(r"[^a-zA-Z0-9._-]+", "-", s)]: every maximal run of other
    characters becomes one dash; [in_run] tells that the run has begun. *)
Fixpoint sanitize (in_run : bool) (s : string) : string :=
  match s with
  | EmptyString => EmptyString
  | String c r =>
      if is_key_char c then String c (sanitize false r)
      else if in_run then sanitize true r
      else String "-" (sanitize true r)
  end.

Definition normalize_id (value : json) : outcome string :=
  match value with
  | JNull => Raise (KeyError "id mancante")
  | _ =>
      let s := strip (str value) in
      if nonempty s then Ok (sanitize false s) else Raise (ValueError "id vuoto")
  end.

(** *** [main] *)

Record args : Type := MkArgs {
  out : string;
  split : bool;
  out_dir : string;      (* the directory of [--split], already defaulted *)
  strict : bool;
  id_key : string;
  arg_require_keys : list string
}.

(** a config file of the sorted listing: its name and what [load_data] made of it *)
Record config : Type := MkConfig {
  cfg_name : string;
  cfg_data : outcome json
}.

Record RecordResult : Type := MkResult {
  source_file : string;
  record_id : string;
  rendered : dict
}.

Record loop_state : Type := MkLoop {
  seen_ids : gset string;
  results : list RecordResult
}.

(** The body of [for cfg_path in config_files], in two halves.  First the
    config is loaded and checked, merged onto the defaults, and its id is read
    and normalized. *)
Definition prepare (a : args) (defaults : dict) (c : config) : outcome (dict * string) :=
  bind (cfg_data c) (fun cfg =>
  match cfg with
  | JDict _ =>
      match deep_merge (JDict defaults) cfg with
      | JDict variables =>
          bind (match arg_require_keys a with
                | [] => Ok tt
                | ks => require_keys variables ks
                end) (fun _ =>
          bind (normalize_id (dict_get (id_key a) variables)) (fun rid =>
          Ok (variables, rid)))
      | _ => Raise (ValueError ("Merge non produce dict per " +:+ cfg_name c +:+ "."))
      end
  | _ => Raise (ValueError ("Config " +:+ cfg_name c +:+ " deve essere un oggetto (dict)."))
  end).

Definition duplicate_id (rid : string) (c : config) : exn :=
  ValueError ("ID duplicato '" +:+ rid +:+ "' trovato in " +:+ cfg_name c).

(** Then the id is checked against the ids seen so far, the template is
    rendered and the record is kept. *)
Definition step (a : args) (template defaults : dict) (s : loop_state) (c : config)
  : outcome loop_state :=
  bind (prepare a defaults c) (fun vr =>
  let variables := fst vr in
  let rid := snd vr in
  if decide (rid ∈ seen_ids s) then Raise (duplicate_id rid c)
  else
    bind (render_placeholders (JDict template) variables (strict a)) (fun r =>
    match r with
    | JDict rd =>
        Ok (MkLoop ({[rid]} ∪ seen_ids s) (results s ++ [MkResult (cfg_name c) rid rd]))
    | _ => Raise (ValueError "Render deve produrre un dict alla radice.")
    end)).

Fixpoint loop (a : args) (template defaults : dict) (s : loop_state) (cs : list config)
  : outcome loop_state :=
  match cs with
  | [] => Ok s
  | c :: rest => bind (step a template defaults s c) (fun s' => loop a template defaults s' rest)
  end.

(** What a run leaves: the files [dump_json] wrote, oldest first, and the
    exception that ended the run if one did. *)
Record run_result : Type := MkRunResult {
  written : list (string * json);
  failure : option exn
}.

(** [main], from the loaded template and defaults on.  [dump_json] is called
    after the loop only. *)
Definition main (a : args) (template defaults : dict) (config_files : list config)
  : run_result :=
  match config_files with
  | [] => MkRunResult [] (Some (RuntimeError "Nessuna config trovata"))
  | _ =>
      match loop a template defaults (MkLoop ∅ []) config_files with
      | Raise e => MkRunResult [] (Some e)
      | Ok s =>
          let all_rendered := map (fun r => JDict (rendered r)) (results s) in
          let w := [(out a, JList all_rendered)] in
          let w :=
            if split a
            then w ++ map (fun r => (out_dir a +:+ "/" +:+ record_id r +:+ ".json", JDict (rendered r)))
                          (results s)
            else w in
          MkRunResult w None
      end
  end.

End Neutral.

(** ** [deep_merge] and [render_template] of the two [cropmeta.dexstats] scripts *)

Module Render.
Import PyText Placeholder.

(** truth of a value, as [override or {}] tests it *)
Definition truthy (v : json) : bool :=
  match v with
  | JNull => false
  | JBool b => b
  | JInt n => negb (Z.eqb n 0)
  | JFloat r => negb (String.eqb r "0.0" || String.eqb r "-0.0")
  | JStr s => nonempty s
  | JList l => match l with [] => false | _ => true end
  | JDict d => match d with [] => false | _ => true end
  end.

(** The loop of [deep_merge] over the items of [override]; an [override] that
    is no dict has no items here. *)
Fixpoint merge_dicts (base override : json) : dict :=
  let result := match base with JDict b => b | _ => [] end in
  match override with
  | JDict o =>
      fold_left (fun result kv =>
                   match dict_lookup (fst kv) result, snd kv with
                   | Some (JDict rb), JDict _ =>
                       dict_set (fst kv) (JDict (merge_dicts (JDict rb) (snd kv))) result
                   | _, _ => dict_set (fst kv) (snd kv) result
                   end) o result
  | _ => result
  end.

(** what [deep_merge] of the picture scripts stores under a key of [override] *)
Definition merged_value (old : option json) (v : json) : json :=
  match old, v with
  | Some (JDict rb), JDict _ => JDict (merge_dicts (JDict rb) v)
  | _, _ => v
  end.

(** [deep_merge(base, override)]: [(override or {}).items()] raises for an
    [override] that is true and no dict. *)
Definition deep_merge (base override : json) : outcome dict :=
  match override with
  | JDict _ => Ok (merge_dicts base override)
  | _ => if truthy override then Raise AttributeError else Ok (merge_dicts base override)
  end.

(** [lookup(path, ctx)] of [render_template] *)
Fixpoint lookup_parts (cur : json) (parts : list string) : json :=
  match parts with
  | [] => cur
  | part :: rest =>
      match cur with
      | JDict d =>
          match dict_lookup part d with
          | Some v => lookup_parts v rest
          | None => JNull
          end
      | _ => JNull
      end
  end.

Definition lookup (path : string) (ctx : dict) : json :=
  lookup_parts (JDict ctx) (split_dot path).

(** [replacer(match)] *)
Definition replacer (values : dict) (key m0 : string) : string :=
  match lookup key values with
  | JNull => m0
  | JDict _ | JList _ => json_dumps (lookup key values)
  | val => str val
  end.

Definition render_template (template_str : string) (values : dict) : string :=
  sub (replacer values) template_str.

End Render.

(** ** [card-generator.cropmeta.dexstats.py]

    Its [_sync_crop_sidecar] calls [_apply_crop_params_to_images] and
    [_extract_crop_params_from_images].  The script defines neither (it has
    the two helpers for one image only), and nothing it imports does: the
    first of the two calls that is reached ends in a [NameError]. *)

Module Orig.
Import Crop PyText.

(** [_sync_crop_sidecar].  A tree without image is returned at once.  With a
    sidecar that exists, the read is inside [try: ... except Exception] and
    changes no file, and the call of [_apply_crop_params_to_images] that
    follows raises; without one, the call of
    [_extract_crop_params_from_images] raises.  Nothing behind these calls is
    reached. *)
Definition _sync_crop_sidecar (rendered_json : dict) (sidecar_path : string) (st : fs)
  : outcome (dict * fs) :=
  match _iter_image_dicts (JDict rendered_json) with
  | [] => Ok (rendered_json, st)
  | _ :: _ =>
      if path_exists st sidecar_path
      then Raise (NameError "_apply_crop_params_to_images")
      else Raise (NameError "_extract_crop_params_from_images")
  end.

(** The loop [for k in _CROP_KEYS: if k not in existing: existing[k] =
    crop_params[k]] further down in the function, on its own: the sidecar
    after it and whether it changed, or the [KeyError] of the subscript. *)
Fixpoint backfill (ks : list string) (crop_params existing : dict) (changed : bool)
  : outcome (dict * bool) :=
  match ks with
  | [] => Ok (existing, changed)
  | k :: rest =>
      if dict_has k existing then backfill rest crop_params existing changed
      else match dict_lookup k crop_params with
           | Some v => backfill rest crop_params (dict_set k v existing) true
           | None => Raise (KeyError k)
           end
  end.

End Orig.

(** ** More of the scripts *)

(** [find_placeholders] of [card-generator.py] *)
Module Template.
Import PyText Placeholder.

(** [m.group(1)] of the matches of a scan, in order *)
Fixpoint hit_keys (ps : list piece) : list string :=
  match ps with
  | [] => []
  | Lit _ :: r => hit_keys r
  | Hit key _ :: r => key :: hit_keys r
  end.

Fixpoint find_placeholders (obj : json) : list string :=
  match obj with
  | JStr s => hit_keys (pieces s)
  | JList l => flat_map find_placeholders l
  | JDict d => flat_map (fun kv => find_placeholders (snd kv)) d
  | _ => []
  end.

End Template.

(** no key of the dict, at any depth of nested dicts, holds null *)
Fixpoint no_null_values (j : json) : bool :=
  match j with
  | JDict d =>
      forallb (fun kv => is_not_none (snd kv) && no_null_values (snd kv)) d
  | _ => true
  end.


(** the tree with every string leaf emptied: the keys, their order, the
    lengths of the lists and every leaf that is no string *)
Fixpoint skeleton (j : json) : json :=
  match j with
  | JStr _ => JStr EmptyString
  | JList l => JList (map skeleton l)
  | JDict d => JDict (map (fun kv => (fst kv, skeleton (snd kv))) d)
  | _ => j
  end.

(** what [main] of [card-generator.py] keeps of a config that went through *)
Definition record_of (a : Neutral.args) (template defaults : dict)
    (c : Neutral.config) (r : Neutral.RecordResult) : Prop :=
  Neutral.source_file r = Neutral.cfg_name c /\
  exists variables,
    Neutral.prepare a defaults c = Ok (variables, Neutral.record_id r) /\
    Neutral.render_placeholders (JDict template) variables (Neutral.strict a)
    = Ok (JDict (Neutral.rendered r)).
(** * Properties *)

(** ** dicts *)

Section dict_facts.
Implicit Types (d p : dict) (k : string) (v : json).

Lemma dict_has_lookup k d : dict_has k d = true <-> exists v, dict_lookup k d = Some v.
Proof.
  induction d as [|[k' v'] r IH]; simpl.
  - split; [discriminate | intros [v H]; discriminate].
  - destruct (String.eqb k k'); [split; eauto | exact IH].
Qed.

Lemma dict_has_false k d : dict_has k d = false <-> dict_lookup k d = None.
Proof.
  induction d as [|[k' v'] r IH]; simpl; [tauto|].
  destruct (String.eqb k k'); [split; discriminate | exact IH].
Qed.

Lemma dict_has_keys k d : dict_has k d = true <-> In k (keys d).
Proof.
  induction d as [|[k' v'] r IH]; simpl.
  - split; [discriminate | tauto].
  - destruct (String.eqb_spec k k') as [->|Hne].
    + split; auto.
    + rewrite IH. split; [auto | intros [H|H]; [congruence | exact H]].
Qed.

Lemma lookup_set_eq k v d : dict_lookup k (dict_set k v d) = Some v.
Proof.
  induction d as [|[k' v'] r IH]; simpl.
  - now rewrite String.eqb_refl.
  - destruct (String.eqb k k') eqn:E; simpl; rewrite E; auto.
Qed.

Lemma lookup_set_ne k k' v d : k <> k' -> dict_lookup k' (dict_set k v d) = dict_lookup k' d.
Proof.
  intros Hne. induction d as [|[k0 v0] r IH]; simpl.
  - destruct (String.eqb_spec k' k); congruence.
  - destruct (String.eqb_spec k k0) as [->|Hk]; simpl.
    + destruct (String.eqb_spec k' k0); congruence.
    + destruct (String.eqb k' k0); auto.
Qed.

Lemma get_set_eq k v d : dict_get k (dict_set k v d) = v.
Proof. unfold dict_get. now rewrite lookup_set_eq. Qed.

Lemma get_set_ne k k' v d : k <> k' -> dict_get k' (dict_set k v d) = dict_get k' d.
Proof. intros H. unfold dict_get. now rewrite lookup_set_ne. Qed.

Lemma keys_set_present k v d : dict_has k d = true -> keys (dict_set k v d) = keys d.
Proof.
  induction d as [|[k' v'] r IH]; simpl; [discriminate|].
  destruct (String.eqb k k'); simpl; [reflexivity|].
  intros H. now rewrite IH.
Qed.

Lemma keys_set_absent k v d : dict_has k d = false -> keys (dict_set k v d) = keys d ++ [k].
Proof.
  induction d as [|[k' v'] r IH]; simpl; [reflexivity|].
  destruct (String.eqb k k'); simpl; [discriminate|].
  intros H. now rewrite IH.
Qed.

Lemma set_same k v d : dict_lookup k d = Some v -> dict_set k v d = d.
Proof.
  induction d as [|[k' v'] r IH]; simpl; [discriminate|].
  destruct (String.eqb k k'); [intros [= ->]; reflexivity|].
  intros H. now rewrite IH.
Qed.

Lemma has_set k k' v d : dict_has k' (dict_set k v d) = (String.eqb k' k || dict_has k' d)%bool.
Proof.
  induction d as [|[k0 v0] r IH]; simpl.
  - destruct (String.eqb k' k); reflexivity.
  - destruct (String.eqb_spec k k0) as [->|Hk]; simpl.
    + destruct (String.eqb k' k0); reflexivity.
    + rewrite IH. destruct (String.eqb k' k0), (String.eqb k' k); reflexivity.
Qed.

(** [d.update(p)] leaves the keys [p] lacks, and never drops a key *)
Lemma lookup_update_other k d p :
  dict_lookup k p = None -> dict_lookup k (dict_update d p) = dict_lookup k d.
Proof.
  unfold dict_update. revert d.
  induction p as [|[k' v'] r IH]; intros d; simpl; [reflexivity|].
  destruct (String.eqb_spec k k') as [->|Hne]; [discriminate|].
  intros H. rewrite IH by exact H. apply lookup_set_ne. congruence.
Qed.

Lemma has_update k d p :
  dict_has k (dict_update d p) = (dict_has k d || dict_has k p)%bool.
Proof.
  unfold dict_update. revert d.
  induction p as [|[k' v'] r IH]; intros d; simpl; [now rewrite orb_false_r|].
  rewrite IH, has_set.
  destruct (String.eqb k k'), (dict_has k d), (dict_has k r); reflexivity.
Qed.

(** the items of a dict [p] (distinct keys) all land in [d.update(p)] *)
Lemma lookup_update_in k v d p :
  NoDup (keys p) -> dict_lookup k p = Some v -> dict_lookup k (dict_update d p) = Some v.
Proof.
  unfold dict_update. revert d.
  induction p as [|[k' v'] r IH]; intros d Hnd; simpl; [discriminate|].
  simpl in Hnd. apply NoDup_cons in Hnd as [Hnotin Hnd].
  destruct (String.eqb_spec k k') as [->|Hne].
  - intros [= ->].
    change (dict_lookup k' (dict_update (dict_set k' v d) r) = Some v).
    rewrite lookup_update_other; [apply lookup_set_eq|].
    apply dict_has_false. destruct (dict_has k' r) eqn:E; [|reflexivity].
    apply dict_has_keys in E. exfalso. apply Hnotin. now apply list_elem_of_In.
  - intros H. now apply IH.
Qed.
End dict_facts.

(** ** [_inject_src_into_images] *)

Lemma inject_item_spec (data_uri : string) (item : json) :
  match item with
  | JDict i =>
      if dict_has "src" i then
        exists i', Crop.inject_item data_uri item = JDict i' /\
                   keys i' = keys i /\
                   dict_lookup "src" i' = Some (JStr data_uri) /\
                   (forall k, k <> "src" -> dict_lookup k i' = dict_lookup k i)
      else Crop.inject_item data_uri item = item
  | _ => Crop.inject_item data_uri item = item
  end.
Proof.
  destruct item as [| | | | | |i]; simpl; try reflexivity.
  destruct (dict_has "src" i) eqn:E; [|reflexivity].
  eexists; split; [reflexivity|]. split; [now apply keys_set_present|].
  split; [apply lookup_set_eq|]. intros k Hk. apply lookup_set_ne. congruence.
Qed.

(** the frame of the injection *)
Lemma injection_frame (rendered : dict) (data_uri : string) :
  let out := Crop._inject_src_into_images rendered data_uri in
  keys out = keys rendered /\
  (forall k, k <> "images" -> dict_lookup k out = dict_lookup k rendered) /\
  (forall images, dict_lookup "images" rendered = Some (JList images) ->
     exists images',
       dict_lookup "images" out = Some (JList images') /\
       length images' = length images /\
       forall n item, nth_error images n = Some item ->
         exists item', nth_error images' n = Some item' /\
           match item with
           | JDict i =>
               if dict_has "src" i then
                 exists i', item' = JDict i' /\
                            keys i' = keys i /\
                            dict_lookup "src" i' = Some (JStr data_uri) /\
                            (forall k, k <> "src" -> dict_lookup k i' = dict_lookup k i)
               else item' = item
           | _ => item' = item
           end) /\
  ((forall images, dict_lookup "images" rendered <> Some (JList images)) -> out = rendered) /\
  (let nested := [("card", JDict [("images", JList [JDict [("src", JStr "old")]])])] in
   Crop._iter_image_dicts (JDict nested) = [[("src", JStr "old")]] /\
   Crop._inject_src_into_images nested data_uri = nested).
Proof.
  cbv zeta.
  assert (Hnested :
    Crop._iter_image_dicts
      (JDict [("card", JDict [("images", JList [JDict [("src", JStr "old")]])])])
    = [[("src", JStr "old")]] /\
    Crop._inject_src_into_images
      [("card", JDict [("images", JList [JDict [("src", JStr "old")]])])] data_uri
    = [("card", JDict [("images", JList [JDict [("src", JStr "old")]])])])
    by (split; reflexivity).
  unfold Crop._inject_src_into_images at 1 2 3 4, dict_get.
  destruct (dict_lookup "images" rendered) as [v|] eqn:E.
  - assert (Hhas : dict_has "images" rendered = true) by (apply dict_has_lookup; eauto).
    destruct v as [| | | | |l|];
      try (split; [reflexivity|]; split; [reflexivity|];
           split; [intros; discriminate|]; split; [reflexivity | exact Hnested]).
    split; [now apply keys_set_present|].
    split; [intros k Hk; apply lookup_set_ne; congruence|].
    split; [|split; [intros H; exfalso; now apply (H l) | exact Hnested]].
    intros images [= <-]. eexists. split; [apply lookup_set_eq|].
    split; [apply length_map|].
    intros n item Hn. eexists. split; [rewrite nth_error_map, Hn; reflexivity|].
    pose proof (inject_item_spec data_uri item) as H.
    destruct item as [| | | | | |i]; auto.
  - split; [reflexivity|]. split; [reflexivity|].
    split; [intros; discriminate|]. split; [reflexivity | exact Hnested].
Qed.


(** *** The walk of the reconciler *)

Lemma dict_items_in (l : list json) (img : dict) :
  In img (Crop.dict_items l) <-> In (JDict img) l.
Proof.
  induction l as [|x r IH]; [easy|].
  destruct x; cbn [Crop.dict_items In]; rewrite IH;
    (split; [intros H; try (right; exact H) | intros [H|H]; try discriminate H; try exact H]).
  - destruct H as [->|H]; [now left | now right].
  - left. congruence.
  - now right.
Qed.

(** the walk yields nothing but images *)
Lemma iter_sound (obj : json) (img : dict) :
  In img (Crop._iter_image_dicts obj) -> image_of img obj.
Proof.
  induction obj as [| | | | |l IH|d IH] using json_ind; cbn [Crop._iter_image_dicts];
    try (intros []).
  - intros (x & Hx & Hin)%in_flat_map.
    apply image_in_list with x; [exact Hx|].
    exact (proj1 (List.Forall_forall _ _) IH x Hx Hin).
  - intros ([k v] & Hkv & Hin)%in_flat_map. cbn [fst snd] in Hin.
    pose proof (proj1 (List.Forall_forall _ _) IH (k, v) Hkv) as Hv. cbn [snd] in Hv.
    destruct v as [| | | | |l'|d']; try (now destruct Hin).
    + destruct (String.eqb_spec k "images") as [->|Hne].
      * apply image_item with l'; [exact Hkv | now apply dict_items_in].
      * apply image_under_key with k (JList l'); [exact Hkv | easy | now apply Hv].
    + apply image_under_key with k (JDict d'); [exact Hkv | easy | now apply Hv].
Qed.

(** the walk yields every image, at whatever depth it lies *)
Lemma iter_complete (obj : json) (img : dict) :
  image_of img obj -> In img (Crop._iter_image_dicts obj).
Proof.
  induction 1 as [d l Hd Hl|d k v Hkv Hno _ IH|l x Hx _ IH]; cbn [Crop._iter_image_dicts];
    apply in_flat_map.
  - exists ("images", JList l). split; [exact Hd|]. cbn [fst snd String.eqb Ascii.eqb Bool.eqb].
    now apply dict_items_in.
  - exists (k, v). split; [exact Hkv|]. cbn [fst snd].
    destruct v as [| | | | |l'|d']; try exact IH.
    destruct (String.eqb_spec k "images") as [->|Hne]; [|exact IH].
    now destruct (Hno eq_refl l').
  - exists x. now split.
Qed.

Lemma in_set_other (k k' : string) (v v' : json) (d : dict) :
  k <> k' -> In (k, v) d -> In (k, v) (dict_set k' v' d).
Proof.
  intros Hne. induction d as [|[k0 v0] r IH]; [intros []|].
  cbn [dict_set]. destruct (String.eqb_spec k' k0) as [->|Hk0].
  - intros [[= <- <-]|Hin]; [now destruct Hne | now right].
  - intros [Heq|Hin]; [now left | right; now apply IH].
Qed.

(** C10.  [_inject_src_into_images] changes the [src] field of the dict items
    of the top-level [images] list that already hold a [src] key, and nothing
    else: the keys of the tree and their order stay, every field other than
    [images] keeps its value (an [images] list nested under another key with
    it), the [images] list keeps its length, its items that are no dict or
    hold no [src] stay as they are, and an item that is changed keeps its keys
    and all its other fields.  The walk of the reconciler, [_iter_image_dicts],
    goes to any depth: it yields exactly the dict items of the [images] lists
    reached through dict values and list items; so an image that lies under
    another key of the tree is left as it is by the injection, item and
    value, and is found by the walk in the tree the injection returns. *)
Theorem inject_src_frame (rendered : dict) (data_uri : string) :
  let out := Crop._inject_src_into_images rendered data_uri in
  keys out = keys rendered /\
  (forall k, k <> "images" -> dict_lookup k out = dict_lookup k rendered) /\
  (forall images, dict_lookup "images" rendered = Some (JList images) ->
     exists images',
       dict_lookup "images" out = Some (JList images') /\
       length images' = length images /\
       forall n item, nth_error images n = Some item ->
         exists item', nth_error images' n = Some item' /\
           match item with
           | JDict i =>
               if dict_has "src" i then
                 exists i', item' = JDict i' /\
                            keys i' = keys i /\
                            dict_lookup "src" i' = Some (JStr data_uri) /\
                            (forall k, k <> "src" -> dict_lookup k i' = dict_lookup k i)
               else item' = item
           | _ => item' = item
           end) /\
  ((forall images, dict_lookup "images" rendered <> Some (JList images)) -> out = rendered) /\
  (forall obj img, In img (Crop._iter_image_dicts obj) <-> image_of img obj) /\
  (forall k v img, k <> "images" -> In (k, v) rendered -> image_of img v ->
     In (k, v) out /\ In img (Crop._iter_image_dicts (JDict out))) /\
  (let nested := [("card", JDict [("images", JList [JDict [("src", JStr "old")]])])] in
   Crop._iter_image_dicts (JDict nested) = [[("src", JStr "old")]] /\
   Crop._inject_src_into_images nested data_uri = nested).
Proof.
  cbv zeta.
  destruct (injection_frame rendered data_uri) as (Hkeys & Hother & Himages & Hsame & Hn).
  split; [exact Hkeys|]. split; [exact Hother|]. split; [exact Himages|].
  split; [exact Hsame|].
  split; [intros obj img; split; [apply iter_sound | apply iter_complete]|].
  split; [|exact Hn].
  intros k v img Hk Hkv Himg.
  assert (Hout : In (k, v) (Crop._inject_src_into_images rendered data_uri)).
  { unfold Crop._inject_src_into_images.
    destruct (dict_get "images" rendered); try exact Hkv. now apply in_set_other. }
  split; [exact Hout|].
  apply iter_complete. apply image_under_key with k v; [exact Hout | easy | exact Himg].
Qed.

Lemma inject_src_frame_witness :
  let rendered := [("name", JStr "Pikachu");
                   ("images", JList [JDict [("src", JStr "old"); ("zoom", JInt 2)];
                                     JDict [("alt", JStr "no src")]; JStr "x"]);
                   ("back", JList [JDict [("images", JList [JDict [("src", JStr "kept")]])]])] in
  Crop._inject_src_into_images rendered "data:image/png;base64,AA"
  = [("name", JStr "Pikachu");
     ("images", JList [JDict [("src", JStr "data:image/png;base64,AA"); ("zoom", JInt 2)];
                       JDict [("alt", JStr "no src")]; JStr "x"]);
     ("back", JList [JDict [("images", JList [JDict [("src", JStr "kept")]])]])] /\
  dict_lookup "back" (Crop._inject_src_into_images rendered "data:image/png;base64,AA")
  = dict_lookup "back" rendered /\
  In [("src", JStr "kept")]
     (Crop._iter_image_dicts
        (JDict (Crop._inject_src_into_images rendered "data:image/png;base64,AA"))).
Proof.
  cbv zeta. split; [reflexivity|].
  destruct (inject_src_frame
              [("name", JStr "Pikachu");
               ("images", JList [JDict [("src", JStr "old"); ("zoom", JInt 2)];
                                 JDict [("alt", JStr "no src")]; JStr "x"]);
               ("back", JList [JDict [("images", JList [JDict [("src", JStr "kept")]])]])]
              "data:image/png;base64,AA") as (_ & Hother & _ & _ & Hwalk & Hnested & _).
  split; [apply Hother; discriminate|].
  apply (Hnested "back" (JList [JDict [("images", JList [JDict [("src", JStr "kept")]])]])).
  - discriminate.
  - right. right. left. reflexivity.
  - apply Hwalk. cbn. left. reflexivity.
Defined.

(** ** [deep_merge] *)

Lemma lookup_none_of_nodup (k : string) (v : json) (r : dict) :
  NoDup (keys ((k, v) :: r)) -> dict_lookup k r = None.
Proof.
  simpl. intros [Hnotin _]%NoDup_cons.
  apply dict_has_false. destruct (dict_has k r) eqn:E; [|reflexivity].
  apply dict_has_keys in E. exfalso. apply Hnotin. now apply list_elem_of_In.
Qed.

Lemma neutral_merge_unfold (b o : dict) :
  Neutral.deep_merge (JDict b) (JDict o) =
  JDict (fold_left (fun out kv =>
                      dict_set (fst kv) (Neutral.deep_merge (dict_get (fst kv) out) (snd kv)) out)
                   o b).
Proof. reflexivity. Qed.

Lemma neutral_merge_lookup (o b : dict) (k : string) :
  NoDup (keys o) ->
  dict_lookup k (fold_left (fun out kv =>
                   dict_set (fst kv) (Neutral.deep_merge (dict_get (fst kv) out) (snd kv)) out)
                 o b)
  = match dict_lookup k o with
    | Some v => Some (Neutral.deep_merge (dict_get k b) v)
    | None => dict_lookup k b
    end.
Proof.
  revert b. induction o as [|[k0 v0] r IH]; intros b Hnd; [reflexivity|].
  pose proof (lookup_none_of_nodup _ _ _ Hnd) as Hk0.
  simpl in Hnd. apply NoDup_cons in Hnd as [_ Hnd].
  cbn [fold_left fst snd dict_lookup]. rewrite IH by exact Hnd.
  destruct (String.eqb_spec k k0) as [->|Hne].
  - rewrite Hk0. apply lookup_set_eq.
  - rewrite get_set_ne by congruence. rewrite lookup_set_ne by congruence. reflexivity.
Qed.

Lemma render_merge_unfold (b o : dict) :
  Render.merge_dicts (JDict b) (JDict o) =
  fold_left (fun result kv =>
               match dict_lookup (fst kv) result, snd kv with
               | Some (JDict rb), JDict _ =>
                   dict_set (fst kv) (JDict (Render.merge_dicts (JDict rb) (snd kv))) result
               | _, _ => dict_set (fst kv) (snd kv) result
               end) o b.
Proof. reflexivity. Qed.

Lemma render_merge_lookup (o b : dict) (k : string) :
  NoDup (keys o) ->
  dict_lookup k (Render.merge_dicts (JDict b) (JDict o))
  = match dict_lookup k o with
    | Some v => Some (Render.merged_value (dict_lookup k b) v)
    | None => dict_lookup k b
    end.
Proof.
  rewrite render_merge_unfold.
  revert b. induction o as [|[k0 v0] r IH]; intros b Hnd; [reflexivity|].
  pose proof (lookup_none_of_nodup _ _ _ Hnd) as Hk0.
  simpl in Hnd. apply NoDup_cons in Hnd as [_ Hnd].
  cbn [fold_left fst snd dict_lookup]. rewrite IH by exact Hnd.
  destruct (String.eqb_spec k k0) as [->|Hne].
  - rewrite Hk0. unfold Render.merged_value.
    destruct (dict_lookup k0 b) as [[| | | | | |rb]|]; try apply lookup_set_eq.
    destruct v0; apply lookup_set_eq.
  - assert (Hset : forall w, dict_lookup k (dict_set k0 w b) = dict_lookup k b)
      by (intros w; apply lookup_set_ne; congruence).
    destruct (dict_lookup k0 b) as [[| | | | | |rb]|]; try (rewrite Hset; reflexivity).
    destruct v0; rewrite Hset; reflexivity.
Qed.

(** C7, the claim as stated fails: in [deep_merge] of the picture scripts a
    null value of the override replaces the value of the base. *)
Lemma deep_merge_null_erases :
  ~ (forall (base override merged : dict) (k : string) (v : json),
       dict_lookup k base = Some v ->
       dict_lookup k override = Some JNull ->
       Render.deep_merge (JDict base) (JDict override) = Ok merged ->
       dict_lookup k merged = Some v).
Proof.
  intros H.
  specialize (H [("a", JInt 1)] [("a", JNull)] [("a", JNull)] "a" (JInt 1)
                eq_refl eq_refl eq_refl).
  discriminate H.
Qed.

(** C7, amended.  [deep_merge] of [card-generator.py]: an override that is
    neither null nor a dict, or any non-null override of a base that is no
    dict, is the result; a null override yields the base, so it erases
    nothing; two dicts are merged key by key, every key of the override
    holding the merge of the base's value under that key (null if there is
    none) with the override's.  [deep_merge] of the picture scripts: two dicts
    are merged key by key as well, a key of the override holding the merge of
    the two values when both are dicts and the override's value otherwise,
    null included.  Both give [{a: {x: 1, y: 9}}] on the example. *)
Theorem deep_merge_semantics :
  (forall base override,
     is_not_none override = true ->
     (forall o, override <> JDict o) \/ (forall b, base <> JDict b) ->
     Neutral.deep_merge base override = override) /\
  (forall base, Neutral.deep_merge base JNull = base) /\
  (forall b o, NoDup (keys o) ->
     exists m, Neutral.deep_merge (JDict b) (JDict o) = JDict m /\
       forall k, dict_lookup k m =
                 match dict_lookup k o with
                 | Some v => Some (Neutral.deep_merge (dict_get k b) v)
                 | None => dict_lookup k b
                 end) /\
  Neutral.deep_merge (JDict [("a", JDict [("x", JInt 1); ("y", JInt 2)])])
                     (JDict [("a", JDict [("y", JInt 9)])])
  = JDict [("a", JDict [("x", JInt 1); ("y", JInt 9)])] /\
  (forall b o, NoDup (keys o) ->
     exists m, Render.deep_merge (JDict b) (JDict o) = Ok m /\
       forall k, dict_lookup k m =
                 match dict_lookup k o with
                 | Some v => Some (Render.merged_value (dict_lookup k b) v)
                 | None => dict_lookup k b
                 end) /\
  Render.deep_merge (JDict [("a", JDict [("x", JInt 1); ("y", JInt 2)])])
                    (JDict [("a", JDict [("y", JInt 9)])])
  = Ok [("a", JDict [("x", JInt 1); ("y", JInt 9)])].
Proof.
  split; [|split; [|split; [|split; [|split]]]].
  - intros base override Hnn [Ho|Hb].
    + destruct override; try reflexivity; [discriminate | now destruct (Ho d)].
    + destruct override; try reflexivity; [discriminate|].
      destruct base; try reflexivity. now destruct (Hb d0).
  - intros base. reflexivity.
  - intros b o Hnd. eexists. split; [apply neutral_merge_unfold|].
    intros k. now apply neutral_merge_lookup.
  - reflexivity.
  - intros b o Hnd. eexists. split; [reflexivity|].
    intros k. now apply render_merge_lookup.
  - reflexivity.
Qed.

Lemma deep_merge_semantics_witness :
  NoDup (keys [("a", JNull); ("b", JInt 2)]) /\
  exists m, Render.deep_merge (JDict [("a", JInt 1)]) (JDict [("a", JNull); ("b", JInt 2)]) = Ok m /\
    forall k, dict_lookup k m =
              match dict_lookup k [("a", JNull); ("b", JInt 2)] with
              | Some v => Some (Render.merged_value (dict_lookup k [("a", JInt 1)]) v)
              | None => dict_lookup k [("a", JInt 1)]
              end.
Proof.
  assert (Hnd : NoDup (keys [("a", JNull); ("b", JInt 2)])) by (apply (bool_decide_unpack _); vm_compute; exact I).
  split; [exact Hnd|].
  exact (proj1 (proj2 (proj2 (proj2 (proj2 deep_merge_semantics))))
           [("a", JInt 1)] [("a", JNull); ("b", JInt 2)] Hnd).
Defined.

(** ** The walk over the images *)

Lemma dict_items_on_dict (f : dict -> dict) (l : list json) :
  Crop.dict_items (map (Crop.on_dict f) l) = map f (Crop.dict_items l).
Proof.
  induction l as [|x r IH]; [reflexivity|].
  destruct x; simpl; rewrite IH; reflexivity.
Qed.

(** Mutating the yielded dicts does not change which dicts the walk yields. *)
Lemma iter_map_image_dicts (f : dict -> dict) (obj : json) :
  Crop._iter_image_dicts (Crop.map_image_dicts f obj) = map f (Crop._iter_image_dicts obj).
Proof.
  induction obj as [| | | | |l IH|d IH] using json_ind; try reflexivity.
  - cbn [Crop.map_image_dicts Crop._iter_image_dicts].
    induction IH as [|x r Hx _ IHr]; [reflexivity|].
    cbn [map flat_map]. rewrite map_app, Hx, IHr. reflexivity.
  - cbn [Crop.map_image_dicts Crop._iter_image_dicts].
    induction IH as [|[k v] r Hv _ IHr]; [reflexivity|].
    cbn [map flat_map fst snd] in *. rewrite map_app, IHr. f_equal.
    destruct v as [| | | | |l|d']; try exact Hv.
    destruct (String.eqb k "images"); [apply dict_items_on_dict | exact Hv].
Qed.

Lemma iter_map_image_items (f : dict -> dict) (d : dict) :
  Crop._iter_image_dicts (JDict (Crop.map_image_items f d))
  = map f (Crop._iter_image_dicts (JDict d)).
Proof. exact (iter_map_image_dicts f (JDict d)). Qed.

(** the top-level keys and the values that are no list or dict stay *)
Lemma keys_map_image_items (f : dict -> dict) (d : dict) :
  keys (Crop.map_image_items f d) = keys d.
Proof.
  unfold keys, Crop.map_image_items. rewrite map_map. reflexivity.
Qed.

Lemma lookup_map_image_items (f : dict -> dict) (d : dict) (k : string) :
  dict_lookup k (Crop.map_image_items f d)
  = option_map (fun v => match v with
                        | JList l => if String.eqb k "images" then JList (map (Crop.on_dict f) l)
                                     else Crop.map_image_dicts f v
                        | _ => Crop.map_image_dicts f v
                        end) (dict_lookup k d).
Proof.
  induction d as [|[k' v'] r IH]; [reflexivity|].
  cbn [Crop.map_image_items map fst snd dict_lookup].
  destruct (String.eqb_spec k k') as [->|Hne]; [reflexivity | exact IH].
Qed.

Lemma is_not_none_map_image_dicts (f : dict -> dict) (v : json) :
  is_not_none (Crop.map_image_dicts f v) = is_not_none v.
Proof. destruct v; reflexivity. Qed.

(** [rendered_json.get("dexStats")] is a text, a number, a truth value or
    null before the images are mutated exactly when it is after, and then it
    is the same *)
Lemma get_map_image_items_scalar (f : dict -> dict) (d : dict) (k : string) :
  k <> "images" ->
  dict_get k (Crop.map_image_items f d) = Crop.map_image_dicts f (dict_get k d).
Proof.
  intros Hk. unfold dict_get. rewrite lookup_map_image_items.
  destruct (dict_lookup k d) as [v|]; [|reflexivity]. simpl.
  destruct v; try reflexivity.
  destruct (String.eqb_spec k "images"); [contradiction | reflexivity].
Qed.

(** ** The sidecar files *)

Lemma read_json_dict (st : fs) (p : string) (j : json) :
  files st !! p = Some (Dumps j) -> p ∉ rd_deny st -> read_json st p = Ok j.
Proof.
  intros Hf Hrd. unfold read_json. rewrite Hf.
  destruct (decide (p ∈ rd_deny st)); [contradiction | reflexivity].
Qed.

Lemma read_json_denied (st : fs) (p : string) :
  p ∈ rd_deny st -> read_json st p = Raise OSError.
Proof.
  intros Hrd. unfold read_json.
  destruct (decide (p ∈ rd_deny st)); [reflexivity | contradiction].
Qed.

Lemma read_json_malformed (st : fs) (p : string) :
  files st !! p = Some Malformed -> raises (read_json st p) = true.
Proof.
  intros Hf. unfold read_json. rewrite Hf.
  destruct (decide (p ∈ rd_deny st)); reflexivity.
Qed.

Lemma path_exists_some (st : fs) (p : string) (t : text) :
  files st !! p = Some t -> path_exists st p = true.
Proof. intros H. unfold path_exists. now rewrite H. Qed.

Lemma path_exists_none (st : fs) (p : string) :
  files st !! p = None -> path_exists st p = false.
Proof. intros H. unfold path_exists. now rewrite H. Qed.

Lemma try_write_denied (st : fs) (p : string) (obj : json) :
  p ∈ wr_deny st -> try_write_json st p obj = st.
Proof.
  intros H. unfold try_write_json, write_json.
  destruct (decide (p ∈ wr_deny st)); [reflexivity | contradiction].
Qed.

Lemma try_write_allowed (st : fs) (p : string) (obj : json) :
  p ∉ wr_deny st ->
  try_write_json st p obj =
  MkFs (<[p := Dumps obj]> (files st)) (rd_deny st) (wr_deny st) (journal st ++ [(p, obj)]).
Proof.
  intros H. unfold try_write_json, write_json.
  destruct (decide (p ∈ wr_deny st)); [contradiction | reflexivity].
Qed.

(** a write, swallowed or not, leaves the other files and the permissions *)
Lemma try_write_frame (st : fs) (p : string) (obj : json) :
  rd_deny (try_write_json st p obj) = rd_deny st /\
  wr_deny (try_write_json st p obj) = wr_deny st /\
  (forall q, q <> p -> files (try_write_json st p obj) !! q = files st !! q) /\
  (files (try_write_json st p obj) !! p = files st !! p \/
   files (try_write_json st p obj) !! p = Some (Dumps obj)).
Proof.
  unfold try_write_json, write_json.
  destruct (decide (p ∈ wr_deny st)); simpl.
  - repeat split; auto.
  - repeat split; [|right; apply lookup_insert_eq].
    intros q Hq. apply lookup_insert_ne. congruence.
Qed.

(** ** [_sync_crop_sidecar] of the [fixed3] script, branch by branch *)

Lemma sync_no_image (rendered : dict) (p : string) (st : fs) :
  Crop._iter_image_dicts (JDict rendered) = [] ->
  Fixed3._sync_crop_sidecar rendered p st = Ok (rendered, st).
Proof. intros H. unfold Fixed3._sync_crop_sidecar. now rewrite H. Qed.

Lemma sync_missing (rendered : dict) (p : string) (st : fs) (img0 : dict) (rest : list dict) :
  Crop._iter_image_dicts (JDict rendered) = img0 :: rest ->
  files st !! p = None ->
  Fixed3._sync_crop_sidecar rendered p st =
  Ok (rendered,
      try_write_json st p
        (JDict (if is_not_none (dict_get "dexStats" rendered)
                then dict_set "dexStats" (dict_get "dexStats" rendered)
                       (dict_update [] (Crop._extract_crop_params_from_image img0))
                else dict_update [] (Crop._extract_crop_params_from_image img0)))).
Proof.
  intros Hi Hf. unfold Fixed3._sync_crop_sidecar.
  rewrite Hi, (path_exists_none _ _ Hf). reflexivity.
Qed.

Lemma sync_unreadable (rendered : dict) (p : string) (st : fs) (t : text) :
  files st !! p = Some t ->
  raises (read_json st p) = true ->
  Fixed3._sync_crop_sidecar rendered p st = Ok (rendered, st).
Proof.
  intros Hf Hr. unfold Fixed3._sync_crop_sidecar.
  destruct (Crop._iter_image_dicts (JDict rendered)); [reflexivity|].
  rewrite (path_exists_some _ _ _ Hf).
  destruct (read_json st p); [discriminate | reflexivity].
Qed.

Lemma sync_existing (rendered : dict) (p : string) (st : fs) (e : dict) :
  Crop._iter_image_dicts (JDict rendered) <> [] ->
  files st !! p = Some (Dumps (JDict e)) ->
  p ∉ rd_deny st ->
  Fixed3._sync_crop_sidecar rendered p st =
  let rendered1 := Crop._apply_crop_params_to_images rendered e in
  if is_not_none (dict_get "dexStats" e) then
    Ok (dict_set "dexStats" (dict_get "dexStats" e) rendered1, st)
  else if is_not_none (dict_get "dexStats" rendered) then
    Ok (rendered1,
        try_write_json st p (JDict (dict_set "dexStats" (dict_get "dexStats" rendered1) e)))
  else Ok (rendered1, st).
Proof.
  intros Hi Hf Hrd. unfold Fixed3._sync_crop_sidecar.
  destruct (Crop._iter_image_dicts (JDict rendered)); [contradiction|].
  rewrite (path_exists_some _ _ _ Hf), (read_json_dict _ _ _ Hf Hrd). cbv zeta.
  unfold Crop._apply_crop_params_to_images.
  rewrite get_map_image_items_scalar by discriminate.
  rewrite is_not_none_map_image_dicts. reflexivity.
Qed.

(** ** Captions *)

(** C3.  For a rendered tree with at least one image and a sidecar that reads
    as a dict whose [dexStats] is the text [a], the reconciler of the [fixed3]
    script returns the tree with [dexStats] equal to [a], whatever caption
    was rendered, and writes nothing: the sidecar on disk keeps [a].  On the
    same input the reconciler of the earlier script does not get that far: it
    raises [NameError] at its call of [_apply_crop_params_to_images], before
    the statement that would store the caption of the sidecar in the tree. *)
Theorem caption_first_write_wins (rendered : dict) (p : string) (st : fs) (e : dict)
    (a : string) :
  Crop._iter_image_dicts (JDict rendered) <> [] ->
  files st !! p = Some (Dumps (JDict e)) ->
  p ∉ rd_deny st ->
  dict_lookup "dexStats" e = Some (JStr a) ->
  (exists out, Fixed3._sync_crop_sidecar rendered p st = Ok (out, st) /\
               dict_get "dexStats" out = JStr a) /\
  Orig._sync_crop_sidecar rendered p st = Raise (NameError "_apply_crop_params_to_images").
Proof.
  intros Hi Hf Hrd Ha. split.
  - rewrite (sync_existing _ _ _ _ Hi Hf Hrd). cbv zeta.
    unfold dict_get at 1. rewrite Ha. cbn [is_not_none].
    eexists. split; [reflexivity|].
    unfold dict_get at 2. rewrite Ha. apply get_set_eq.
  - unfold Orig._sync_crop_sidecar.
    destruct (Crop._iter_image_dicts (JDict rendered)); [contradiction|].
    now rewrite (path_exists_some _ _ _ Hf).
Qed.

Lemma caption_first_write_wins_witness :
  (exists out,
     Fixed3._sync_crop_sidecar
       [("images", JList [JDict [("src", JStr "x")]]); ("dexStats", JStr "B")]
       "001.jpg.crop.json"
       (MkFs {[ "001.jpg.crop.json" := Dumps (JDict [("dexStats", JStr "A")]) ]} ∅ ∅ [])
     = Ok (out, MkFs {[ "001.jpg.crop.json" := Dumps (JDict [("dexStats", JStr "A")]) ]} ∅ ∅ [])
     /\ dict_get "dexStats" out = JStr "A") /\
  Orig._sync_crop_sidecar
    [("images", JList [JDict [("src", JStr "x")]]); ("dexStats", JStr "B")]
    "001.jpg.crop.json"
    (MkFs {[ "001.jpg.crop.json" := Dumps (JDict [("dexStats", JStr "A")]) ]} ∅ ∅ [])
  = Raise (NameError "_apply_crop_params_to_images").
Proof.
  apply (caption_first_write_wins
           [("images", JList [JDict [("src", JStr "x")]]); ("dexStats", JStr "B")]
           "001.jpg.crop.json"
           (MkFs {[ "001.jpg.crop.json" := Dumps (JDict [("dexStats", JStr "A")]) ]} ∅ ∅ [])
           [("dexStats", JStr "A")] "A").
  - simpl. discriminate.
  - reflexivity.
  - apply not_elem_of_empty.
  - reflexivity.
Defined.

(** ** Crop parameters from the sidecar *)

(** every item of the sidecar, crop parameter or not, is on every image the
    walk yields once [_apply_crop_params_to_images] has run *)
Lemma apply_reaches_every_image (rendered e img : dict) (k : string) (v : json) :
  NoDup (keys e) ->
  In img (Crop._iter_image_dicts (JDict (Crop._apply_crop_params_to_images rendered e))) ->
  dict_lookup k e = Some v ->
  dict_lookup k img = Some v.
Proof.
  intros Hnd Hin Hk. unfold Crop._apply_crop_params_to_images in Hin.
  rewrite iter_map_image_items in Hin. apply in_map_iff in Hin as (img0 & <- & _).
  now apply lookup_update_in.
Qed.

(** C4, the code at the failing input: the sidecar holds a caption and no
    crop parameter, and the reconciler of the [fixed3] script writes
    [dexStats] onto the image. *)
Theorem sidecar_caption_lands_on_images :
  let st := MkFs {[ "001.jpg.crop.json" := Dumps (JDict [("dexStats", JStr "A")]) ]} ∅ ∅ [] in
  let rendered := [("images", JList [JDict [("src", JStr "x")]])] in
  let out := [("images", JList [JDict [("src", JStr "x"); ("dexStats", JStr "A")]]);
              ("dexStats", JStr "A")] in
  Fixed3._sync_crop_sidecar rendered "001.jpg.crop.json" st = Ok (out, st).
Proof. reflexivity. Qed.

(** ** Failures of the sidecar file *)

(** C6, the claim as stated fails: when an existing sidecar is read and only
    the write of the caption fails, the record does not go on with the values
    of the template, it carries the crop parameters of the sidecar. *)
Lemma failed_write_keeps_sidecar_values :
  ~ (forall (rendered : dict) (p : string) (st : fs) (out : dict) (st' : fs),
       p ∈ wr_deny st ->
       Fixed3._sync_crop_sidecar rendered p st = Ok (out, st') ->
       out = rendered).
Proof.
  intros H.
  assert (Hw : "001.jpg.crop.json" ∈ ({[ "001.jpg.crop.json" ]} : gset string))
    by (apply elem_of_singleton; reflexivity).
  specialize (H [("images", JList [JDict [("zoom", JInt 1)]]); ("dexStats", JStr "B")]
                "001.jpg.crop.json"
                (MkFs {[ "001.jpg.crop.json" := Dumps (JDict [("zoom", JInt 2)]) ]}
                      ∅ {[ "001.jpg.crop.json" ]} [])
                _ _ Hw eq_refl).
  discriminate H.
Qed.

(** C6, amended.  The reconciler of the [fixed3] script raises only when the
    sidecar reads as JSON that is no object; no failure to read or to write
    makes it raise, and the record is then written and the run goes on.  When
    the sidecar exists and cannot be read or parsed, or when it does not exist
    and cannot be written, the tree keeps the values of the template and no
    file changes; a write that fails never changes a file. *)
Theorem sidecar_failures_recovered (rendered : dict) (p : string) (st : fs) :
  ((forall j, read_json st p = Ok j -> exists e, j = JDict e) ->
   raises (Fixed3._sync_crop_sidecar rendered p st) = false) /\
  (forall t, files st !! p = Some t -> raises (read_json st p) = true ->
     Fixed3._sync_crop_sidecar rendered p st = Ok (rendered, st)) /\
  (files st !! p = None -> p ∈ wr_deny st ->
     Fixed3._sync_crop_sidecar rendered p st = Ok (rendered, st)) /\
  (p ∈ wr_deny st ->
   forall out st', Fixed3._sync_crop_sidecar rendered p st = Ok (out, st') -> st' = st) /\
  (forall (r : Fixed3.record) (s : Fixed3.run_state) (out : dict) (st' : fs),
     Fixed3.rendered r = JDict rendered ->
     Fixed3._sync_crop_sidecar (Crop._inject_src_into_images rendered (Fixed3.data_uri r))
                               (Fixed3.sidecar r) (Fixed3.disk s) = Ok (out, st') ->
     Fixed3.process r s = Ok (Fixed3.MkRun st' (Fixed3.outputs s ++ [(Fixed3.stem r, out)]))).
Proof.
  split; [|split; [|split; [|split]]].
  - intros Hobj. unfold Fixed3._sync_crop_sidecar.
    destruct (Crop._iter_image_dicts (JDict rendered)); [reflexivity|].
    destruct (path_exists st p); [|reflexivity].
    destruct (read_json st p) as [j|]; [|reflexivity].
    destruct (Hobj j eq_refl) as [e ->].
    destruct (is_not_none (dict_get "dexStats" e)); [reflexivity|].
    destruct (is_not_none _); reflexivity.
  - intros t Hf Hr. now apply sync_unreadable with t.
  - intros Hf Hw.
    destruct (Crop._iter_image_dicts (JDict rendered)) as [|img0 rest] eqn:Hi.
    + now apply sync_no_image.
    + rewrite (sync_missing _ _ _ _ _ Hi Hf). now rewrite try_write_denied.
  - intros Hw out st'. unfold Fixed3._sync_crop_sidecar.
    destruct (Crop._iter_image_dicts (JDict rendered)); [now intros [= _ <-]|].
    destruct (path_exists st p).
    + destruct (read_json st p) as [j|]; [|now intros [= _ <-]].
      destruct j; try discriminate.
      destruct (is_not_none (dict_get "dexStats" d)); [now intros [= _ <-]|].
      destruct (is_not_none _); [|now intros [= _ <-]].
      rewrite try_write_denied by exact Hw. now intros [= _ <-].
    + rewrite try_write_denied by exact Hw. now intros [= _ <-].
  - intros r s out st' Hr Hs. unfold Fixed3.process. rewrite Hr, Hs. reflexivity.
Qed.

Lemma sidecar_failures_recovered_witness :
  let rendered := [("images", JList [JDict [("zoom", JInt 1)]]); ("dexStats", JStr "B")] in
  let st := MkFs {[ "001.jpg.crop.json" := Malformed ]} ∅ {[ "001.jpg.crop.json" ]} [] in
  files st !! "001.jpg.crop.json" = Some Malformed /\
  raises (read_json st "001.jpg.crop.json") = true /\
  Fixed3._sync_crop_sidecar rendered "001.jpg.crop.json" st = Ok (rendered, st).
Proof.
  cbv zeta. split; [reflexivity|]. split; [reflexivity|].
  apply (proj1 (proj2 (sidecar_failures_recovered
           [("images", JList [JDict [("zoom", JInt 1)]]); ("dexStats", JStr "B")]
           "001.jpg.crop.json"
           (MkFs {[ "001.jpg.crop.json" := Malformed ]} ∅ {[ "001.jpg.crop.json" ]} [])))
         Malformed); reflexivity.
Defined.

(** ** Extracting the crop parameters *)

Lemma extract_fold_lookup (ks : list string) (img acc : dict) (k : string) :
  dict_lookup k (fold_left (fun params k0 =>
                              match dict_lookup k0 img with
                              | Some v => dict_set k0 v params
                              | None => params
                              end) ks acc)
  = if existsb (String.eqb k) ks
    then match dict_lookup k img with
         | Some v => Some v
         | None => dict_lookup k acc
         end
    else dict_lookup k acc.
Proof.
  revert acc. induction ks as [|k0 r IH]; intros acc; [reflexivity|].
  cbn [fold_left existsb]. rewrite IH.
  destruct (String.eqb_spec k k0) as [->|Hne]; cbn [orb].
  - destruct (dict_lookup k0 img) as [v|]; [rewrite lookup_set_eq|];
      destruct (existsb (String.eqb k0) r); reflexivity.
  - destruct (dict_lookup k0 img) as [v|]; [rewrite lookup_set_ne by congruence|];
      reflexivity.
Qed.

(** the extracted parameters are the crop fields of the image, and only they *)
Lemma extract_lookup (img : dict) (k : string) :
  dict_lookup k (Crop._extract_crop_params_from_image img)
  = if Crop.is_crop_key k then dict_lookup k img else None.
Proof.
  unfold Crop._extract_crop_params_from_image, Crop.is_crop_key.
  rewrite extract_fold_lookup. cbn [dict_lookup].
  destruct (existsb (String.eqb k) Crop._CROP_KEYS); [|reflexivity].
  destruct (dict_lookup k img); reflexivity.
Qed.

Lemma nodup_set (k : string) (v : json) (d : dict) :
  NoDup (keys d) -> NoDup (keys (dict_set k v d)).
Proof.
  intros Hnd. destruct (dict_has k d) eqn:E.
  - now rewrite keys_set_present.
  - rewrite keys_set_absent by exact E.
    apply NoDup_app. split; [exact Hnd|]. split; [|apply NoDup_singleton].
    intros x Hx [= ->]%list_elem_of_singleton.
    apply list_elem_of_In, dict_has_keys in Hx. congruence.
Qed.

Lemma extract_nodup (img : dict) : NoDup (keys (Crop._extract_crop_params_from_image img)).
Proof.
  unfold Crop._extract_crop_params_from_image.
  assert (H : forall ks acc, NoDup (keys acc) ->
            NoDup (keys (fold_left (fun params k0 =>
                                      match dict_lookup k0 img with
                                      | Some v => dict_set k0 v params
                                      | None => params
                                      end) ks acc))).
  { induction ks as [|k0 r IH]; intros acc Hacc; [exact Hacc|].
    cbn [fold_left]. apply IH. destruct (dict_lookup k0 img); [now apply nodup_set | exact Hacc]. }
  apply H. constructor.
Qed.

(** [sidecar.update(crop_params)] on the empty dict *)
Lemma update_empty_lookup (c : dict) (k : string) :
  NoDup (keys c) -> dict_lookup k (dict_update [] c) = dict_lookup k c.
Proof.
  intros Hnd. destruct (dict_lookup k c) as [v|] eqn:E.
  - now apply lookup_update_in.
  - now rewrite lookup_update_other.
Qed.

Lemma is_crop_key_dexStats : Crop.is_crop_key "dexStats" = false.
Proof. reflexivity. Qed.

(** ** More on the walk and on the helpers *)

Lemma update_nothing (d : dict) : dict_update d [] = d.
Proof. reflexivity. Qed.

Lemma map_image_dicts_id (f : dict -> dict) (obj : json) :
  (forall d, f d = d) -> Crop.map_image_dicts f obj = obj.
Proof.
  intros Hf.
  assert (Hon : forall l, map (Crop.on_dict f) l = l).
  { induction l as [|x r IH]; [reflexivity|]. cbn [map]. rewrite IH.
    destruct x; cbn [Crop.on_dict]; rewrite ?Hf; reflexivity. }
  induction obj as [| | | | |l IH|d IH] using json_ind; try reflexivity.
  - cbn [Crop.map_image_dicts]. f_equal.
    induction IH as [|x r Hx _ IHr]; [reflexivity|]. cbn [map]. now rewrite Hx, IHr.
  - cbn [Crop.map_image_dicts]. f_equal.
    induction IH as [|[k v] r Hv _ IHr]; [reflexivity|].
    cbn [map fst snd] in *. rewrite IHr. f_equal. f_equal.
    destruct v; try exact Hv.
    destruct (String.eqb k "images"); [now rewrite Hon | exact Hv].
Qed.

Lemma apply_nothing (rendered : dict) :
  Crop._apply_crop_params_to_images rendered [] = rendered.
Proof.
  pose proof (map_image_dicts_id (fun img => Crop._apply_crop_params_to_image img [])
                (JDict rendered) (fun d => eq_refl)) as H.
  now injection H.
Qed.

(** what one item of a dict adds to the walk *)
Lemma iter_dict_cons (k : string) (v : json) (r : dict) :
  Crop._iter_image_dicts (JDict ((k, v) :: r))
  = (match v with
     | JList l => if String.eqb k "images" then Crop.dict_items l else Crop._iter_image_dicts v
     | _ => Crop._iter_image_dicts v
     end) ++ Crop._iter_image_dicts (JDict r).
Proof. reflexivity. Qed.

(** setting a key other than [images] to a value without images, where the
    old value had none either, leaves the walk as it was *)
Lemma iter_set_imageless (k : string) (v : json) (d : dict) :
  k <> "images" ->
  Crop._iter_image_dicts v = [] ->
  Crop._iter_image_dicts (dict_get k d) = [] ->
  Crop._iter_image_dicts (JDict (dict_set k v d)) = Crop._iter_image_dicts (JDict d).
Proof.
  intros Hk Hv. unfold dict_get.
  assert (Hki : String.eqb k "images" = false) by (now apply String.eqb_neq).
  induction d as [|[k0 v0] r IH]; intros Hold.
  - cbn [dict_set]. rewrite iter_dict_cons, Hki.
    destruct v; rewrite ?Hv; reflexivity.
  - cbn [dict_set dict_lookup] in *.
    destruct (String.eqb_spec k k0) as [->|Hne].
    + rewrite !iter_dict_cons, Hki. f_equal.
      destruct v, v0; rewrite ?Hv, ?Hold; reflexivity.
    + rewrite !iter_dict_cons, IH by exact Hold. reflexivity.
Qed.

Lemma backfill_spec (ks : list string) (cp ex : dict) (ch : bool) :
  (forall k, In k ks -> dict_has k ex = true \/ exists v, dict_lookup k cp = Some v) ->
  exists ex',
    Orig.backfill ks cp ex ch
    = Ok (ex', (ch || existsb (fun k => negb (dict_has k ex)) ks)%bool) /\
    forall k, dict_lookup k ex' =
              match dict_lookup k ex with
              | Some v => Some v
              | None => if existsb (String.eqb k) ks then dict_lookup k cp else None
              end.
Proof.
  revert ex ch. induction ks as [|k0 r IH]; intros ex ch Hall.
  - exists ex. split; [cbn; now rewrite orb_false_r|].
    intros k. cbn. now destruct (dict_lookup k ex).
  - cbn [Orig.backfill existsb].
    destruct (dict_has k0 ex) eqn:Ek0.
    + destruct (IH ex ch) as (ex' & Hb & Hl); [intros k Hk; apply Hall; now right|].
      exists ex'. split; [exact Hb|].
      intros k. rewrite Hl. destruct (dict_lookup k ex) as [v|] eqn:Ek; [reflexivity|].
      destruct (String.eqb_spec k k0) as [->|Hne]; [|reflexivity].
      apply dict_has_false in Ek. congruence.
    + destruct (Hall k0 (or_introl eq_refl)) as [Hex|[v Hv]]; [congruence|].
      rewrite Hv.
      destruct (IH (dict_set k0 v ex) true) as (ex' & Hb & Hl).
      { intros k Hk. destruct (Hall k (or_intror Hk)) as [Hex|Hcp]; [left|now right].
        rewrite has_set, Hex. apply orb_true_r. }
      exists ex'. split.
      { rewrite Hb. cbn [negb]. rewrite !orb_true_r. reflexivity. }
      intros k. rewrite Hl.
      destruct (String.eqb_spec k k0) as [->|Hne].
      * rewrite lookup_set_eq. apply dict_has_false in Ek0. now rewrite Ek0.
      * rewrite lookup_set_ne by congruence. reflexivity.
Qed.

(** ** Creating the sidecar *)

(** C5, the claim as stated fails on the [fixed3] script twice over: a sidecar
    that does not parse is left as it is and no new one is written, and a tree
    with nothing to extract still gets a sidecar, the empty object. *)
Lemma sidecar_creation_differs :
  ~ (forall (rendered : dict) (p : string) (st : fs) (img0 : dict) (rest : list dict)
            (out : dict) (st' : fs),
       Crop._iter_image_dicts (JDict rendered) = img0 :: rest ->
       files st !! p = Some Malformed ->
       p ∉ wr_deny st ->
       Fixed3._sync_crop_sidecar rendered p st = Ok (out, st') ->
       exists sc, files st' !! p = Some (Dumps (JDict sc)))
  /\
  ~ (forall (rendered : dict) (p : string) (st : fs) (img0 : dict) (rest : list dict)
            (out : dict) (st' : fs),
       Crop._iter_image_dicts (JDict rendered) = img0 :: rest ->
       files st !! p = None ->
       Crop._extract_crop_params_from_image img0 = [] ->
       dict_get "dexStats" rendered = JNull ->
       Fixed3._sync_crop_sidecar rendered p st = Ok (out, st') ->
       files st' !! p = None).
Proof.
  split; intros H.
  - specialize (H [("images", JList [JDict [("zoom", JInt 1)]])] "001.jpg.crop.json"
                  (MkFs {[ "001.jpg.crop.json" := Malformed ]} ∅ ∅ [])
                  _ _ _ _ eq_refl eq_refl (not_elem_of_empty _) eq_refl).
    destruct H as [sc H]. discriminate H.
  - specialize (H [("images", JList [JDict [("src", JStr "x")]])] "001.jpg.crop.json"
                  (MkFs ∅ ∅ ∅ [])
                  _ _ _ _ eq_refl eq_refl eq_refl eq_refl eq_refl).
    discriminate H.
Qed.

Lemma is_crop_key_in (k : string) : Crop.is_crop_key k = true <-> In k Crop._CROP_KEYS.
Proof.
  unfold Crop.is_crop_key. rewrite existsb_exists. split.
  - intros (x & Hx & ->%String.eqb_eq). exact Hx.
  - intros H. exists k. split; [exact H | apply String.eqb_refl].
Qed.

(** C5, amended.  The [fixed3] script: when the sidecar does not exist (and
    can be written), the tree is left as rendered and a new sidecar is written
    that holds exactly the crop parameters of the first image and the
    top-level [dexStats] when that is not null, the empty object if there is
    neither; when the sidecar exists and cannot be read or parsed, nothing is
    written and the tree is left as rendered. *)
Theorem sidecar_creation (rendered : dict) (p : string) (st : fs)
    (img0 : dict) (rest : list dict) :
  Crop._iter_image_dicts (JDict rendered) = img0 :: rest ->
  (files st !! p = None -> p ∉ wr_deny st ->
   exists sc,
     Fixed3._sync_crop_sidecar rendered p st
     = Ok (rendered, MkFs (<[p := Dumps (JDict sc)]> (files st)) (rd_deny st) (wr_deny st)
                          (journal st ++ [(p, JDict sc)])) /\
     forall k, dict_lookup k sc =
               if Crop.is_crop_key k then dict_lookup k img0
               else if String.eqb k "dexStats"
                    then (if is_not_none (dict_get "dexStats" rendered)
                          then Some (dict_get "dexStats" rendered) else None)
                    else None) /\
  (forall t, files st !! p = Some t -> raises (read_json st p) = true ->
     Fixed3._sync_crop_sidecar rendered p st = Ok (rendered, st)).
Proof.
  intros Hi. split.
  - intros Hf Hw. rewrite (sync_missing _ _ _ _ _ Hi Hf), try_write_allowed by exact Hw.
    eexists. split; [reflexivity|].
    intros k.
    assert (HU : dict_lookup k (dict_update [] (Crop._extract_crop_params_from_image img0))
                 = if Crop.is_crop_key k then dict_lookup k img0 else None)
      by (rewrite update_empty_lookup by apply extract_nodup; apply extract_lookup).
    destruct (String.eqb_spec k "dexStats") as [->|Hne].
    + rewrite is_crop_key_dexStats in *.
      destruct (is_not_none (dict_get "dexStats" rendered)); [apply lookup_set_eq | exact HU].
    + destruct (is_not_none (dict_get "dexStats" rendered));
        [rewrite lookup_set_ne by congruence|]; rewrite HU;
        destruct (Crop.is_crop_key k); reflexivity.
  - intros t Hf Hr. now apply sync_unreadable with t.
Qed.

Lemma sidecar_creation_witness :
  exists sc,
    Fixed3._sync_crop_sidecar
      [("images", JList [JDict [("src", JStr "x"); ("zoom", JInt 1)]]); ("dexStats", JStr "A")]
      "001.jpg.crop.json" (MkFs ∅ ∅ ∅ [])
    = Ok ([("images", JList [JDict [("src", JStr "x"); ("zoom", JInt 1)]]); ("dexStats", JStr "A")],
          MkFs (<["001.jpg.crop.json" := Dumps (JDict sc)]> ∅) ∅ ∅
               [("001.jpg.crop.json", JDict sc)]) /\
    dict_lookup "zoom" sc = Some (JInt 1) /\
    dict_lookup "dexStats" sc = Some (JStr "A") /\
    dict_lookup "src" sc = None.
Proof.
  assert (Hf : files (MkFs ∅ ∅ ∅ []) !! "001.jpg.crop.json" = None) by reflexivity.
  destruct (proj1 (sidecar_creation
                     [("images", JList [JDict [("src", JStr "x"); ("zoom", JInt 1)]]);
                      ("dexStats", JStr "A")]
                     "001.jpg.crop.json" (MkFs ∅ ∅ ∅ [])
                     [("src", JStr "x"); ("zoom", JInt 1)] [] eq_refl)
                  Hf (not_elem_of_empty _)) as (sc & Hs & Hl).
  exists sc. split; [exact Hs|].
  split; [|split]; rewrite Hl; reflexivity.
Defined.

(** ** Backfill *)

(** C2, the claim as stated fails: the [fixed3] script adds no crop parameter
    to a sidecar that exists.  With [zoom: 2] stored and [rotation: 90]
    rendered, the sidecar still lacks [rotation] after the run. *)
Lemma no_crop_backfill_in_fixed3 :
  ~ (forall (rendered : dict) (p : string) (st : fs) (e img0 : dict) (rest : list dict)
            (k : string) (v : json) (out : dict) (st' : fs),
       Crop._iter_image_dicts (JDict rendered) = img0 :: rest ->
       files st !! p = Some (Dumps (JDict e)) ->
       p ∉ rd_deny st -> p ∉ wr_deny st ->
       In k Crop._CROP_KEYS ->
       dict_lookup k img0 = Some v ->
       dict_lookup k e = None ->
       Fixed3._sync_crop_sidecar rendered p st = Ok (out, st') ->
       exists e', files st' !! p = Some (Dumps (JDict e')) /\ dict_lookup k e' = Some v).
Proof.
  intros H.
  specialize (H [("images", JList [JDict [("rotation", JInt 90)]])] "001.jpg.crop.json"
                (MkFs {[ "001.jpg.crop.json" := Dumps (JDict [("zoom", JInt 2)]) ]} ∅ ∅ [])
                [("zoom", JInt 2)] [("rotation", JInt 90)] [] "rotation" (JInt 90) _ _
                eq_refl eq_refl (not_elem_of_empty _) (not_elem_of_empty _)
                ltac:(cbn; tauto) eq_refl eq_refl eq_refl).
  destruct H as (e' & Hf & Hk).
  assert (He : e' = [("zoom", JInt 2)]) by (vm_compute in Hf; congruence).
  subst e'. discriminate Hk.
Qed.

Lemma is_not_none_get (k : string) (d : dict) (v : json) :
  dict_lookup k d = Some v -> v <> JNull -> is_not_none (dict_get k d) = true.
Proof. intros H Hv. unfold dict_get. rewrite H. now destruct v. Qed.

(** the [fixed3] script never changes or drops an item of an existing sidecar;
    the one thing it can add is [dexStats] *)
Lemma fixed3_add_only (rendered : dict) (p : string) (st : fs) (e : dict) :
  Crop._iter_image_dicts (JDict rendered) <> [] ->
  files st !! p = Some (Dumps (JDict e)) ->
  p ∉ rd_deny st ->
  exists out st' e',
    Fixed3._sync_crop_sidecar rendered p st = Ok (out, st') /\
    files st' !! p = Some (Dumps (JDict e')) /\
    (forall k, k <> "dexStats" -> dict_lookup k e' = dict_lookup k e) /\
    (forall v, dict_lookup "dexStats" e = Some v -> v <> JNull ->
               dict_lookup "dexStats" e' = Some v).
Proof.
  intros Hi Hf Hrd. rewrite (sync_existing _ _ _ _ Hi Hf Hrd). cbv zeta.
  destruct (is_not_none (dict_get "dexStats" e)) eqn:Ee.
  { eexists _, st, e. repeat split; auto. }
  destruct (is_not_none (dict_get "dexStats" rendered)).
  2: { eexists _, st, e. repeat split; auto. }
  destruct (decide (p ∈ wr_deny st)) as [Hw|Hw].
  - rewrite try_write_denied by exact Hw. eexists _, st, e. repeat split; auto.
  - rewrite try_write_allowed by exact Hw.
    eexists _, _, _. split; [reflexivity|]. split; [apply lookup_insert_eq|]. split.
    + intros k Hk. apply lookup_set_ne. congruence.
    + intros v Hv Hnn. rewrite (is_not_none_get _ _ _ Hv Hnn) in Ee. discriminate Ee.
Qed.

(** C2, amended.  Reconciliation by the [fixed3] script against an existing
    sidecar is add-only: no stored item is changed or dropped.  It adds
    nothing but [dexStats] (every other key is in the sidecar afterwards
    exactly when it was before, with its value; a stored caption that is not
    null stays), so it does not backfill crop parameters. *)
Theorem sidecar_add_only (rendered : dict) (p : string) (st : fs) (e : dict) :
  Crop._iter_image_dicts (JDict rendered) <> [] ->
  files st !! p = Some (Dumps (JDict e)) ->
  p ∉ rd_deny st ->
  exists out st' e',
    Fixed3._sync_crop_sidecar rendered p st = Ok (out, st') /\
    files st' !! p = Some (Dumps (JDict e')) /\
    (forall k, k <> "dexStats" -> dict_lookup k e' = dict_lookup k e) /\
    (forall v, dict_lookup "dexStats" e = Some v -> v <> JNull ->
               dict_lookup "dexStats" e' = Some v).
Proof.
  intros Hi Hf Hrd. destruct (fixed3_add_only rendered p st e Hi Hf Hrd)
    as (out & st' & e' & Hs & Hf' & Hk & Hd).
  exists out, st', e'. repeat split; assumption.
Qed.

Lemma sidecar_add_only_witness :
  let rendered := [("images", JList [JDict [("zoom", JInt 1); ("rotation", JInt 90)]]);
                   ("dexStats", JStr "B")] in
  let e := [("zoom", JInt 2)] in
  let st := MkFs {[ "001.jpg.crop.json" := Dumps (JDict e) ]} ∅ ∅ [] in
  exists out st' e',
    Fixed3._sync_crop_sidecar rendered "001.jpg.crop.json" st = Ok (out, st') /\
    files st' !! "001.jpg.crop.json" = Some (Dumps (JDict e')) /\
    dict_lookup "zoom" e' = Some (JInt 2) /\
    dict_lookup "rotation" e' = None.
Proof.
  cbv zeta.
  assert (Hi : Crop._iter_image_dicts
                 (JDict [("images", JList [JDict [("zoom", JInt 1); ("rotation", JInt 90)]]);
                         ("dexStats", JStr "B")]) <> []) by discriminate.
  assert (Hf0 : files (MkFs {[ "001.jpg.crop.json" := Dumps (JDict [("zoom", JInt 2)]) ]} ∅ ∅ [])
                !! "001.jpg.crop.json" = Some (Dumps (JDict [("zoom", JInt 2)])))
    by reflexivity.
  assert (Hrd : "001.jpg.crop.json" ∉
                rd_deny (MkFs {[ "001.jpg.crop.json" := Dumps (JDict [("zoom", JInt 2)]) ]}
                              ∅ ∅ []))
    by (cbn; apply not_elem_of_empty).
  destruct (sidecar_add_only _ _ _ _ Hi Hf0 Hrd) as (out & st' & e' & Hs & Hf' & Hk & _).
  exists out, st', e'. split; [exact Hs|]. split; [exact Hf'|].
  split; rewrite Hk by discriminate; reflexivity.
Defined.

(** ** Running the batch again *)

(** what one reconciliation can do to the files: nothing, or one write of an
    object to its own sidecar *)
Lemma sync_effect (rendered : dict) (p : string) (st : fs) (out : dict) (st' : fs) :
  Fixed3._sync_crop_sidecar rendered p st = Ok (out, st') ->
  st' = st \/
  ((p ∉ wr_deny st) /\
   exists sc, st' = MkFs (<[p := Dumps (JDict sc)]> (files st)) (rd_deny st) (wr_deny st)
                         (journal st ++ [(p, JDict sc)]) /\
              forall e, files st !! p = Some (Dumps (JDict e)) -> p ∉ rd_deny st ->
                        is_not_none (dict_get "dexStats" e) = false /\
                        is_not_none (dict_get "dexStats" sc) = true).
Proof.
  unfold Fixed3._sync_crop_sidecar.
  destruct (Crop._iter_image_dicts (JDict rendered)) as [|img0 rest]; [intros [= _ <-]; now left|].
  unfold path_exists. destruct (files st !! p) as [t|] eqn:Hf.
  - destruct (read_json st p) as [j|] eqn:Hr; [|intros [= _ <-]; now left].
    destruct j as [| | | | | |e]; try discriminate.
    destruct (is_not_none (dict_get "dexStats" e)) eqn:Ee; [intros [= _ <-]; now left|].
    destruct (is_not_none (dict_get "dexStats" (Crop._apply_crop_params_to_images rendered e)))
      eqn:Er; [|intros [= _ <-]; now left].
    intros [= _ <-]. destruct (decide (p ∈ wr_deny st)) as [Hw|Hw].
    + left. now apply try_write_denied.
    + right. split; [exact Hw|]. eexists. split; [now apply try_write_allowed|].
      intros e0 [= He0] Hrd. unfold read_json in Hr. rewrite Hf in Hr.
      destruct (decide (p ∈ rd_deny st)); [contradiction|].
      destruct t; try discriminate. injection Hr as ->. injection He0 as <-.
      split; [exact Ee|]. now rewrite get_set_eq.
  - intros [= _ <-]. destruct (decide (p ∈ wr_deny st)) as [Hw|Hw].
    + left. now apply try_write_denied.
    + right. split; [exact Hw|]. eexists. split; [now apply try_write_allowed|].
      intros e0 He0. discriminate He0.
Qed.

Lemma read_json_other (st : fs) (p q : string) (obj : json) :
  q <> p ->
  read_json (MkFs (<[p := Dumps obj]> (files st)) (rd_deny st) (wr_deny st)
                  (journal st ++ [(p, obj)])) q
  = read_json st q.
Proof.
  intros Hq. unfold read_json. cbn [rd_deny files].
  rewrite lookup_insert_ne by congruence. reflexivity.
Qed.

(** a file state that is stable for a sidecar stays so whatever another
    reconciliation does *)
Lemma stable_preserved (cap : bool) (p : string) (rendered : dict) (q : string)
    (st : fs) (out : dict) (st' : fs) :
  Fixed3.stable_at cap p st ->
  Fixed3._sync_crop_sidecar rendered q st = Ok (out, st') ->
  Fixed3.stable_at cap p st'.
Proof.
  intros Hst Hs. destruct (sync_effect _ _ _ _ _ Hs) as [->|(Hw & sc & -> & Hsc)]; [exact Hst|].
  destruct (String.eqb_spec p q) as [->|Hne].
  - destruct Hst as [[Hd _]|[(t & Hf & Hr)|(e & Hf & Hrd & Hc)]].
    + contradiction.
    + exfalso. unfold Fixed3._sync_crop_sidecar in Hs.
      destruct (Crop._iter_image_dicts (JDict rendered)).
      * injection Hs as _ Hs. apply (f_equal journal) in Hs. cbn in Hs.
        apply (f_equal (@length _)) in Hs. rewrite length_app in Hs. cbn in Hs. lia.
      * rewrite (path_exists_some _ _ _ Hf) in Hs.
        destruct (read_json st q); [discriminate|].
        injection Hs as _ Hs. apply (f_equal journal) in Hs. cbn in Hs.
        apply (f_equal (@length _)) in Hs. rewrite length_app in Hs. cbn in Hs. lia.
    + right; right. exists sc. split; [apply lookup_insert_eq|]. split; [exact Hrd|].
      left. now apply (Hsc e).
  - destruct Hst as [[Hd Hj]|[(t & Hf & Hr)|(e & Hf & Hrd & Hc)]].
    + left. split; [exact Hd|]. intros j. rewrite read_json_other by exact Hne. apply Hj.
    + right; left. exists t. split; [cbn; now rewrite lookup_insert_ne by congruence|].
      now rewrite read_json_other.
    + right; right. exists e. split; [cbn; now rewrite lookup_insert_ne by congruence|].
      split; [exact Hrd | exact Hc].
Qed.

(** with a stable file state the reconciliation returns and writes nothing *)
Lemma stable_quiet (rendered : dict) (p : string) (st : fs) :
  Fixed3.stable_at (is_not_none (dict_get "dexStats" rendered)) p st ->
  exists out, Fixed3._sync_crop_sidecar rendered p st = Ok (out, st).
Proof.
  intros Hst.
  destruct (Crop._iter_image_dicts (JDict rendered)) as [|img0 rest] eqn:Hi.
  { exists rendered. now apply sync_no_image. }
  assert (Hne : Crop._iter_image_dicts (JDict rendered) <> []) by (rewrite Hi; discriminate).
  destruct Hst as [[Hd Hj]|[(t & Hf & Hr)|(e & Hf & Hrd & Hc)]].
  - destruct (files st !! p) as [t|] eqn:Hf.
    + destruct (read_json st p) as [j|] eqn:Hr.
      * destruct (Hj j eq_refl) as [e ->].
        assert (Hrd : p ∉ rd_deny st).
        { intros Hin. rewrite (read_json_denied _ _ Hin) in Hr. discriminate Hr. }
        assert (Hfe : files st !! p = Some (Dumps (JDict e))).
        { unfold read_json in Hr. rewrite Hf in Hr.
          destruct (decide (p ∈ rd_deny st)); [contradiction|].
          destruct t; [discriminate | congruence]. }
        rewrite (sync_existing _ _ _ _ Hne Hfe Hrd). cbv zeta.
        destruct (is_not_none (dict_get "dexStats" e)); [eauto|].
        destruct (is_not_none (dict_get "dexStats" rendered)); [|eauto].
        rewrite try_write_denied by exact Hd. eauto.
      * exists rendered. apply sync_unreadable with t; [exact Hf | now rewrite Hr].
    + exists rendered. rewrite (sync_missing _ _ _ _ _ Hi Hf).
      now rewrite try_write_denied.
  - exists rendered. now apply sync_unreadable with t.
  - rewrite (sync_existing _ _ _ _ Hne Hf Hrd). cbv zeta.
    destruct Hc as [-> | ->]; [eauto|].
    destruct (is_not_none (dict_get "dexStats" e)); eauto.
Qed.

(** once a tree with an image has been reconciled, the files are stable for it *)
Lemma sync_stabilizes (rendered : dict) (p : string) (st : fs) (out : dict) (st' : fs) :
  Crop._iter_image_dicts (JDict rendered) <> [] ->
  Fixed3._sync_crop_sidecar rendered p st = Ok (out, st') ->
  Fixed3.stable_at (is_not_none (dict_get "dexStats" rendered)) p st'.
Proof.
  intros Hne0 Hs.
  destruct (Crop._iter_image_dicts (JDict rendered)) as [|img0 rest] eqn:Hi; [contradiction|].
  assert (Hne : Crop._iter_image_dicts (JDict rendered) <> []) by (rewrite Hi; discriminate).
  destruct (files st !! p) as [t|] eqn:Hf.
  - destruct (read_json st p) as [j|] eqn:Hr.
    + assert (Hrd : p ∉ rd_deny st).
      { intros Hin. rewrite (read_json_denied _ _ Hin) in Hr. discriminate Hr. }
      assert (Hfj : files st !! p = Some (Dumps j)).
      { unfold read_json in Hr. rewrite Hf in Hr.
        destruct (decide (p ∈ rd_deny st)); [contradiction|].
        destruct t; [discriminate | congruence]. }
      destruct j as [| | | | | |e];
        try (unfold Fixed3._sync_crop_sidecar in Hs;
             rewrite Hi, (path_exists_some _ _ _ Hf), Hr in Hs; discriminate Hs).
      rewrite (sync_existing _ _ _ _ Hne Hfj Hrd) in Hs. cbv zeta in Hs.
      destruct (is_not_none (dict_get "dexStats" e)) eqn:Ee.
      { injection Hs as _ <-. right; right. exists e. auto. }
      destruct (is_not_none (dict_get "dexStats" rendered)) eqn:Er.
      2: { injection Hs as _ <-. right; right. exists e. auto. }
      injection Hs as _ <-. destruct (decide (p ∈ wr_deny st)) as [Hw|Hw].
      * rewrite try_write_denied by exact Hw. left. split; [exact Hw|].
        intros j. rewrite Hr. intros [= <-]. eauto.
      * rewrite try_write_allowed by exact Hw. right; right.
        eexists. split; [apply lookup_insert_eq|]. split; [exact Hrd|].
        left. rewrite get_set_eq.
        unfold Crop._apply_crop_params_to_images.
        rewrite get_map_image_items_scalar by discriminate.
        now rewrite is_not_none_map_image_dicts.
    + rewrite (sync_unreadable _ _ _ t Hf) in Hs by (now rewrite Hr).
      injection Hs as _ <-. right; left. exists t. split; [exact Hf | now rewrite Hr].
  - rewrite (sync_missing _ _ _ _ _ Hi Hf) in Hs. injection Hs as _ <-.
    destruct (decide (p ∈ wr_deny st)) as [Hw|Hw].
    + rewrite try_write_denied by exact Hw. left. split; [exact Hw|].
      intros j Hj. unfold read_json in Hj. rewrite Hf in Hj.
      destruct (decide (p ∈ rd_deny st)); discriminate Hj.
    + rewrite try_write_allowed by exact Hw.
      destruct (decide (p ∈ rd_deny st)) as [Hrd|Hrd].
      * right; left. eexists. split; [apply lookup_insert_eq|].
        unfold read_json. cbn [rd_deny]. destruct (decide (p ∈ rd_deny st)); [reflexivity|contradiction].
      * right; right. eexists. split; [apply lookup_insert_eq|]. split; [exact Hrd|].
        destruct (is_not_none (dict_get "dexStats" rendered)) eqn:Er; [left | now right].
        now rewrite get_set_eq.
Qed.

Lemma process_inv (r : Fixed3.record) (s s' : Fixed3.run_state) :
  Fixed3.process r s = Ok s' ->
  exists rd out,
    Fixed3.rendered r = JDict rd /\
    Fixed3._sync_crop_sidecar (Crop._inject_src_into_images rd (Fixed3.data_uri r))
                              (Fixed3.sidecar r) (Fixed3.disk s)
    = Ok (out, Fixed3.disk s') /\
    Fixed3.outputs s' = Fixed3.outputs s ++ [(Fixed3.stem r, out)].
Proof.
  unfold Fixed3.process. destruct (Fixed3.rendered r) as [| | | | | |rd]; try discriminate.
  destruct (Fixed3._sync_crop_sidecar _ _ _) as [[out st']|] eqn:Hs; [|discriminate].
  intros [= <-]. exists rd, out. auto.
Qed.

Lemma process_settles (r : Fixed3.record) (s s' : Fixed3.run_state) :
  Fixed3.process r s = Ok s' -> Fixed3.settled r (Fixed3.disk s').
Proof.
  intros (rd & out & Hr & Hs & _)%process_inv. unfold Fixed3.settled. rewrite Hr. cbv zeta.
  destruct (Crop._iter_image_dicts
              (JDict (Crop._inject_src_into_images rd (Fixed3.data_uri r)))) eqn:Hi;
    [now left|right].
  eapply sync_stabilizes; [|exact Hs]. rewrite Hi. discriminate.
Qed.

Lemma process_keeps_settled (r r2 : Fixed3.record) (s s' : Fixed3.run_state) :
  Fixed3.settled r (Fixed3.disk s) ->
  Fixed3.process r2 s = Ok s' ->
  Fixed3.settled r (Fixed3.disk s').
Proof.
  intros Hst (rd & out & Hr & Hs & _)%process_inv. unfold Fixed3.settled in *.
  destruct (Fixed3.rendered r); try contradiction. cbv zeta in *.
  destruct Hst as [Hst|Hst]; [now left|right]. eapply stable_preserved; eauto.
Qed.

Lemma run_keeps_settled (r : Fixed3.record) (rs : list Fixed3.record)
    (s s' : Fixed3.run_state) :
  Fixed3.settled r (Fixed3.disk s) -> Fixed3.run rs s = Ok s' ->
  Fixed3.settled r (Fixed3.disk s').
Proof.
  revert s. induction rs as [|r2 rest IH]; intros s Hst Hrun.
  - injection Hrun as <-. exact Hst.
  - cbn [Fixed3.run] in Hrun. destruct (Fixed3.process r2 s) as [s2|] eqn:Hp; [|discriminate].
    cbn [bind] in Hrun. eapply IH; [|exact Hrun]. eapply process_keeps_settled; eauto.
Qed.

Lemma run_settles (rs : list Fixed3.record) (s s' : Fixed3.run_state) :
  Fixed3.run rs s = Ok s' -> Forall (fun r => Fixed3.settled r (Fixed3.disk s')) rs.
Proof.
  revert s. induction rs as [|r rest IH]; intros s Hrun; [constructor|].
  cbn [Fixed3.run] in Hrun. destruct (Fixed3.process r s) as [s2|] eqn:Hp; [|discriminate].
  cbn [bind] in Hrun. constructor; [|eapply IH; exact Hrun].
  eapply run_keeps_settled; [|exact Hrun]. eapply process_settles; exact Hp.
Qed.

Lemma run_quiet (rs : list Fixed3.record) (st : fs) (outs : list (string * dict)) :
  Forall (fun r => Fixed3.settled r st) rs ->
  exists outs', Fixed3.run rs (Fixed3.MkRun st outs) = Ok (Fixed3.MkRun st outs').
Proof.
  intros Hall. revert outs. induction Hall as [|r rest Hr _ IH]; intros outs.
  - exists outs. reflexivity.
  - cbn [Fixed3.run]. unfold Fixed3.settled in Hr. unfold Fixed3.process.
    destruct (Fixed3.rendered r) as [| | | | | |rd]; try contradiction. cbv zeta in Hr.
    cbn [Fixed3.disk Fixed3.outputs].
    assert (Hq : exists out,
              Fixed3._sync_crop_sidecar (Crop._inject_src_into_images rd (Fixed3.data_uri r))
                                        (Fixed3.sidecar r) st = Ok (out, st)).
    { destruct Hr as [Hi|Hst]; [eexists; now apply sync_no_image | now apply stable_quiet]. }
    destruct Hq as [out ->]. cbn [bind fst snd]. apply IH.
Qed.

(** C1, the claim as stated fails: the run that creates a sidecar writes the
    record as the template rendered it, and the next run over the same inputs
    writes it with the stored crop parameters on every image.  Two images
    rendered with [zoom] 1 and 2 come out as 1 and 2, then as 1 and 1. *)
Lemma second_run_output_differs :
  ~ (forall (rs : list Fixed3.record) (st : fs) (s1 s2 : Fixed3.run_state),
       Fixed3.run rs (Fixed3.MkRun st []) = Ok s1 ->
       Fixed3.run rs (Fixed3.MkRun (Fixed3.disk s1) []) = Ok s2 ->
       Fixed3.outputs s2 = Fixed3.outputs s1).
Proof.
  intros H.
  specialize (H [Fixed3.MkRecord "001"
                   (JDict [("images", JList [JDict [("zoom", JInt 1)]; JDict [("zoom", JInt 2)]])])
                   "data:image/jpeg;base64,AA" "001.jpg.crop.json"]
                (MkFs ∅ ∅ ∅ []) _ _ eq_refl eq_refl).
  discriminate H.
Qed.

(** C1, amended.  When a run of the batch ([fixed3] script) completes, a
    second run over the same inputs completes too and writes no sidecar: the
    files and the list of writes are after it what they were before it.  Every
    later run therefore starts from the same files as the second one and
    repeats its output.  The output of the first run may differ from that of
    the second. *)
Theorem second_run_stable (rs : list Fixed3.record) (s0 s1 : Fixed3.run_state) :
  Fixed3.run rs s0 = Ok s1 ->
  exists outs,
    Fixed3.run rs (Fixed3.MkRun (Fixed3.disk s1) [])
    = Ok (Fixed3.MkRun (Fixed3.disk s1) outs) /\
    forall s2, Fixed3.run rs (Fixed3.MkRun (Fixed3.disk s1) []) = Ok s2 ->
               Fixed3.run rs (Fixed3.MkRun (Fixed3.disk s2) []) = Ok s2.
Proof.
  intros Hrun.
  destruct (run_quiet rs (Fixed3.disk s1) [] (run_settles _ _ _ Hrun)) as [outs Hq].
  exists outs. split; [exact Hq|].
  intros s2 H2. rewrite Hq in H2. injection H2 as <-. exact Hq.
Qed.

Lemma second_run_stable_witness :
  let rs := [Fixed3.MkRecord "001"
               (JDict [("images", JList [JDict [("zoom", JInt 1)]; JDict [("zoom", JInt 2)]]);
                       ("dexStats", JStr "A")])
               "data:image/jpeg;base64,AA" "defaults.jpg.crop.json";
             Fixed3.MkRecord "002"
               (JDict [("images", JList [JDict [("src", JStr "x"); ("zoom", JInt 3)]])])
               "data:image/jpeg;base64,AA" "defaults.jpg.crop.json"] in
  exists s1 outs,
    Fixed3.run rs (Fixed3.MkRun (MkFs ∅ ∅ ∅ []) []) = Ok s1 /\
    Fixed3.run rs (Fixed3.MkRun (Fixed3.disk s1) [])
    = Ok (Fixed3.MkRun (Fixed3.disk s1) outs).
Proof.
  cbv zeta.
  assert (Hrun : exists s1,
            Fixed3.run
              [Fixed3.MkRecord "001"
                 (JDict [("images", JList [JDict [("zoom", JInt 1)]; JDict [("zoom", JInt 2)]]);
                         ("dexStats", JStr "A")])
                 "data:image/jpeg;base64,AA" "defaults.jpg.crop.json";
               Fixed3.MkRecord "002"
                 (JDict [("images", JList [JDict [("src", JStr "x"); ("zoom", JInt 3)]])])
                 "data:image/jpeg;base64,AA" "defaults.jpg.crop.json"]
              (Fixed3.MkRun (MkFs ∅ ∅ ∅ []) []) = Ok s1)
    by (eexists; vm_compute; reflexivity).
  destruct Hrun as [s1 Hrun]. exists s1.
  destruct (second_run_stable _ _ _ Hrun) as (outs & Hq & _).
  exists outs. split; [exact Hrun | exact Hq].
Defined.

(** ** Duplicate identifiers *)

Lemma loop_app (a : Neutral.args) (template defaults : dict) (s : Neutral.loop_state)
    (l1 l2 : list Neutral.config) :
  Neutral.loop a template defaults s (l1 ++ l2)
  = bind (Neutral.loop a template defaults s l1)
         (fun s' => Neutral.loop a template defaults s' l2).
Proof.
  revert s. induction l1 as [|c r IH]; intros s; [reflexivity|].
  cbn [app Neutral.loop]. destruct (Neutral.step a template defaults s c); [apply IH | reflexivity].
Qed.

Lemma step_seen (a : Neutral.args) (template defaults : dict) (s s' : Neutral.loop_state)
    (c : Neutral.config) :
  Neutral.step a template defaults s c = Ok s' ->
  Neutral.seen_ids s ⊆ Neutral.seen_ids s' /\
  forall vars rid, Neutral.prepare a defaults c = Ok (vars, rid) -> rid ∈ Neutral.seen_ids s'.
Proof.
  unfold Neutral.step. destruct (Neutral.prepare a defaults c) as [[vars rid]|]; [|discriminate].
  cbn [bind fst snd]. destruct (decide (rid ∈ Neutral.seen_ids s)); [discriminate|].
  destruct (Neutral.render_placeholders _ _ _) as [r|]; [|discriminate].
  cbn [bind]. destruct r; try discriminate. intros [= <-]. cbn [Neutral.seen_ids].
  split; [set_solver|]. intros vars' rid' [= _ <-]. set_solver.
Qed.

Lemma loop_seen (a : Neutral.args) (template defaults : dict) (cs : list Neutral.config)
    (s s' : Neutral.loop_state) :
  Neutral.loop a template defaults s cs = Ok s' ->
  Neutral.seen_ids s ⊆ Neutral.seen_ids s'.
Proof.
  revert s. induction cs as [|c r IH]; intros s H.
  - injection H as <-. reflexivity.
  - cbn [Neutral.loop] in H.
    destruct (Neutral.step a template defaults s c) as [s1|] eqn:Hs; [|discriminate].
    cbn [bind] in H. apply step_seen in Hs as [Hs _]. apply IH in H. set_solver.
Qed.

(** once the loop is past a config, the id of that config is among the ids seen *)
Lemma loop_past (a : Neutral.args) (template defaults : dict)
    (pre mid : list Neutral.config) (c1 : Neutral.config) (vars : dict) (rid : string)
    (s0 s : Neutral.loop_state) :
  Neutral.prepare a defaults c1 = Ok (vars, rid) ->
  Neutral.loop a template defaults s0 (pre ++ c1 :: mid) = Ok s ->
  rid ∈ Neutral.seen_ids s.
Proof.
  intros Hp. rewrite loop_app.
  destruct (Neutral.loop a template defaults s0 pre) as [s1|]; [|discriminate].
  cbn [bind Neutral.loop].
  destruct (Neutral.step a template defaults s1 c1) as [s2|] eqn:Hs; [|discriminate].
  cbn [bind]. intros Hl. apply loop_seen in Hl.
  apply step_seen in Hs as [_ Hs]. specialize (Hs _ _ Hp). set_solver.
Qed.

(** C8.  Two configs of a batch that yield the same normalized identifier:
    the run of [card-generator.py] ends with an exception and has written no
    file at all, so none for the second of the two; and when the loop gets as
    far as the second one, the exception is the duplicate-id error raised for
    it, before its template is rendered. *)
Theorem duplicate_id_rejected (a : Neutral.args) (template defaults : dict)
    (pre mid post : list Neutral.config) (c1 c2 : Neutral.config)
    (vars1 vars2 : dict) (rid : string) :
  Neutral.prepare a defaults c1 = Ok (vars1, rid) ->
  Neutral.prepare a defaults c2 = Ok (vars2, rid) ->
  let run := Neutral.main a template defaults (pre ++ c1 :: mid ++ c2 :: post) in
  (exists e, Neutral.failure run = Some e) /\
  Neutral.written run = [] /\
  (forall s, Neutral.loop a template defaults (Neutral.MkLoop ∅ []) (pre ++ c1 :: mid) = Ok s ->
     Neutral.step a template defaults s c2 = Raise (Neutral.duplicate_id rid c2) /\
     Neutral.failure run = Some (Neutral.duplicate_id rid c2)).
Proof.
  intros H1 H2. cbv zeta.
  assert (Hstep : forall s,
            Neutral.loop a template defaults (Neutral.MkLoop ∅ []) (pre ++ c1 :: mid) = Ok s ->
            Neutral.step a template defaults s c2 = Raise (Neutral.duplicate_id rid c2)).
  { intros s Hs. pose proof (loop_past _ _ _ _ _ _ _ _ _ _ H1 Hs) as Hin.
    unfold Neutral.step. rewrite H2. cbn [bind fst snd].
    destruct (decide (rid ∈ Neutral.seen_ids s)); [reflexivity | contradiction]. }
  assert (Hmain : Neutral.main a template defaults (pre ++ c1 :: mid ++ c2 :: post)
                  = match Neutral.loop a template defaults (Neutral.MkLoop ∅ [])
                            (pre ++ c1 :: mid) with
                    | Ok s => Neutral.MkRunResult [] (Some (Neutral.duplicate_id rid c2))
                    | Raise e => Neutral.MkRunResult [] (Some e)
                    end).
  { unfold Neutral.main.
    destruct (pre ++ c1 :: mid ++ c2 :: post) eqn:El; [now destruct pre|]. rewrite <- El.
    change (pre ++ c1 :: mid ++ c2 :: post) with (pre ++ (c1 :: mid) ++ c2 :: post).
    rewrite app_assoc, loop_app.
    destruct (Neutral.loop a template defaults (Neutral.MkLoop ∅ []) (pre ++ c1 :: mid))
      as [s|] eqn:Hl; [|reflexivity].
    cbn [bind Neutral.loop]. rewrite (Hstep s eq_refl). reflexivity. }
  rewrite Hmain.
  destruct (Neutral.loop a template defaults (Neutral.MkLoop ∅ []) (pre ++ c1 :: mid)) as [s|];
    (split; [eexists; reflexivity|]; split; [reflexivity|]).
  - intros s' [= <-]. split; [now apply Hstep | reflexivity].
  - intros s' H. discriminate H.
Qed.

Lemma duplicate_id_rejected_witness :
  let a := Neutral.MkArgs "out/all.json" true "out" false "id" [] in
  let template := [("name", JStr "{{name}}"); ("id", JStr "{{id}}")] in
  let defaults := [("name", JStr "n/a")] in
  let c1 := Neutral.MkConfig "a.json" (Ok (JDict [("id", JStr "ABC 1")])) in
  let c2 := Neutral.MkConfig "b.yml" (Ok (JDict [("id", JStr " ABC/1 "); ("name", JStr "B")])) in
  let run := Neutral.main a template defaults [c1; c2] in
  Neutral.failure run = Some (Neutral.duplicate_id "ABC-1" c2) /\ Neutral.written run = [].
Proof.
  cbv zeta.
  pose proof (duplicate_id_rejected
                (Neutral.MkArgs "out/all.json" true "out" false "id" [])
                [("name", JStr "{{name}}"); ("id", JStr "{{id}}")]
                [("name", JStr "n/a")] [] [] []
                (Neutral.MkConfig "a.json" (Ok (JDict [("id", JStr "ABC 1")])))
                (Neutral.MkConfig "b.yml" (Ok (JDict [("id", JStr " ABC/1 "); ("name", JStr "B")])))
                _ _ "ABC-1" eq_refl eq_refl) as (_ & Hw & Hdup).
  cbv zeta in Hdup.
  assert (Hl : exists s,
            Neutral.loop (Neutral.MkArgs "out/all.json" true "out" false "id" [])
              [("name", JStr "{{name}}"); ("id", JStr "{{id}}")] [("name", JStr "n/a")]
              (Neutral.MkLoop ∅ [])
              ([] ++ [Neutral.MkConfig "a.json" (Ok (JDict [("id", JStr "ABC 1")]))]) = Ok s)
    by (eexists; vm_compute; reflexivity).
  destruct Hl as [s Hl]. destruct (Hdup s Hl) as [_ Hf].
  split; [exact Hf | exact Hw].
Defined.

(** ** Text *)

Lemma str_app_cons (x : ascii) (a b : string) : String x a +:+ b = String x (a +:+ b).
Proof. reflexivity. Qed.

Lemma str_app_assoc (a b c : string) : (a +:+ b) +:+ c = a +:+ (b +:+ c).
Proof.
  induction a as [|x a IH]; [reflexivity|]. rewrite !str_app_cons. now rewrite IH.
Qed.

Lemma str_app_length (a b : string) :
  String.length (a +:+ b) = String.length a + String.length b.
Proof.
  induction a as [|x a IH]; [reflexivity|].
  rewrite str_app_cons. cbn [String.length]. now rewrite IH.
Qed.

Lemma substring_prefix (a b : string) : substring 0 (String.length a) (a +:+ b) = a.
Proof.
  induction a as [|x a IH]; [now destruct b|].
  rewrite str_app_cons. cbn [String.length substring]. now rewrite IH.
Qed.

(** a key character is no blank and no brace *)
Lemma key_char_not_space (c : ascii) :
  PyText.is_key_char c = true -> PyText.is_space c = false.
Proof.
  destruct c as [[] [] [] [] [] [] [] []]; vm_compute; intros H;
    first [reflexivity | discriminate H].
Qed.



Lemma pieces_skip (m post : string) :
  Placeholder.pieces_from (String.length m) (m +:+ post) = Placeholder.pieces_from 0 post.
Proof.
  induction m as [|x m IH]; [reflexivity|].
  cbn [String.length append Placeholder.pieces_from]. exact IH.
Qed.


(** before the first opening brace every character stands for itself *)
Lemma pieces_literal (pre s : string) :
  PyText.has_char "{" pre = false ->
  Placeholder.pieces (pre +:+ s)
  = map Placeholder.Lit (list_ascii_of_string pre) ++ Placeholder.pieces s.
Proof.
  intros Hpre. unfold Placeholder.pieces. induction pre as [|c pre IH]; [reflexivity|].
  cbn [PyText.has_char] in Hpre.
  destruct (Ascii.eqb_spec "{" c) as [|Hc]; [discriminate|].
  rewrite str_app_cons. cbn [list_ascii_of_string map app Placeholder.pieces_from].
  assert (Hm : Placeholder.match_here (String c (pre +:+ s)) = None).
  { unfold Placeholder.match_here.
    destruct c as [[] [] [] [] [] [] [] []]; try reflexivity. now destruct Hc. }
  rewrite Hm, (IH Hpre). reflexivity.
Qed.

Lemma sub_pieces_literal (repl : string -> string -> string) (pre : string)
    (ps : list Placeholder.piece) :
  Placeholder.sub_pieces repl (map Placeholder.Lit (list_ascii_of_string pre) ++ ps)
  = pre +:+ Placeholder.sub_pieces repl ps.
Proof.
  induction pre as [|c pre IH]; [reflexivity|].
  cbn [list_ascii_of_string map app Placeholder.sub_pieces]. now rewrite IH.
Qed.

Lemma sub_raising_literal (repl : string -> string -> outcome string) (pre : string)
    (ps : list Placeholder.piece) :
  Placeholder.sub_pieces_raising repl (map Placeholder.Lit (list_ascii_of_string pre) ++ ps)
  = bind (Placeholder.sub_pieces_raising repl ps) (fun rest => Ok (pre +:+ rest)).
Proof.
  induction pre as [|c pre IH].
  - cbn [list_ascii_of_string map app]. now destruct (Placeholder.sub_pieces_raising repl ps).
  - cbn [list_ascii_of_string map app Placeholder.sub_pieces_raising]. rewrite IH.
    now destruct (Placeholder.sub_pieces_raising repl ps).
Qed.

(** ** Rendering *)




Lemma span_split (cls : ascii -> bool) (s : string) :
  s = fst (Placeholder.span cls s) +:+ snd (Placeholder.span cls s).
Proof.
  induction s as [|c r IH]; [reflexivity|].
  cbn [Placeholder.span]. destruct (cls c); cbn [fst snd]; [|reflexivity].
  rewrite str_app_cons. now rewrite <- IH.
Qed.

(** a match is a non-empty prefix of the text, of the length it reports *)
Lemma match_here_prefix (s key : string) (len : nat) :
  Placeholder.match_here s = Some (key, len) ->
  exists c m rest, s = String c m +:+ rest /\ String.length (String c m) = len.
Proof.
  unfold Placeholder.match_here.
  destruct s as [|c0 [|c1 r]]; try discriminate;
    [destruct (Ascii.eqb_spec c0 "{") as [->|]; [discriminate|];
     destruct c0 as [[] [] [] [] [] [] [] []]; discriminate|].
  destruct c0 as [[] [] [] [] [] [] [] []]; try discriminate.
  destruct c1 as [[] [] [] [] [] [] [] []]; try discriminate.
  pose proof (span_split PyText.is_space r) as E1.
  destruct (Placeholder.span PyText.is_space r) as [w1 r1]. cbn [fst snd] in E1.
  pose proof (span_split PyText.is_key_char r1) as E2.
  destruct (Placeholder.span PyText.is_key_char r1) as [k r2]. cbn [fst snd] in E2.
  pose proof (span_split PyText.is_space r2) as E3.
  destruct (Placeholder.span PyText.is_space r2) as [w2 r3]. cbn [fst snd] in E3.
  destruct k as [|k0 k']; [discriminate|].
  destruct r3 as [|d0 [|d1 r4]]; try discriminate;
    [destruct d0 as [[] [] [] [] [] [] [] []]; discriminate|].
  destruct d0 as [[] [] [] [] [] [] [] []]; try discriminate.
  destruct d1 as [[] [] [] [] [] [] [] []]; try discriminate.
  intros [= <- <-].
  exists "{"%char, (String "{" (w1 +:+ String k0 k' +:+ w2 +:+ "}}")), r4. split.
  - subst r r1 r2.
    change (String "{" (String "{" (w1 +:+ String k0 k' +:+ w2 +:+ "}}")) +:+ r4)
      with (String "{" (String "{" ((w1 +:+ String k0 k' +:+ w2 +:+ "}}") +:+ r4))).
    f_equal. f_equal. rewrite !str_app_assoc. reflexivity.
  - cbn [String.length]. rewrite !str_app_length. cbn [String.length]. lia.
Qed.









(** the text [render_template] returns need not be JSON: a value that holds a
    double quote is put in as it is, between the quotes of the template *)
Example quote_in_value_breaks_the_text :
  Render.render_template
    ("{" +:+ PyText.dumps_str "name" +:+ ": "
         +:+ String PyText.dquote ("{{name}}" +:+ String PyText.dquote "}"))
    [("name", JStr (String PyText.dquote EmptyString))]
  = "{" +:+ PyText.dumps_str "name" +:+ ": "
        +:+ String PyText.dquote (String PyText.dquote (String PyText.dquote "}")).
Proof. reflexivity. Qed.



(** * More properties of the code *)

(** ** The scan for placeholders *)

(** one step of the scan: a character stands for itself, or a match is taken
    whole and the scan goes on behind it *)
Lemma pieces_step (c : ascii) (r : string) :
  (Placeholder.match_here (String c r) = None /\
   Placeholder.pieces (String c r) = Placeholder.Lit c :: Placeholder.pieces r) \/
  (exists key m rest,
     String c r = String c m +:+ rest /\
     Placeholder.pieces (String c r)
     = Placeholder.Hit key (String c m) :: Placeholder.pieces rest).
Proof.
  unfold Placeholder.pieces. cbn [Placeholder.pieces_from].
  destruct (Placeholder.match_here (String c r)) as [[key len]|] eqn:Hm; [right | now left].
  destruct (match_here_prefix _ _ _ Hm) as (c' & m & rest & Hs & Hlen).
  rewrite str_app_cons in Hs. injection Hs as <- ->.
  exists key, m, rest. split; [now rewrite str_app_cons|].
  rewrite <- Hlen. f_equal.
  - f_equal. rewrite <- str_app_cons. apply substring_prefix.
  - cbn [String.length]. rewrite Nat.sub_1_r. cbn [Nat.pred]. apply pieces_skip.
Qed.

(** the pieces of a text, put back together, are the text *)
Lemma sub_group0 (s : string) :
  Placeholder.sub_pieces (fun _ m0 => m0) (Placeholder.pieces s) = s.
Proof.
  remember (String.length s) as n eqn:Hn. revert s Hn.
  induction n as [n IH] using lt_wf_ind. intros s Hn.
  destruct s as [|c r]; [reflexivity|].
  destruct (pieces_step c r) as [[_ ->]|(key & m & rest & Hs & ->)].
  - cbn [Placeholder.sub_pieces]. f_equal.
    apply (IH (String.length r)); [subst n; cbn; lia | reflexivity].
  - cbn [Placeholder.sub_pieces]. rewrite Hs. f_equal.
    apply (IH (String.length rest)); [|reflexivity].
    subst n. rewrite Hs, str_app_length. cbn [String.length]. lia.
Qed.

(** ** Rendering, placeholder by placeholder *)

Lemma repl_strict_raises (variables : dict) (k m0 : string) :
  raises (Neutral.repl variables true k m0) = raises (Neutral.resolve variables k).
Proof.
  unfold Neutral.repl. destruct (Neutral.resolve variables k) as [v|]; [|reflexivity].
  destruct v; reflexivity.
Qed.

Lemma sub_strict_raises (variables : dict) (ps : list Placeholder.piece) :
  raises (Placeholder.sub_pieces_raising (Neutral.repl variables true) ps) = false <->
  forall k, In k (Template.hit_keys ps) -> raises (Neutral.resolve variables k) = false.
Proof.
  induction ps as [|[c|key m0] r IH]; cbn [Placeholder.sub_pieces_raising Template.hit_keys].
  - split; [intros _ k [] | reflexivity].
  - rewrite <- IH.
    destruct (Placeholder.sub_pieces_raising (Neutral.repl variables true) r); reflexivity.
  - pose proof (repl_strict_raises variables key m0) as Hk.
    destruct (Neutral.repl variables true key m0) as [t|]; cbn [bind raises] in *.
    + split.
      * intros H k [<-|Hin]; [now rewrite <- Hk|]. apply IH; [|exact Hin].
        now destruct (Placeholder.sub_pieces_raising (Neutral.repl variables true) r).
      * intros H.
        assert (Hr : raises (Placeholder.sub_pieces_raising (Neutral.repl variables true) r)
                     = false) by (apply IH; intros k Hin; apply H; now right).
        now destruct (Placeholder.sub_pieces_raising (Neutral.repl variables true) r).
    + split; [discriminate|]. intros H. rewrite <- (H key (or_introl eq_refl)). exact Hk.
Qed.

Lemma raises_bind_ok {A B : Type} (m : outcome A) (f : A -> B) :
  raises (bind m (fun a => Ok (f a))) = raises m.
Proof. now destruct m. Qed.

(** X1.  With [--strict], [render_placeholders] returns exactly when every
    placeholder that [find_placeholders] reports in the template resolves in
    the variables; it raises as soon as one does not. *)
Theorem strict_render_needs_every_key (obj : json) (variables : dict) :
  raises (Neutral.render_placeholders obj variables true) = false <->
  forall k, In k (Template.find_placeholders obj) ->
            raises (Neutral.resolve variables k) = false.
Proof.
  induction obj as [| | | | s |l IH|d IH] using json_ind;
    try (split; [intros _ k [] | reflexivity]).
  - cbn [Neutral.render_placeholders Template.find_placeholders].
    rewrite raises_bind_ok. apply sub_strict_raises.
  - cbn [Neutral.render_placeholders Template.find_placeholders].
    rewrite raises_bind_ok.
    induction IH as [|x r Hx _ IHr]; [split; [intros _ k [] | reflexivity]|].
    cbn [flat_map].
    destruct (Neutral.render_placeholders x variables true) as [x'|] eqn:Ex; cbn [bind].
    + rewrite raises_bind_ok, IHr. split.
      * intros H k [Hin|Hin]%in_app_iff; [now apply Hx | now apply H].
      * intros H k Hin. apply H, in_app_iff. now right.
    + split; [discriminate|]. intros H.
      assert (Hf : raises (Raise e : outcome json) = false)
        by (apply Hx; intros k Hin; apply H, in_app_iff; now left).
      discriminate Hf.
  - cbn [Neutral.render_placeholders Template.find_placeholders].
    rewrite raises_bind_ok.
    induction IH as [|[k0 v] r Hv _ IHr]; [split; [intros _ k [] | reflexivity]|].
    cbn [flat_map fst snd] in *.
    destruct (Neutral.render_placeholders v variables true) as [v'|] eqn:Ev; cbn [bind].
    + rewrite raises_bind_ok, IHr. split.
      * intros H k [Hin|Hin]%in_app_iff; [now apply Hv | now apply H].
      * intros H k Hin. apply H, in_app_iff. now right.
    + split; [discriminate|]. intros H.
      assert (Hf : raises (Raise e : outcome json) = false)
        by (apply Hv; intros k Hin; apply H, in_app_iff; now left).
      discriminate Hf.
Qed.

Lemma sub_raising_kept (repl : string -> string -> outcome string)
    (ps : list Placeholder.piece) :
  (forall k, In k (Template.hit_keys ps) -> forall m0, repl k m0 = Ok m0) ->
  Placeholder.sub_pieces_raising repl ps
  = Ok (Placeholder.sub_pieces (fun _ m0 => m0) ps).
Proof.
  induction ps as [|[c|key m0] r IH]; intros H;
    cbn [Placeholder.sub_pieces_raising Placeholder.sub_pieces Template.hit_keys] in *.
  - reflexivity.
  - now rewrite IH.
  - rewrite (H key (or_introl eq_refl)), IH by (intros k Hin; apply H; now right).
    reflexivity.
Qed.

Lemma render_kept (obj : json) (variables : dict) (strict : bool) :
  (forall k, In k (Template.find_placeholders obj) ->
             forall m0, Neutral.repl variables strict k m0 = Ok m0) ->
  Neutral.render_placeholders obj variables strict = Ok obj.
Proof.
  induction obj as [| | | | s |l IH|d IH] using json_ind; intros H; try reflexivity.
  - cbn [Neutral.render_placeholders Template.find_placeholders] in *.
    unfold Placeholder.sub_raising. rewrite sub_raising_kept by exact H.
    cbn [bind]. now rewrite sub_group0.
  - cbn [Neutral.render_placeholders Template.find_placeholders] in *.
    match goal with |- bind (?f l) _ = _ => assert (Hl : f l = Ok l) end.
    { induction IH as [|x r Hx _ IHr]; [reflexivity|]. cbn [flat_map] in H.
      rewrite Hx by (intros k Hin; apply H, in_app_iff; now left). cbn [bind].
      rewrite IHr by (intros k Hin; apply H, in_app_iff; now right). reflexivity. }
    now rewrite Hl.
  - cbn [Neutral.render_placeholders Template.find_placeholders] in *.
    match goal with |- bind (?f d) _ = _ => assert (Hd : f d = Ok d) end.
    { induction IH as [|[k0 v] r Hv _ IHr]; [reflexivity|]. cbn [flat_map fst snd] in *.
      rewrite Hv by (intros k Hin; apply H, in_app_iff; now left). cbn [bind].
      rewrite IHr by (intros k Hin; apply H, in_app_iff; now right). reflexivity. }
    now rewrite Hd.
Qed.

(** X2.  Without [--strict], a template none of whose placeholders resolves
    is rendered to itself, every placeholder left as it was written; and a
    template in which [find_placeholders] finds nothing is rendered to itself
    with or without [--strict], whatever the variables. *)
Theorem unresolved_placeholders_stay (obj : json) (variables : dict) :
  ((forall k, In k (Template.find_placeholders obj) ->
              raises (Neutral.resolve variables k) = true) ->
   Neutral.render_placeholders obj variables false = Ok obj) /\
  (Template.find_placeholders obj = [] ->
   forall strict, Neutral.render_placeholders obj variables strict = Ok obj).
Proof.
  split.
  - intros H. apply render_kept. intros k Hin m0. unfold Neutral.repl.
    specialize (H k Hin). now destruct (Neutral.resolve variables k).
  - intros H strict. apply render_kept. rewrite H. intros k [].
Qed.

Lemma unresolved_placeholders_stay_witness :
  Neutral.render_placeholders
    (JDict [("name", JStr "{{missing.key}}"); ("hp", JInt 60)])
    [("id", JStr "001")] false
  = Ok (JDict [("name", JStr "{{missing.key}}"); ("hp", JInt 60)]).
Proof.
  apply (proj1 (unresolved_placeholders_stay
                  (JDict [("name", JStr "{{missing.key}}"); ("hp", JInt 60)])
                  [("id", JStr "001")])).
  intros k Hin. vm_compute in Hin. destruct Hin as [<-|[]]. reflexivity.
Defined.

(** X3.  [render_template] of the picture scripts returns the template text
    unchanged when the lookup of every placeholder in it gives null (a key
    that is missing, or one that holds null): the placeholders stay as
    written. *)
Theorem render_template_keeps_unknown (template_str : string) (values : dict) :
  (forall k, In k (Template.hit_keys (Placeholder.pieces template_str)) ->
             Render.lookup k values = JNull) ->
  Render.render_template template_str values = template_str.
Proof.
  intros H. unfold Render.render_template, Placeholder.sub.
  rewrite <- (sub_group0 template_str) at 2.
  induction (Placeholder.pieces template_str) as [|[c|key m0] r IH];
    cbn [Placeholder.sub_pieces Template.hit_keys] in *.
  - reflexivity.
  - now rewrite IH.
  - rewrite IH by (intros k Hin; apply H; now right).
    unfold Render.replacer. now rewrite (H key (or_introl eq_refl)).
Qed.

Lemma render_template_keeps_unknown_witness :
  Render.render_template "{ name: {{ name }}, hp: {{stats.hp}} }"
                         [("name", JNull); ("stats", JDict [])]
  = "{ name: {{ name }}, hp: {{stats.hp}} }".
Proof.
  apply render_template_keeps_unknown.
  intros k Hin. vm_compute in Hin. destruct Hin as [<-|[<-|[]]]; reflexivity.
Defined.

(** ** Identifiers *)

Lemma sanitize_safe (in_run : bool) (s : string) :
  PyText.all_chars PyText.is_key_char (Neutral.sanitize in_run s) = true.
Proof.
  revert in_run. induction s as [|c r IH]; intros in_run; [reflexivity|].
  cbn [Neutral.sanitize]. destruct (PyText.is_key_char c) eqn:Ec.
  - cbn [PyText.all_chars]. now rewrite Ec, IH.
  - destruct in_run; [apply IH|]. cbn [PyText.all_chars]. now rewrite IH.
Qed.

Lemma sanitize_nonempty (s : string) :
  s <> EmptyString -> Neutral.sanitize false s <> EmptyString.
Proof.
  destruct s as [|c r]; [contradiction|]. intros _. cbn [Neutral.sanitize].
  destruct (PyText.is_key_char c); discriminate.
Qed.

Lemma sanitize_fixed (in_run : bool) (s : string) :
  PyText.all_chars PyText.is_key_char s = true -> Neutral.sanitize in_run s = s.
Proof.
  revert in_run. induction s as [|c r IH]; intros in_run H; [reflexivity|].
  cbn [PyText.all_chars] in H. apply andb_true_iff in H as [Hc Hr].
  cbn [Neutral.sanitize]. now rewrite Hc, IH.
Qed.

Lemma rstrip_fixed (s : string) :
  PyText.all_chars PyText.is_key_char s = true -> PyText.rstrip s = s.
Proof.
  induction s as [|c r IH]; intros H; [reflexivity|].
  cbn [PyText.all_chars] in H. apply andb_true_iff in H as [Hc Hr].
  cbn [PyText.rstrip]. rewrite (IH Hr).
  destruct r; [now rewrite (key_char_not_space c Hc) | reflexivity].
Qed.

Lemma strip_fixed (s : string) :
  PyText.all_chars PyText.is_key_char s = true -> PyText.strip s = s.
Proof.
  intros H. unfold PyText.strip.
  assert (Hl : PyText.lstrip s = s).
  { destruct s as [|c r]; [reflexivity|]. cbn [PyText.all_chars] in H.
    apply andb_true_iff in H as [Hc _]. cbn [PyText.lstrip].
    now rewrite (key_char_not_space c Hc). }
  rewrite Hl. now apply rstrip_fixed.
Qed.

(** X4.  An id that [normalize_id] returns is not empty and is made of the
    characters [a-zA-Z0-9._-] only, so it is a safe file name; and it is a
    fixed point: normalizing it again returns it unchanged. *)
Theorem normalize_id_safe (value : json) (s : string) :
  Neutral.normalize_id value = Ok s ->
  s <> EmptyString /\
  PyText.all_chars PyText.is_key_char s = true /\
  Neutral.normalize_id (JStr s) = Ok s.
Proof.
  unfold Neutral.normalize_id at 1. intros H.
  assert (Hs : exists t, t <> EmptyString /\ s = Neutral.sanitize false t).
  { destruct value; try discriminate;
      match type of H with
      | (if PyText.nonempty ?t then _ else _) = _ =>
          exists t; destruct t; [discriminate | split; [discriminate | now injection H]]
      end. }
  destruct Hs as (t & Ht & ->).
  pose proof (sanitize_safe false t) as Hsafe.
  pose proof (sanitize_nonempty t Ht) as Hne.
  split; [exact Hne|]. split; [exact Hsafe|].
  unfold Neutral.normalize_id. cbn [PyText.str].
  rewrite (strip_fixed _ Hsafe).
  destruct (Neutral.sanitize false t) eqn:E; [contradiction|].
  cbn [PyText.nonempty]. now rewrite sanitize_fixed.
Qed.

Lemma normalize_id_safe_witness :
  Neutral.normalize_id (JStr "  Mr. Mime / n.122  ") = Ok "Mr.-Mime-n.122" /\
  PyText.all_chars PyText.is_key_char "Mr.-Mime-n.122" = true /\
  Neutral.normalize_id (JStr "Mr.-Mime-n.122") = Ok "Mr.-Mime-n.122".
Proof.
  split; [reflexivity|].
  exact (proj2 (normalize_id_safe (JStr "  Mr. Mime / n.122  ") "Mr.-Mime-n.122" eq_refl)).
Defined.

(** ** Dotted keys *)

Lemma split_dot_nonempty (s : string) : PyText.split_dot s <> [].
Proof.
  induction s as [|c r IH]; [discriminate|]. cbn [PyText.split_dot].
  destruct (Ascii.eqb c "."); [discriminate|].
  destruct (PyText.split_dot r); discriminate.
Qed.

Lemma split_dot_single (k : string) :
  PyText.has_char "." k = false -> PyText.split_dot k = [k].
Proof.
  induction k as [|c r IH]; [reflexivity|]. cbn [PyText.has_char PyText.split_dot].
  rewrite Ascii.eqb_sym. destruct (Ascii.eqb c "."); [discriminate|].
  intros H. now rewrite (IH H).
Qed.

Lemma split_dot_descend (k rest : string) :
  PyText.has_char "." k = false ->
  PyText.split_dot (k +:+ "." +:+ rest) = k :: PyText.split_dot rest.
Proof.
  induction k as [|c r IH]; [reflexivity|]. cbn [PyText.has_char].
  rewrite str_app_cons. cbn [PyText.split_dot].
  rewrite Ascii.eqb_sym. destruct (Ascii.eqb c "."); [discriminate|].
  intros H. now rewrite (IH H).
Qed.

Lemma lookup_parts_get_parts (cur : json) (parts : list string) (key : string) :
  Render.lookup_parts cur parts
  = match Neutral.get_parts cur parts key with
    | Ok v => v
    | Raise _ => JNull
    end /\
  forall e, Neutral.get_parts cur parts key = Raise e -> e = KeyError key.
Proof.
  revert cur. induction parts as [|part rest IH]; intros cur.
  - split; [reflexivity | discriminate].
  - cbn [Render.lookup_parts Neutral.get_parts].
    destruct cur; try (split; [reflexivity | now intros e [= <-]]).
    destruct (dict_lookup part d); [apply IH|].
    split; [reflexivity | now intros e [= <-]].
Qed.

(** X5.  The two scripts resolve a dotted key alike: [lookup] of
    [render_template] returns the value that [get_dotted] returns, and null
    exactly where [get_dotted] raises; and what [get_dotted] raises is always
    a [KeyError] carrying the whole key. *)
Theorem lookup_agrees_with_get_dotted (ctx : dict) (path : string) :
  Render.lookup path ctx
  = match Neutral.get_dotted (JDict ctx) path with
    | Ok v => v
    | Raise _ => JNull
    end /\
  forall e, Neutral.get_dotted (JDict ctx) path = Raise e -> e = KeyError path.
Proof. apply lookup_parts_get_parts. Qed.

(** X6.  A dotted key goes down one dict per dot: a key without a dot is a
    plain lookup, and [k.rest] looks [rest] up in the dict stored under [k],
    giving null when [k] is missing or holds anything but a dict. *)
Theorem dotted_key_descends (ctx : dict) (k rest : string) :
  PyText.has_char "." k = false ->
  Render.lookup k ctx = dict_get k ctx /\
  Render.lookup (k +:+ "." +:+ rest) ctx
  = match dict_lookup k ctx with
    | Some (JDict d) => Render.lookup rest d
    | _ => JNull
    end /\
  Neutral.has_dotted (JDict ctx) (k +:+ "." +:+ rest)
  = match dict_lookup k ctx with
    | Some (JDict d) => Neutral.has_dotted (JDict d) rest
    | _ => false
    end.
Proof.
  intros Hk. unfold Render.lookup, Neutral.has_dotted, Neutral.get_dotted, dict_get.
  rewrite (split_dot_single k Hk), (split_dot_descend k rest Hk).
  cbn [Render.lookup_parts Neutral.get_parts].
  split; [now destruct (dict_lookup k ctx)|].
  destruct (dict_lookup k ctx) as [v|]; [|split; reflexivity].
  pose proof (split_dot_nonempty rest) as Hne.
  destruct (PyText.split_dot rest) as [|p ps] eqn:Er; [contradiction|].
  destruct v; cbn [Render.lookup_parts Neutral.get_parts]; split; try reflexivity.
  (* the key that a failing descent reports differs, failing or not does not *)
  assert (H : forall key1 key2 cur parts,
            raises (Neutral.get_parts cur parts key1) = raises (Neutral.get_parts cur parts key2)).
  { intros key1 key2 cur parts. revert cur.
    induction parts as [|q qs IH]; intros cur; [reflexivity|].
    cbn [Neutral.get_parts]. destruct cur; try reflexivity.
    destruct (dict_lookup q d0); [apply IH | reflexivity]. }
  f_equal. apply (H _ _ (JDict d) (p :: ps)).
Qed.

Lemma dotted_key_descends_witness :
  Render.lookup ("stats" +:+ "." +:+ "hp") [("stats", JDict [("hp", JInt 60)])] = JInt 60.
Proof.
  destruct (dotted_key_descends [("stats", JDict [("hp", JInt 60)])] "stats" "hp" eq_refl)
    as (_ & H & _).
  rewrite H. reflexivity.
Defined.

(** ** More on [deep_merge] *)

Lemma fold_left_pointwise {A B : Type} (f g : A -> B -> A) (l : list B) (a : A) :
  (forall a x, In x l -> f a x = g a x) -> fold_left f l a = fold_left g l a.
Proof.
  revert a. induction l as [|x r IH]; intros a H; [reflexivity|].
  cbn [fold_left]. rewrite (H a x (or_introl eq_refl)).
  apply IH. intros a' y Hy. apply H. now right.
Qed.

(** a loop [for k, v in o.items(): out[k] = ...] keeps the keys of [out] in
    their order and appends the new keys of [o] in theirs *)
Lemma fold_set_keys (g : dict -> string * json -> json) (o out : dict) :
  NoDup (keys o) ->
  keys (fold_left (fun out kv => dict_set (fst kv) (g out kv) out) o out)
  = keys out ++ List.filter (fun k => negb (dict_has k out)) (keys o).
Proof.
  revert out. induction o as [|[k v] r IH]; intros out Hnd.
  - cbn. now rewrite app_nil_r.
  - cbn [keys map fst] in Hnd. apply NoDup_cons in Hnd as [Hk Hnd].
    cbn [fold_left fst snd]. rewrite IH by exact Hnd.
    assert (Hext : List.filter (fun k' => negb (dict_has k' (dict_set k (g out (k, v)) out)))
                               (keys r)
                   = List.filter (fun k' => negb (dict_has k' out)) (keys r)).
    { apply List.filter_ext_in. intros k' Hin. rewrite has_set.
      destruct (String.eqb_spec k' k) as [->|]; [|reflexivity].
      exfalso. apply Hk. now apply list_elem_of_In. }
    rewrite Hext. cbn [keys map fst List.filter].
    destruct (dict_has k out) eqn:E; cbn [negb].
    + now rewrite keys_set_present.
    + rewrite keys_set_absent by exact E. now rewrite <- app_assoc.
Qed.

Lemma render_merge_fold (b o : dict) :
  Render.merge_dicts (JDict b) (JDict o)
  = fold_left (fun out kv =>
                 dict_set (fst kv) (Render.merged_value (dict_lookup (fst kv) out) (snd kv)) out)
              o b.
Proof.
  rewrite render_merge_unfold. apply fold_left_pointwise.
  intros out [k v] _. cbn [fst snd]. unfold Render.merged_value.
  destruct (dict_lookup k out) as [[| | | | | |rb]|]; try reflexivity.
  destruct v; reflexivity.
Qed.

(** X7.  Neither [deep_merge] drops or reorders a key of the base: the merged
    dict has the keys of the base first, in their order, and then the keys
    that only the override has, in the override's order. *)
Theorem deep_merge_keeps_key_order (b o : dict) :
  NoDup (keys o) ->
  (exists m, Neutral.deep_merge (JDict b) (JDict o) = JDict m /\
             keys m = keys b ++ List.filter (fun k => negb (dict_has k b)) (keys o)) /\
  (exists m, Render.deep_merge (JDict b) (JDict o) = Ok m /\
             keys m = keys b ++ List.filter (fun k => negb (dict_has k b)) (keys o)).
Proof.
  intros Hnd. split.
  - eexists. split; [apply neutral_merge_unfold|].
    exact (fold_set_keys (fun out kv => Neutral.deep_merge (dict_get (fst kv) out) (snd kv))
                         o b Hnd).
  - eexists. split; [reflexivity|]. rewrite render_merge_fold.
    exact (fold_set_keys (fun out kv => Render.merged_value (dict_lookup (fst kv) out) (snd kv))
                         o b Hnd).
Qed.

Lemma deep_merge_keeps_key_order_witness :
  exists m,
    Neutral.deep_merge (JDict [("name", JStr "n/a"); ("hp", JInt 10)])
                       (JDict [("id", JInt 7); ("hp", JInt 60)]) = JDict m /\
    keys m = ["name"; "hp"; "id"].
Proof.
  assert (Hnd : NoDup (keys [("id", JInt 7); ("hp", JInt 60)]))
    by (apply (bool_decide_unpack _); vm_compute; exact I).
  destruct (proj1 (deep_merge_keeps_key_order
                     [("name", JStr "n/a"); ("hp", JInt 10)]
                     [("id", JInt 7); ("hp", JInt 60)] Hnd)) as (m & Hm & Hk).
  exists m. split; [exact Hm | exact Hk].
Defined.

Lemma set_absent (k : string) (v : json) (d : dict) :
  dict_has k d = false -> dict_set k v d = d ++ [(k, v)].
Proof.
  induction d as [|[k' v'] r IH]; [reflexivity|]. cbn [dict_has dict_set].
  destruct (String.eqb k k'); [discriminate|]. intros H. cbn. now rewrite IH.
Qed.

Lemma neutral_merge_none (v : json) : Neutral.deep_merge JNull v = v.
Proof. destruct v; reflexivity. Qed.

Lemma has_app (k : string) (a b : dict) :
  dict_has k (a ++ b) = (dict_has k a || dict_has k b)%bool.
Proof.
  induction a as [|[k' v'] r IH]; [reflexivity|]. cbn [app dict_has].
  destruct (String.eqb k k'); [reflexivity | exact IH].
Qed.

(** a loop that only meets keys [out] lacks appends its items as they come *)
Lemma fold_set_fresh (g : dict -> string * json -> json) (o out : dict) :
  NoDup (keys o) ->
  (forall k, In k (keys o) -> dict_has k out = false) ->
  (forall out' kv, dict_has (fst kv) out' = false -> g out' kv = snd kv) ->
  fold_left (fun out kv => dict_set (fst kv) (g out kv) out) o out = out ++ o.
Proof.
  intros Hnd Hfresh Hg. revert out Hfresh.
  induction o as [|[k v] r IH]; intros out Hfresh; [now rewrite app_nil_r|].
  cbn [keys map fst] in Hnd. apply NoDup_cons in Hnd as [Hk Hnd].
  assert (Hko : dict_has k out = false) by (apply Hfresh; now left).
  cbn [fold_left fst snd]. rewrite (Hg out (k, v) Hko). cbn [snd].
  rewrite set_absent by exact Hko. rewrite IH.
  - now rewrite <- app_assoc.
  - exact Hnd.
  - intros k' Hin. rewrite has_app, (Hfresh k' (or_intror Hin)). cbn [dict_has orb].
    destruct (String.eqb_spec k' k) as [->|]; [|reflexivity].
    exfalso. apply Hk. now apply list_elem_of_In.
Qed.

(** X8.  Merging a config onto empty defaults gives the config itself, item
    for item, in both scripts (so a run without defaults takes its variables
    straight from the config); and merging nothing onto a base gives the
    base. *)
Theorem deep_merge_with_empty (d : dict) :
  NoDup (keys d) ->
  Neutral.deep_merge (JDict []) (JDict d) = JDict d /\
  Render.deep_merge (JDict []) (JDict d) = Ok d /\
  Neutral.deep_merge (JDict d) (JDict []) = JDict d /\
  Render.deep_merge (JDict d) (JDict []) = Ok d /\
  Render.deep_merge (JDict d) JNull = Ok d.
Proof.
  intros Hnd. split; [|split; [|repeat split]].
  - rewrite neutral_merge_unfold. f_equal.
    rewrite (fold_set_fresh
               (fun out kv => Neutral.deep_merge (dict_get (fst kv) out) (snd kv)) d [] Hnd);
      [reflexivity | reflexivity |].
    intros out' [k v] Hk. cbn [fst snd] in *. unfold dict_get.
    apply dict_has_false in Hk. rewrite Hk. apply neutral_merge_none.
  - unfold Render.deep_merge. rewrite render_merge_fold. f_equal.
    rewrite (fold_set_fresh
               (fun out kv => Render.merged_value (dict_lookup (fst kv) out) (snd kv)) d [] Hnd);
      [reflexivity | reflexivity |].
    intros out' [k v] Hk. cbn [fst snd] in *.
    apply dict_has_false in Hk. now rewrite Hk.
Qed.

Lemma deep_merge_with_empty_witness :
  Neutral.deep_merge (JDict []) (JDict [("id", JInt 7); ("tags", JNull)])
  = JDict [("id", JInt 7); ("tags", JNull)].
Proof.
  assert (Hnd : NoDup (keys [("id", JInt 7); ("tags", JNull)]))
    by (apply (bool_decide_unpack _); vm_compute; exact I).
  exact (proj1 (deep_merge_with_empty [("id", JInt 7); ("tags", JNull)] Hnd)).
Defined.

Lemma merges_agree_value (v : json) :
  no_null_values v = true ->
  forall d rb, v = JDict d ->
    Neutral.deep_merge (JDict rb) (JDict d) = JDict (Render.merge_dicts (JDict rb) (JDict d)).
Proof.
  induction v as [| | | | | l _ |d0 IH] using json_ind; intros Hnn d rb; try discriminate.
  intros [= <-]. rewrite neutral_merge_unfold, render_merge_fold. f_equal.
  apply fold_left_pointwise. intros out [k v] Hin. cbn [fst snd]. f_equal.
  cbn [no_null_values] in Hnn. rewrite forallb_forall in Hnn.
  specialize (Hnn (k, v) Hin). cbn [snd] in Hnn. apply andb_true_iff in Hnn as [Hv Hnv].
  rewrite List.Forall_forall in IH. specialize (IH (k, v) Hin Hnv). cbn [snd] in IH.
  unfold dict_get, Render.merged_value.
  destruct v as [| | | | | |d']; try discriminate Hv;
    try (destruct (dict_lookup k out) as [[| | | | | |rb']|]; reflexivity).
  destruct (dict_lookup k out) as [[| | | | | |rb']|]; try reflexivity.
  apply IH. reflexivity.
Qed.

(** X9.  The two [deep_merge] functions differ on null only: for an override
    that holds no null value at any depth of its nested dicts, they merge a
    base dict to the same dict. *)
Theorem deep_merges_agree_without_null (b o : dict) :
  no_null_values (JDict o) = true ->
  exists m, Render.deep_merge (JDict b) (JDict o) = Ok m /\
            Neutral.deep_merge (JDict b) (JDict o) = JDict m.
Proof.
  intros Hnn. eexists. split; [reflexivity|].
  now apply (merges_agree_value (JDict o)).
Qed.

Lemma deep_merges_agree_without_null_witness :
  exists m,
    Render.deep_merge (JDict [("a", JDict [("x", JInt 1)]); ("b", JInt 2)])
                      (JDict [("a", JDict [("y", JList [JNull])]); ("c", JStr "z")]) = Ok m /\
    Neutral.deep_merge (JDict [("a", JDict [("x", JInt 1)]); ("b", JInt 2)])
                       (JDict [("a", JDict [("y", JList [JNull])]); ("c", JStr "z")]) = JDict m.
Proof.
  exact (deep_merges_agree_without_null
           [("a", JDict [("x", JInt 1)]); ("b", JInt 2)]
           [("a", JDict [("y", JList [JNull])]); ("c", JStr "z")] eq_refl).
Defined.

(** ** More on the crop parameters *)

Lemma in_lookup_nodup (k : string) (v : json) (d : dict) :
  NoDup (keys d) -> In (k, v) d -> dict_lookup k d = Some v.
Proof.
  induction d as [|[k' v'] r IH]; intros Hnd Hin; [destruct Hin|].
  cbn [keys map fst] in Hnd. apply NoDup_cons in Hnd as [Hk Hnd].
  cbn [dict_lookup]. destruct Hin as [[= -> ->]|Hin]; [now rewrite String.eqb_refl|].
  destruct (String.eqb_spec k k') as [->|]; [|now apply IH].
  exfalso. apply Hk, list_elem_of_In. change (In k' (map fst r)).
  apply in_map_iff. now exists (k', v).
Qed.

Lemma lookup_in (k : string) (v : json) (d : dict) :
  dict_lookup k d = Some v -> In (k, v) d.
Proof.
  induction d as [|[k' v'] r IH]; [discriminate|]. cbn [dict_lookup].
  destruct (String.eqb_spec k k') as [->|]; [intros [= ->]; now left | right; now apply IH].
Qed.

(** X10.  [_extract_crop_params_from_image] returns exactly the crop fields
    of the image: each of the six keys the image has, with the image's value,
    once, and no other key ([src] and [dexStats] never). *)
Theorem extract_only_crop_fields (img_dict : dict) :
  NoDup (keys (Crop._extract_crop_params_from_image img_dict)) /\
  (forall k, dict_lookup k (Crop._extract_crop_params_from_image img_dict)
             = if Crop.is_crop_key k then dict_lookup k img_dict else None) /\
  (forall k, In k (keys (Crop._extract_crop_params_from_image img_dict)) ->
             In k Crop._CROP_KEYS /\ dict_has k img_dict = true).
Proof.
  split; [apply extract_nodup|]. split; [apply extract_lookup|].
  intros k Hin. apply dict_has_keys, dict_has_lookup in Hin as [v Hv].
  rewrite extract_lookup in Hv. destruct (Crop.is_crop_key k) eqn:E; [|discriminate].
  split; [now apply is_crop_key_in | apply dict_has_lookup; eauto].
Qed.

Lemma update_same (d p : dict) :
  (forall k v, In (k, v) p -> dict_lookup k d = Some v) -> dict_update d p = d.
Proof.
  unfold dict_update. induction p as [|[k v] r IH]; intros H; [reflexivity|].
  cbn [fold_left fst snd]. rewrite set_same by (apply H; now left).
  apply IH. intros k' v' Hin. apply H. now right.
Qed.

Lemma extract_items (img : dict) (k : string) (v : json) :
  In (k, v) (Crop._extract_crop_params_from_image img) -> dict_lookup k img = Some v.
Proof.
  intros Hin%(in_lookup_nodup _ _ _ (extract_nodup img)).
  rewrite extract_lookup in Hin. now destruct (Crop.is_crop_key k).
Qed.

(** X11.  Applying to an image the crop parameters extracted from that same
    image leaves it exactly as it was, keys, order and values. *)
Theorem apply_own_crop_params (img_dict : dict) :
  Crop._apply_crop_params_to_image img_dict (Crop._extract_crop_params_from_image img_dict)
  = img_dict.
Proof.
  unfold Crop._apply_crop_params_to_image. apply update_same.
  intros k v. apply extract_items.
Qed.

(** X12.  [_apply_crop_params_to_images] keeps the images of the tree, their
    number and their order: the walk over the mutated tree yields the images
    of the walk before, each with the parameters applied. *)
Theorem apply_keeps_the_images (rendered_json crop_params : dict) :
  Crop._iter_image_dicts (JDict (Crop._apply_crop_params_to_images rendered_json crop_params))
  = map (fun img_dict => Crop._apply_crop_params_to_image img_dict crop_params)
        (Crop._iter_image_dicts (JDict rendered_json)).
Proof. unfold Crop._apply_crop_params_to_images. apply iter_map_image_items. Qed.

Lemma on_dict_fixed (f : dict -> dict) (l : list json) :
  (forall img, In img (Crop.dict_items l) -> f img = img) -> map (Crop.on_dict f) l = l.
Proof.
  induction l as [|x r IH]; intros H; [reflexivity|]. cbn [map].
  destruct x; cbn [Crop.on_dict Crop.dict_items] in *;
    try (rewrite IH by exact H; reflexivity).
  rewrite (H d (or_introl eq_refl)), IH; [reflexivity|].
  intros img Hin. apply H. now right.
Qed.

(** a mutation that changes none of the images leaves the tree as it is *)
Lemma map_image_dicts_fixed (f : dict -> dict) (obj : json) :
  (forall img, In img (Crop._iter_image_dicts obj) -> f img = img) ->
  Crop.map_image_dicts f obj = obj.
Proof.
  induction obj as [| | | | |l IH|d IH] using json_ind; intros H; try reflexivity.
  - cbn [Crop.map_image_dicts Crop._iter_image_dicts] in *. f_equal.
    induction IH as [|x r Hx _ IHr]; [reflexivity|]. cbn [map flat_map] in *.
    rewrite Hx by (intros img Hin; apply H, in_app_iff; now left).
    rewrite IHr by (intros img Hin; apply H, in_app_iff; now right). reflexivity.
  - cbn [Crop.map_image_dicts Crop._iter_image_dicts] in *. f_equal.
    induction IH as [|[k v] r Hv _ IHr]; [reflexivity|]. cbn [map flat_map fst snd] in *.
    rewrite IHr by (intros img Hin; apply H, in_app_iff; now right).
    f_equal. f_equal.
    assert (Hhere : forall img,
              In img (match v with
                      | JList l => if String.eqb k "images" then Crop.dict_items l
                                   else Crop._iter_image_dicts v
                      | _ => Crop._iter_image_dicts v
                      end) -> f img = img)
      by (intros img Hin; apply H, in_app_iff; now left).
    destruct v; try (apply Hv; exact Hhere).
    destruct (String.eqb k "images"); [f_equal; now apply on_dict_fixed | apply Hv; exact Hhere].
Qed.

Lemma apply_fixed (rendered e : dict) :
  (forall img, In img (Crop._iter_image_dicts (JDict rendered)) ->
     forall k v, In (k, v) e -> dict_lookup k img = Some v) ->
  Crop._apply_crop_params_to_images rendered e = rendered.
Proof.
  intros H.
  pose proof (map_image_dicts_fixed
                (fun img => Crop._apply_crop_params_to_image img e) (JDict rendered)) as Hm.
  cbn [Crop.map_image_dicts] in Hm. unfold Crop._apply_crop_params_to_images.
  assert (Hf : forall img, In img (Crop._iter_image_dicts (JDict rendered)) ->
            Crop._apply_crop_params_to_image img e = img)
    by (intros img Hin; apply update_same; now apply H).
  specialize (Hm Hf). now injection Hm.
Qed.

(** ** More on the reconciler of the [fixed3] script *)

Lemma nodup_update (d p : dict) :
  NoDup (keys d) -> NoDup (keys (dict_update d p)).
Proof.
  unfold dict_update. revert d. induction p as [|[k v] r IH]; intros d H; [exact H|].
  cbn [fold_left fst snd]. apply IH. now apply nodup_set.
Qed.

Lemma iter_set_incl (k : string) (v : json) (d img : dict) :
  k <> "images" ->
  Crop._iter_image_dicts v = [] ->
  In img (Crop._iter_image_dicts (JDict (dict_set k v d))) ->
  In img (Crop._iter_image_dicts (JDict d)).
Proof.
  intros Hk Hv.
  assert (Hki : String.eqb k "images" = false) by (now apply String.eqb_neq).
  assert (Hnew : match v with
                 | JList l => if String.eqb k "images" then Crop.dict_items l
                              else Crop._iter_image_dicts v
                 | _ => Crop._iter_image_dicts v
                 end = []) by (rewrite Hki; now destruct v).
  induction d as [|[k0 v0] r IH].
  - cbn [dict_set]. rewrite iter_dict_cons, Hnew. intros [].
  - cbn [dict_set]. destruct (String.eqb_spec k k0) as [->|Hne].
    + rewrite !iter_dict_cons, Hnew. intros Hin. apply in_app_iff. now right.
    + rewrite !iter_dict_cons. intros [Hin|Hin]%in_app_iff; apply in_app_iff;
        [now left | right; now apply IH].
Qed.

(** the images of the tree that the reconciler returns, for a sidecar that
    reads as an object *)
Lemma sync_existing_images (rendered : dict) (p : string) (st : fs) (e out : dict) (st' : fs) :
  NoDup (keys e) ->
  files st !! p = Some (Dumps (JDict e)) ->
  (p ∉ rd_deny st) ->
  Crop._iter_image_dicts (dict_get "dexStats" e) = [] ->
  Fixed3._sync_crop_sidecar rendered p st = Ok (out, st') ->
  forall img k v, In img (Crop._iter_image_dicts (JDict out)) ->
                  dict_lookup k e = Some v -> dict_lookup k img = Some v.
Proof.
  intros Hnd Hf Hrd Hcap Hs img k v Hin Hk.
  destruct (Crop._iter_image_dicts (JDict rendered)) as [|i0 rest] eqn:Hit.
  - rewrite sync_no_image in Hs by exact Hit. injection Hs as <- <-.
    rewrite Hit in Hin. destruct Hin.
  - rewrite (sync_existing rendered p st e) in Hs by (rewrite ?Hit; easy). cbv zeta in Hs.
    destruct (is_not_none (dict_get "dexStats" e)).
    + injection Hs as <- <-. apply iter_set_incl in Hin; [|easy|exact Hcap].
      now apply (apply_reaches_every_image rendered e).
    + destruct (is_not_none (dict_get "dexStats" rendered)); injection Hs as <- <-;
        now apply (apply_reaches_every_image rendered e).
Qed.

(** X13.  The sidecar wins on every image: when the sidecar reads as an
    object (whose caption field, if any, holds no [images] list), every image
    of the reconciled tree, at any depth, has every field of the sidecar with
    the sidecar's value, whatever the template rendered there. *)
Theorem stored_values_reach_every_image (rendered_json : dict) (sidecar_path : string)
    (st : fs) (existing out : dict) (st' : fs) :
  NoDup (keys existing) ->
  files st !! sidecar_path = Some (Dumps (JDict existing)) ->
  (sidecar_path ∉ rd_deny st) ->
  Crop._iter_image_dicts (dict_get "dexStats" existing) = [] ->
  Fixed3._sync_crop_sidecar rendered_json sidecar_path st = Ok (out, st') ->
  forall img k v, In img (Crop._iter_image_dicts (JDict out)) ->
                  dict_lookup k existing = Some v -> dict_lookup k img = Some v.
Proof. apply sync_existing_images. Qed.

Lemma stored_values_reach_every_image_witness :
  let st := MkFs {[ "001.jpg.crop.json" := Dumps (JDict [("zoom", JInt 2)]) ]} ∅ ∅ [] in
  let rendered := [("images", JList [JDict [("src", JStr "x"); ("zoom", JInt 1)]]);
                   ("back", JDict [("images", JList [JDict [("rotation", JInt 90)]])])] in
  exists out st',
    Fixed3._sync_crop_sidecar rendered "001.jpg.crop.json" st = Ok (out, st') /\
    In [("rotation", JInt 90); ("zoom", JInt 2)] (Crop._iter_image_dicts (JDict out)) /\
    dict_lookup "zoom" [("rotation", JInt 90); ("zoom", JInt 2)] = Some (JInt 2).
Proof.
  cbv zeta.
  assert (Hnd : NoDup (keys [("zoom", JInt 2)]))
    by (apply (bool_decide_unpack _); vm_compute; exact I).
  assert (Hf : files (MkFs {[ "001.jpg.crop.json" := Dumps (JDict [("zoom", JInt 2)]) ]} ∅ ∅ [])
               !! "001.jpg.crop.json" = Some (Dumps (JDict [("zoom", JInt 2)])))
    by reflexivity.
  assert (Hrd : "001.jpg.crop.json" ∉
                rd_deny (MkFs {[ "001.jpg.crop.json" := Dumps (JDict [("zoom", JInt 2)]) ]} ∅ ∅ []))
    by (cbn; apply not_elem_of_empty).
  assert (Hs : Fixed3._sync_crop_sidecar
                 [("images", JList [JDict [("src", JStr "x"); ("zoom", JInt 1)]]);
                  ("back", JDict [("images", JList [JDict [("rotation", JInt 90)]])])]
                 "001.jpg.crop.json"
                 (MkFs {[ "001.jpg.crop.json" := Dumps (JDict [("zoom", JInt 2)]) ]} ∅ ∅ [])
               = Ok ([("images", JList [JDict [("src", JStr "x"); ("zoom", JInt 2)]]);
                      ("back", JDict [("images",
                         JList [JDict [("rotation", JInt 90); ("zoom", JInt 2)]])])],
                     MkFs {[ "001.jpg.crop.json" := Dumps (JDict [("zoom", JInt 2)]) ]} ∅ ∅ []))
    by reflexivity.
  assert (Hin : In [("rotation", JInt 90); ("zoom", JInt 2)]
                  (Crop._iter_image_dicts
                     (JDict [("images", JList [JDict [("src", JStr "x"); ("zoom", JInt 2)]]);
                             ("back", JDict [("images",
                                JList [JDict [("rotation", JInt 90); ("zoom", JInt 2)]])])])))
    by (right; left; reflexivity).
  eexists _, _. split; [exact Hs|]. split; [exact Hin|].
  exact (stored_values_reach_every_image _ _ _ _ _ _ Hnd Hf Hrd eq_refl Hs _ "zoom" (JInt 2)
           Hin eq_refl).
Defined.

Lemma sync_again (out : dict) (p : string) (st : fs) (e : dict) :
  files st !! p = Some (Dumps (JDict e)) ->
  (p ∉ rd_deny st) ->
  (forall img, In img (Crop._iter_image_dicts (JDict out)) ->
     forall k v, In (k, v) e -> dict_lookup k img = Some v) ->
  (if is_not_none (dict_get "dexStats" e)
   then dict_lookup "dexStats" out = Some (dict_get "dexStats" e)
   else is_not_none (dict_get "dexStats" out) = false) ->
  Fixed3._sync_crop_sidecar out p st = Ok (out, st).
Proof.
  intros Hf Hrd Himg Hcap.
  destruct (Crop._iter_image_dicts (JDict out)) as [|i0 rest] eqn:Hit;
    [now apply sync_no_image|].
  rewrite (sync_existing out p st e) by (rewrite ?Hit; easy). cbv zeta.
  rewrite apply_fixed by (rewrite Hit; exact Himg).
  destruct (is_not_none (dict_get "dexStats" e)).
  - now rewrite set_same.
  - now rewrite Hcap.
Qed.

(** X14.  Reconciling is idempotent on the tree once the sidecar is settled:
    when the sidecar reads as an object that has a caption already, or the
    tree has none to add, the reconciler writes nothing, and reconciling the
    tree it returns once more returns that same tree. *)
Theorem reconciled_tree_is_fixed (rendered_json : dict) (sidecar_path : string)
    (st : fs) (existing : dict) :
  NoDup (keys existing) ->
  files st !! sidecar_path = Some (Dumps (JDict existing)) ->
  (sidecar_path ∉ rd_deny st) ->
  Crop._iter_image_dicts (dict_get "dexStats" existing) = [] ->
  is_not_none (dict_get "dexStats" existing) = true \/
  is_not_none (dict_get "dexStats" rendered_json) = false ->
  exists out,
    Fixed3._sync_crop_sidecar rendered_json sidecar_path st = Ok (out, st) /\
    Fixed3._sync_crop_sidecar out sidecar_path st = Ok (out, st).
Proof.
  intros Hnd Hf Hrd Hci Hcap.
  destruct (Crop._iter_image_dicts (JDict rendered_json)) as [|i0 rest] eqn:Hit.
  { exists rendered_json. split; now apply sync_no_image. }
  pose proof (sync_existing rendered_json sidecar_path st existing) as Hs.
  rewrite Hit in Hs. specialize (Hs ltac:(easy) Hf Hrd). cbv zeta in Hs.
  assert (Himg : forall out st', Fixed3._sync_crop_sidecar rendered_json sidecar_path st
                                 = Ok (out, st') ->
            forall img, In img (Crop._iter_image_dicts (JDict out)) ->
              forall k v, In (k, v) existing -> dict_lookup k img = Some v).
  { intros out st' Ho img Hin k v Hkv.
    apply (sync_existing_images _ _ _ _ _ _ Hnd Hf Hrd Hci Ho img k v Hin).
    now apply in_lookup_nodup. }
  destruct (is_not_none (dict_get "dexStats" existing)) eqn:Hce.
  - eexists. split; [exact Hs|].
    apply (sync_again _ _ _ existing Hf Hrd (Himg _ _ Hs)).
    rewrite Hce. apply lookup_set_eq.
  - destruct Hcap as [Hcap|Hcap]; [discriminate|]. rewrite Hcap in Hs.
    eexists. split; [exact Hs|].
    apply (sync_again _ _ _ existing Hf Hrd (Himg _ _ Hs)).
    rewrite Hce. unfold Crop._apply_crop_params_to_images.
    rewrite get_map_image_items_scalar by easy.
    now rewrite is_not_none_map_image_dicts.
Qed.

Lemma reconciled_tree_is_fixed_witness :
  let st := MkFs {[ "001.jpg.crop.json" :=
                      Dumps (JDict [("zoom", JInt 2); ("dexStats", JStr "A")]) ]} ∅ ∅ [] in
  let rendered := [("images", JList [JDict [("src", JStr "x"); ("zoom", JInt 1)]]);
                   ("dexStats", JStr "B")] in
  exists out,
    Fixed3._sync_crop_sidecar rendered "001.jpg.crop.json" st = Ok (out, st) /\
    Fixed3._sync_crop_sidecar out "001.jpg.crop.json" st = Ok (out, st).
Proof.
  cbv zeta.
  assert (Hnd : NoDup (keys [("zoom", JInt 2); ("dexStats", JStr "A")]))
    by (apply (bool_decide_unpack _); vm_compute; exact I).
  assert (Hf : files (MkFs {[ "001.jpg.crop.json" :=
                                Dumps (JDict [("zoom", JInt 2); ("dexStats", JStr "A")]) ]}
                           ∅ ∅ [])
               !! "001.jpg.crop.json"
               = Some (Dumps (JDict [("zoom", JInt 2); ("dexStats", JStr "A")])))
    by reflexivity.
  assert (Hrd : "001.jpg.crop.json" ∉
                rd_deny (MkFs {[ "001.jpg.crop.json" :=
                                   Dumps (JDict [("zoom", JInt 2); ("dexStats", JStr "A")]) ]}
                              ∅ ∅ []))
    by (cbn; apply not_elem_of_empty).
  exact (reconciled_tree_is_fixed
           [("images", JList [JDict [("src", JStr "x"); ("zoom", JInt 1)]]);
            ("dexStats", JStr "B")] _ _ _ Hnd Hf Hrd eq_refl (or_introl eq_refl)).
Defined.

(** X15.  A sidecar made from a tree gives that tree back: for a tree without
    a caption whose images agree with the first one on the crop fields the
    first one has, and no sidecar yet, the reconciler returns the tree as it
    is, and with the files it leaves (the sidecar written, or not if it could
    not be) a second reconciliation returns the same tree and writes nothing. *)
Theorem fresh_sidecar_round_trip (rendered_json : dict) (sidecar_path : string) (st : fs)
    (img0 : dict) (rest : list dict) :
  Crop._iter_image_dicts (JDict rendered_json) = img0 :: rest ->
  files st !! sidecar_path = None ->
  (sidecar_path ∉ rd_deny st) ->
  is_not_none (dict_get "dexStats" rendered_json) = false ->
  (forall img k v, In img rest -> Crop.is_crop_key k = true ->
                   dict_lookup k img0 = Some v -> dict_lookup k img = Some v) ->
  exists st1,
    Fixed3._sync_crop_sidecar rendered_json sidecar_path st = Ok (rendered_json, st1) /\
    Fixed3._sync_crop_sidecar rendered_json sidecar_path st1 = Ok (rendered_json, st1).
Proof.
  intros Hit Hf Hrd Hcap Hrest.
  pose proof (sync_missing rendered_json sidecar_path st img0 rest Hit Hf) as Hs.
  rewrite Hcap in Hs.
  destruct (decide (sidecar_path ∈ wr_deny st)) as [Hw|Hw].
  - rewrite try_write_denied in Hs by exact Hw. exists st. now split.
  - rewrite try_write_allowed in Hs by exact Hw.
    eexists. split; [exact Hs|].
    set (U := dict_update [] (Crop._extract_crop_params_from_image img0)).
    assert (HU : forall k, dict_lookup k U
                           = if Crop.is_crop_key k then dict_lookup k img0 else None)
      by (intros k; unfold U; rewrite update_empty_lookup by apply extract_nodup;
          apply extract_lookup).
    apply (sync_again _ _ _ U).
    + cbn [files]. apply lookup_insert_eq.
    + exact Hrd.
    + rewrite Hit. intros img Hin k v Hkv.
      apply in_lookup_nodup in Hkv; [|apply nodup_update; constructor].
      rewrite HU in Hkv. destruct (Crop.is_crop_key k) eqn:Hk; [|discriminate].
      destruct Hin as [<-|Hin]; [exact Hkv | now apply (Hrest img k v)].
    + unfold dict_get at 1. rewrite HU, is_crop_key_dexStats. exact Hcap.
Qed.

Lemma fresh_sidecar_round_trip_witness :
  let st := MkFs ∅ ∅ ∅ [] in
  let rendered := [("images", JList [JDict [("src", JStr "x"); ("zoom", JInt 1)]]);
                   ("back", JDict [("images", JList [JDict [("zoom", JInt 1)]])])] in
  exists st1,
    Fixed3._sync_crop_sidecar rendered "001.jpg.crop.json" st = Ok (rendered, st1) /\
    Fixed3._sync_crop_sidecar rendered "001.jpg.crop.json" st1 = Ok (rendered, st1).
Proof.
  cbv zeta.
  assert (Hit : Crop._iter_image_dicts
                  (JDict [("images", JList [JDict [("src", JStr "x"); ("zoom", JInt 1)]]);
                          ("back", JDict [("images", JList [JDict [("zoom", JInt 1)]])])])
                = [("src", JStr "x"); ("zoom", JInt 1)] :: [[("zoom", JInt 1)]])
    by reflexivity.
  assert (Hf : files (MkFs ∅ ∅ ∅ []) !! "001.jpg.crop.json" = None) by reflexivity.
  assert (Hrd : "001.jpg.crop.json" ∉ rd_deny (MkFs ∅ ∅ ∅ []))
    by (cbn; apply not_elem_of_empty).
  assert (Hrest : forall img k v, In img [[("zoom", JInt 1)]] -> Crop.is_crop_key k = true ->
                    dict_lookup k [("src", JStr "x"); ("zoom", JInt 1)] = Some v ->
                    dict_lookup k img = Some v).
  { intros img k v [<-|[]] Hk. cbn [dict_lookup].
    destruct (String.eqb k "src") eqn:E; [|easy].
    apply String.eqb_eq in E as ->. discriminate Hk. }
  exact (fresh_sidecar_round_trip _ _ _ _ _ Hit Hf Hrd eq_refl Hrest).
Defined.

(** X16.  The reconciler touches no file but its own sidecar: when it
    returns, the access rights and every other file are what they were, at
    most one write went through, to the sidecar path and of a JSON object, and
    nothing at all changed if the sidecar cannot be written. *)
Theorem sync_touches_only_its_sidecar (rendered_json : dict) (sidecar_path : string)
    (st : fs) (out : dict) (st' : fs) :
  Fixed3._sync_crop_sidecar rendered_json sidecar_path st = Ok (out, st') ->
  rd_deny st' = rd_deny st /\ wr_deny st' = wr_deny st /\
  (forall q, q <> sidecar_path -> files st' !! q = files st !! q) /\
  (journal st' = journal st \/
   exists sc, journal st' = journal st ++ [(sidecar_path, JDict sc)] /\
              files st' !! sidecar_path = Some (Dumps (JDict sc))) /\
  (sidecar_path ∈ wr_deny st -> st' = st).
Proof.
  intros Hs. destruct (sync_effect _ _ _ _ _ Hs) as [->|[Hw (sc & -> & _)]].
  - repeat split; auto.
  - cbn [rd_deny wr_deny files journal]. repeat split.
    + intros q Hq. now apply lookup_insert_ne.
    + right. exists sc. split; [reflexivity | apply lookup_insert_eq].
    + intros Hin. now destruct Hw.
Qed.

Lemma sync_touches_only_its_sidecar_witness :
  let st := MkFs {[ "002.jpg.crop.json" := Malformed ]} ∅ ∅ [] in
  let st' := MkFs (<[ "001.jpg.crop.json" := Dumps (JDict [("zoom", JInt 1)]) ]>
                     {[ "002.jpg.crop.json" := Malformed ]}) ∅ ∅
                  [("001.jpg.crop.json", JDict [("zoom", JInt 1)])] in
  rd_deny st' = rd_deny st /\ wr_deny st' = wr_deny st /\
  (forall q, q <> "001.jpg.crop.json" -> files st' !! q = files st !! q) /\
  (journal st' = journal st \/
   exists sc, journal st' = journal st ++ [("001.jpg.crop.json", JDict sc)] /\
              files st' !! "001.jpg.crop.json" = Some (Dumps (JDict sc))) /\
  ("001.jpg.crop.json" ∈ wr_deny st -> st' = st).
Proof.
  cbv zeta.
  exact (sync_touches_only_its_sidecar
           [("images", JList [JDict [("src", JStr "x"); ("zoom", JInt 1)]])]
           "001.jpg.crop.json" (MkFs {[ "002.jpg.crop.json" := Malformed ]} ∅ ∅ []) _ _
           eq_refl).
Defined.

(** ** The backfill loop of the earlier script *)

(** X17.  The backfill loop of the earlier script, [existing[k] =
    crop_params[k]] for every crop key the sidecar lacks, raises (a
    [KeyError]) exactly when some key of the list is neither in the sidecar
    nor in the extracted parameters. *)
Theorem backfill_raises_iff (ks : list string) (crop_params existing : dict) (changed : bool) :
  raises (Orig.backfill ks crop_params existing changed) = true <->
  exists k, In k ks /\ dict_has k existing = false /\ dict_lookup k crop_params = None.
Proof.
  revert existing changed. induction ks as [|k0 r IH]; intros ex ch; cbn [Orig.backfill].
  - split; [discriminate | intros (k & [] & _)].
  - destruct (dict_has k0 ex) eqn:Hh.
    + rewrite IH. split.
      * intros (k & Hin & H). exists k. split; [now right | exact H].
      * intros (k & [<-|Hin] & Hk & Hc); [congruence|]. now exists k.
    + destruct (dict_lookup k0 crop_params) as [v|] eqn:Hc.
      * rewrite IH. split.
        -- intros (k & Hin & Hk & Hkc). exists k. split; [now right|]. split; [|exact Hkc].
           rewrite has_set in Hk. now apply orb_false_iff in Hk.
        -- intros (k & [<-|Hin] & Hk & Hkc); [congruence|]. exists k.
           split; [exact Hin|]. split; [|exact Hkc].
           rewrite has_set, Hk, orb_false_r. apply String.eqb_neq. congruence.
      * split; [intros _; exists k0; split; [now left | easy] | reflexivity].
Qed.

(** ** More on [main] of [card-generator.py] *)

Lemma step_inv (a : Neutral.args) (template defaults : dict) (s s' : Neutral.loop_state)
    (c : Neutral.config) :
  Neutral.step a template defaults s c = Ok s' ->
  exists r, record_of a template defaults c r /\
            (Neutral.record_id r ∉ Neutral.seen_ids s) /\
            s' = Neutral.MkLoop ({[Neutral.record_id r]} ∪ Neutral.seen_ids s)
                                (Neutral.results s ++ [r]).
Proof.
  unfold Neutral.step.
  destruct (Neutral.prepare a defaults c) as [[vars rid]|] eqn:Hp; [|discriminate].
  cbn [bind fst snd]. destruct (decide (rid ∈ Neutral.seen_ids s)) as [|Hn]; [discriminate|].
  destruct (Neutral.render_placeholders _ _ _) as [r|] eqn:Hr; [|discriminate].
  cbn [bind]. destruct r; try discriminate. intros [= <-].
  exists (Neutral.MkResult (Neutral.cfg_name c) rid d). split; [|split; [exact Hn | reflexivity]].
  split; [reflexivity|]. exists vars. now split.
Qed.

Lemma loop_inv (a : Neutral.args) (template defaults : dict) (cs : list Neutral.config)
    (s s' : Neutral.loop_state) :
  Neutral.loop a template defaults s cs = Ok s' ->
  NoDup (map Neutral.record_id (Neutral.results s)) ->
  (forall r, In r (Neutral.results s) -> Neutral.record_id r ∈ Neutral.seen_ids s) ->
  exists rs, Neutral.results s' = Neutral.results s ++ rs /\
             Forall2 (record_of a template defaults) cs rs /\
             NoDup (map Neutral.record_id (Neutral.results s')).
Proof.
  revert s. induction cs as [|c rest IH]; intros s Hl Hnd Hseen.
  - injection Hl as <-. exists []. rewrite app_nil_r. split; [reflexivity|]. now split.
  - cbn [Neutral.loop] in Hl.
    destruct (Neutral.step a template defaults s c) as [s1|] eqn:Hs; [|discriminate].
    cbn [bind] in Hl. apply step_inv in Hs as (r & Hrec & Hnew & ->).
    apply IH in Hl as (rs & Hres & Hall & Hnd').
    + exists (r :: rs). cbn [Neutral.results] in Hres.
      split; [rewrite Hres, <- app_assoc; reflexivity|].
      split; [now constructor | exact Hnd'].
    + cbn [Neutral.results]. rewrite map_app. apply NoDup_app. split; [exact Hnd|].
      split; [|apply NoDup_singleton].
      intros x Hx Hx'. apply list_elem_of_In in Hx. apply in_map_iff in Hx as (r0 & <- & Hr0).
      apply list_elem_of_singleton in Hx'. apply Hnew. rewrite <- Hx'. now apply Hseen.
    + cbn [Neutral.results Neutral.seen_ids]. intros r0 [Hin|[<-|[]]]%in_app_iff.
      * apply elem_of_union_r. now apply Hseen.
      * apply elem_of_union_l. now apply elem_of_singleton.
Qed.

(** X19.  A run of [card-generator.py] that ends without an exception has
    kept one record per config file, in the order of the listing: each is
    named after its file, holds the template rendered with the variables that
    the file merged onto the defaults gives, under the id normalized from
    them; the ids are pairwise distinct; and the [--out] file, written first,
    is the list of the renderings in that order. *)
Theorem main_one_record_per_config (a : Neutral.args) (template defaults : dict)
    (config_files : list Neutral.config) :
  Neutral.failure (Neutral.main a template defaults config_files) = None ->
  exists rs,
    Forall2 (record_of a template defaults) config_files rs /\
    NoDup (map Neutral.record_id rs) /\
    exists split_files,
      Neutral.written (Neutral.main a template defaults config_files)
      = (Neutral.out a, JList (map (fun r => JDict (Neutral.rendered r)) rs)) :: split_files /\
      map snd split_files
      = if Neutral.split a then map (fun r => JDict (Neutral.rendered r)) rs else [].
Proof.
  unfold Neutral.main. destruct config_files as [|c0 cs0] eqn:Ecs; [discriminate|].
  rewrite <- Ecs. clear Ecs.
  destruct (Neutral.loop a template defaults (Neutral.MkLoop ∅ []) config_files) as [s|] eqn:Hl;
    [|discriminate].
  intros _. apply loop_inv in Hl as (rs & Hres & Hall & Hnd); [|constructor|intros r []].
  cbn [Neutral.results app] in Hres. rewrite Hres in *.
  exists rs. split; [exact Hall|]. split; [exact Hnd|].
  cbn [Neutral.written]. destruct (Neutral.split a).
  - eexists. split; [reflexivity|]. rewrite map_map. reflexivity.
  - exists []. split; reflexivity.
Qed.

Lemma main_one_record_per_config_witness :
  let a := Neutral.MkArgs "out/all.json" true "out" false "id" [] in
  let template := [("name", JStr "{{name}}"); ("id", JStr "{{id}}")] in
  let defaults := [("name", JStr "n/a")] in
  let c1 := Neutral.MkConfig "a.json" (Ok (JDict [("id", JStr "ABC 1")])) in
  let c2 := Neutral.MkConfig "b.yml" (Ok (JDict [("id", JInt 2); ("name", JStr "B")])) in
  exists rs,
    Forall2 (record_of a template defaults) [c1; c2] rs /\
    NoDup (map Neutral.record_id rs) /\
    exists split_files,
      Neutral.written (Neutral.main a template defaults [c1; c2])
      = (Neutral.out a, JList (map (fun r => JDict (Neutral.rendered r)) rs)) :: split_files /\
      map snd split_files
      = if Neutral.split a then map (fun r => JDict (Neutral.rendered r)) rs else [].
Proof.
  cbv zeta.
  exact (main_one_record_per_config
           (Neutral.MkArgs "out/all.json" true "out" false "id" [])
           [("name", JStr "{{name}}"); ("id", JStr "{{id}}")]
           [("name", JStr "n/a")]
           [Neutral.MkConfig "a.json" (Ok (JDict [("id", JStr "ABC 1")]));
            Neutral.MkConfig "b.yml" (Ok (JDict [("id", JInt 2); ("name", JStr "B")]))]
           eq_refl).
Defined.

Lemma str_app_inj_l (a x y : string) : a +:+ x = a +:+ y -> x = y.
Proof.
  induction a as [|c a IH]; [easy|]. rewrite !str_app_cons. intros [= H]. now apply IH.
Qed.

Lemma str_app_inj_r (s x y : string) : x +:+ s = y +:+ s -> x = y.
Proof.
  revert y. induction x as [|c x IH]; intros [|c' y] H.
  - reflexivity.
  - apply (f_equal String.length) in H. rewrite str_app_cons in H.
    change (EmptyString +:+ s) with s in H.
    cbn [String.length] in H. rewrite str_app_length in H. lia.
  - apply (f_equal String.length) in H. rewrite str_app_cons in H.
    change (EmptyString +:+ s) with s in H.
    cbn [String.length] in H. rewrite str_app_length in H. lia.
  - rewrite !str_app_cons in H. injection H as -> H. f_equal. now apply IH.
Qed.

Lemma nodup_map_inj {A B : Type} (f : A -> B) (l : list A) :
  (forall x y, f x = f y -> x = y) -> NoDup l -> NoDup (map f l).
Proof.
  intros Hinj. induction l as [|x r IH]; intros Hnd; [constructor|].
  apply NoDup_cons in Hnd as [Hx Hnd]. cbn [map]. apply NoDup_cons. split; [|now apply IH].
  intros Hin%list_elem_of_In. apply in_map_iff in Hin as (y & Hy & Hin).
  apply Hinj in Hy as ->. now apply Hx, list_elem_of_In.
Qed.

(** X20.  With [--split], no record file overwrites another: when the run
    ends without an exception, the files written after the [--out] file are
    one per config file, and their paths [out_dir/<id>.json] are pairwise
    distinct. *)
Theorem split_files_never_collide (a : Neutral.args) (template defaults : dict)
    (config_files : list Neutral.config) :
  Neutral.failure (Neutral.main a template defaults config_files) = None ->
  Neutral.split a = true ->
  exists all_file split_files,
    Neutral.written (Neutral.main a template defaults config_files) = all_file :: split_files /\
    length split_files = length config_files /\
    NoDup (map fst split_files).
Proof.
  unfold Neutral.main. destruct config_files as [|c0 cs0] eqn:Ecs; [discriminate|].
  rewrite <- Ecs. clear Ecs.
  destruct (Neutral.loop a template defaults (Neutral.MkLoop ∅ []) config_files) as [s|] eqn:Hl;
    [|discriminate].
  intros _ Hsplit. apply loop_inv in Hl as (rs & Hres & Hall & Hnd); [|constructor|intros r []].
  cbn [Neutral.results app] in Hres. rewrite Hres in *.
  cbn [Neutral.written]. rewrite Hsplit. eexists _, _. split; [reflexivity|].
  split; [rewrite length_map; symmetry; exact (Forall2_length _ _ _ Hall)|].
  rewrite map_map. cbn [fst].
  rewrite <- (map_map Neutral.record_id
                (fun i => Neutral.out_dir a +:+ "/" +:+ i +:+ ".json")).
  apply nodup_map_inj; [|exact Hnd].
  intros x y H. apply str_app_inj_l, str_app_inj_l in H. now apply str_app_inj_r in H.
Qed.

Lemma split_files_never_collide_witness :
  let a := Neutral.MkArgs "out/all.json" true "out" false "id" [] in
  let template := [("name", JStr "{{name}}"); ("id", JStr "{{id}}")] in
  let defaults := [("name", JStr "n/a")] in
  let c1 := Neutral.MkConfig "a.json" (Ok (JDict [("id", JStr "ABC 1")])) in
  let c2 := Neutral.MkConfig "b.yml" (Ok (JDict [("id", JInt 2); ("name", JStr "B")])) in
  exists all_file split_files,
    Neutral.written (Neutral.main a template defaults [c1; c2]) = all_file :: split_files /\
    length split_files = 2 /\
    NoDup (map fst split_files).
Proof.
  cbv zeta.
  exact (split_files_never_collide
           (Neutral.MkArgs "out/all.json" true "out" false "id" [])
           [("name", JStr "{{name}}"); ("id", JStr "{{id}}")]
           [("name", JStr "n/a")]
           [Neutral.MkConfig "a.json" (Ok (JDict [("id", JStr "ABC 1")]));
            Neutral.MkConfig "b.yml" (Ok (JDict [("id", JInt 2); ("name", JStr "B")]))]
           eq_refl eq_refl).
Defined.

(** X21.  [render_placeholders] changes string leaves only: the tree it
    returns has the keys of the template in their order, lists of the same
    lengths and the same leaves that are no string, strict or not.  A dict
    template therefore renders to a dict, and the check of [main] on the root
    of the rendering never fires. *)
Theorem render_keeps_structure (obj : json) (variables : dict) (strict : bool) (r : json) :
  Neutral.render_placeholders obj variables strict = Ok r ->
  skeleton r = skeleton obj.
Proof.
  revert r. induction obj as [| | | | s |l IH|d IH] using json_ind; intros r0;
    try (intros [= <-]; reflexivity).
  - cbn [Neutral.render_placeholders].
    destruct (Placeholder.sub_raising _ s); [|discriminate]. now intros [= <-].
  - cbn [Neutral.render_placeholders].
    match goal with |- bind (?f l) _ = _ -> _ =>
      assert (Hl : forall l', f l = Ok l' -> map skeleton l' = map skeleton l) end.
    { induction IH as [|x rest Hx _ IHr]; intros l'; [now intros [= <-]|].
      destruct (Neutral.render_placeholders x variables strict) as [x'|] eqn:Ex;
        [|discriminate].
      cbn [bind]. match goal with |- bind ?m _ = _ -> _ => destruct m as [r'|] end;
        [|discriminate].
      intros [= <-]. cbn [map]. now rewrite (Hx x' eq_refl), (IHr r' eq_refl). }
    match goal with |- bind ?m _ = _ -> _ => destruct m as [l'|] end; [|discriminate].
    intros [= <-]. cbn [skeleton]. now rewrite (Hl l' eq_refl).
  - cbn [Neutral.render_placeholders].
    match goal with |- bind (?f d) _ = _ -> _ =>
      assert (Hd : forall d', f d = Ok d' ->
                map (fun kv => (fst kv, skeleton (snd kv))) d'
                = map (fun kv => (fst kv, skeleton (snd kv))) d) end.
    { induction IH as [|[k v] rest Hv _ IHr]; intros d'; [now intros [= <-]|].
      cbn [fst snd] in *.
      destruct (Neutral.render_placeholders v variables strict) as [v'|] eqn:Ev;
        [|discriminate].
      cbn [bind]. match goal with |- bind ?m _ = _ -> _ => destruct m as [r'|] end;
        [|discriminate].
      intros [= <-]. cbn [map fst snd]. now rewrite (Hv v' eq_refl), (IHr r' eq_refl). }
    match goal with |- bind ?m _ = _ -> _ => destruct m as [d'|] end; [|discriminate].
    intros [= <-]. cbn [skeleton]. now rewrite (Hd d' eq_refl).
Qed.

Lemma render_keeps_structure_witness :
  skeleton (JDict [("name", JStr "Pikachu"); ("hp", JList [JStr "35"; JInt 1])])
  = skeleton (JDict [("name", JStr "{{ name }}"); ("hp", JList [JStr "{{hp}}"; JInt 1])]).
Proof.
  exact (render_keeps_structure
           (JDict [("name", JStr "{{ name }}"); ("hp", JList [JStr "{{hp}}"; JInt 1])])
           [("name", JStr "Pikachu"); ("hp", JInt 35)] true _ eq_refl).
Defined.

Lemma require_keys_ok (variables : dict) (ks : list string) :
  raises (Neutral.require_keys variables ks) = false <->
  forall k, In k ks -> Neutral.has_dotted (JDict variables) k = true.
Proof.
  unfold Neutral.require_keys.
  assert (H : filter (fun k => negb (Neutral.has_dotted (JDict variables) k)) ks = [] <->
              forall k, In k ks -> Neutral.has_dotted (JDict variables) k = true).
  { induction ks as [|k0 r IH]; [split; [intros _ k [] | reflexivity]|].
    rewrite filter_cons.
    destruct (decide (negb (Neutral.has_dotted (JDict variables) k0))) as [Hd|Hd].
    - split; [discriminate|]. intros H. rewrite (H k0 (or_introl eq_refl)) in Hd.
      destruct Hd.
    - rewrite IH. split.
      + intros H k [<-|Hin]; [|now apply H].
        destruct (Neutral.has_dotted (JDict variables) k0); [reflexivity | now destruct Hd].
      + intros H k Hin. apply H. now right. }
  destruct (filter _ ks) as [|m ms].
  - split; [intros _; now apply H | reflexivity].
  - split; [discriminate|]. intros Hall. apply H in Hall. discriminate.
Qed.

(** X22.  What a config that gets past the checks of [main] guarantees: the
    file held an object, the variables are that object merged onto the
    defaults, every key of [--require-keys] resolves in them by
    [get_dotted], and the record id is the normalized value of the id key. *)
Theorem prepared_config_guarantees (a : Neutral.args) (defaults : dict) (c : Neutral.config)
    (variables : dict) (rid : string) :
  Neutral.prepare a defaults c = Ok (variables, rid) ->
  exists cfg,
    Neutral.cfg_data c = Ok (JDict cfg) /\
    Neutral.deep_merge (JDict defaults) (JDict cfg) = JDict variables /\
    (forall k, In k (Neutral.arg_require_keys a) ->
               exists v, Neutral.get_dotted (JDict variables) k = Ok v) /\
    Neutral.normalize_id (dict_get (Neutral.id_key a) variables) = Ok rid.
Proof.
  unfold Neutral.prepare. destruct (Neutral.cfg_data c) as [cfg|]; [|discriminate].
  cbn [bind]. destruct cfg as [| | | | | |cfg]; try discriminate.
  destruct (Neutral.deep_merge (JDict defaults) (JDict cfg)) as [| | | | | |vars] eqn:Hm;
    try discriminate.
  assert (Hreq : forall u,
            match Neutral.arg_require_keys a with
            | [] => Ok tt
            | ks => Neutral.require_keys vars ks
            end = Ok u ->
            forall k, In k (Neutral.arg_require_keys a) ->
                      Neutral.has_dotted (JDict vars) k = true).
  { intros u. destruct (Neutral.arg_require_keys a) as [|k0 ks]; [intros _ k []|].
    intros Hr. apply require_keys_ok. now rewrite Hr. }
  match goal with |- bind ?m _ = _ -> _ => destruct m as [u|] eqn:Hr end; [|discriminate].
  cbn [bind]. destruct (Neutral.normalize_id _) as [rid'|] eqn:Hid; [|discriminate].
  cbn [bind]. intros [= <- <-]. exists cfg. split; [reflexivity|]. split; [exact Hm|].
  split; [|exact Hid].
  intros k Hin. pose proof (Hreq u eq_refl k Hin) as Hk.
  unfold Neutral.has_dotted in Hk.
  destruct (Neutral.get_dotted (JDict vars) k) as [v|]; [now exists v | discriminate].
Qed.

Lemma prepared_config_guarantees_witness :
  let a := Neutral.MkArgs "out/all.json" false "out" false "id" ["stats.hp"] in
  let c := Neutral.MkConfig "a.json" (Ok (JDict [("id", JStr "ABC 1")])) in
  exists cfg,
    Neutral.cfg_data c = Ok (JDict cfg) /\
    Neutral.deep_merge (JDict [("stats", JDict [("hp", JInt 35)])]) (JDict cfg)
    = JDict [("stats", JDict [("hp", JInt 35)]); ("id", JStr "ABC 1")] /\
    (forall k, In k (Neutral.arg_require_keys a) ->
               exists v, Neutral.get_dotted
                           (JDict [("stats", JDict [("hp", JInt 35)]); ("id", JStr "ABC 1")]) k
                         = Ok v) /\
    Neutral.normalize_id
      (dict_get (Neutral.id_key a) [("stats", JDict [("hp", JInt 35)]); ("id", JStr "ABC 1")])
    = Ok "ABC-1".
Proof.
  cbv zeta.
  exact (prepared_config_guarantees
           (Neutral.MkArgs "out/all.json" false "out" false "id" ["stats.hp"])
           [("stats", JDict [("hp", JInt 35)])]
           (Neutral.MkConfig "a.json" (Ok (JDict [("id", JStr "ABC 1")])))
           _ _ eq_refl).
Defined.

(** ** The picture and the sidecar *)

Lemma extract_set_src (v : json) (i : dict) :
  Crop._extract_crop_params_from_image (dict_set "src" v i)
  = Crop._extract_crop_params_from_image i.
Proof.
  unfold Crop._extract_crop_params_from_image, Crop._CROP_KEYS. cbn [fold_left].
  now rewrite !lookup_set_ne by discriminate.
Qed.

Lemma extract_inject_items (data_uri : string) (l : list json) :
  map Crop._extract_crop_params_from_image (Crop.dict_items (map (Crop.inject_item data_uri) l))
  = map Crop._extract_crop_params_from_image (Crop.dict_items l).
Proof.
  induction l as [|x r IH]; [reflexivity|]. cbn [map].
  destruct x as [| | | | | |i]; cbn [Crop.inject_item Crop.dict_items]; try exact IH.
  destruct (dict_has "src" i); cbn [Crop.dict_items map]; rewrite IH; [|reflexivity].
  now rewrite extract_set_src.
Qed.

Lemma iter_set_images {B : Type} (g : dict -> B) (l l' : list json) (r : dict) :
  map g (Crop.dict_items l') = map g (Crop.dict_items l) ->
  dict_lookup "images" r = Some (JList l) ->
  map g (Crop._iter_image_dicts (JDict (dict_set "images" (JList l') r)))
  = map g (Crop._iter_image_dicts (JDict r)).
Proof.
  intros Hl. induction r as [|[k0 v0] rest IH]; [discriminate|].
  cbn [dict_lookup dict_set]. destruct (String.eqb_spec "images" k0) as [<-|Hne].
  - intros [= ->]. rewrite !iter_dict_cons. cbn [String.eqb Ascii.eqb Bool.eqb].
    rewrite !map_app. now rewrite Hl.
  - intros H. rewrite !iter_dict_cons, !map_app. now rewrite IH.
Qed.

Lemma crop_params_after_injection (rendered : dict) (data_uri : string) :
  map Crop._extract_crop_params_from_image
      (Crop._iter_image_dicts (JDict (Crop._inject_src_into_images rendered data_uri)))
  = map Crop._extract_crop_params_from_image (Crop._iter_image_dicts (JDict rendered)).
Proof.
  unfold Crop._inject_src_into_images, dict_get.
  destruct (dict_lookup "images" rendered) as [v|] eqn:E; [|reflexivity].
  destruct v as [| | | | |l|]; try reflexivity.
  apply (iter_set_images _ l); [apply extract_inject_items | exact E].
Qed.

(** X23.  Setting the picture does not disturb the reconciler: after
    [_inject_src_into_images] the walk [_iter_image_dicts] finds as many
    images as before, in the same order, and
    [_extract_crop_params_from_image] gives for each what it gave before. *)
Theorem inject_keeps_crop_params (rendered : dict) (data_uri : string) :
  map Crop._extract_crop_params_from_image
      (Crop._iter_image_dicts (JDict (Crop._inject_src_into_images rendered data_uri)))
  = map Crop._extract_crop_params_from_image (Crop._iter_image_dicts (JDict rendered)).
Proof. apply crop_params_after_injection. Qed.

Lemma get_inject_other (rendered : dict) (data_uri k : string) :
  k <> "images" ->
  dict_get k (Crop._inject_src_into_images rendered data_uri) = dict_get k rendered.
Proof.
  intros Hk. unfold Crop._inject_src_into_images.
  destruct (dict_get "images" rendered); try reflexivity.
  unfold dict_get. rewrite lookup_set_ne by congruence. reflexivity.
Qed.

(** two trees whose images have the same crop parameters, one by one, and
    that have the same caption, leave the same files behind *)
Lemma sync_disk_congr (r1 r2 : dict) (p : string) (st : fs) :
  map Crop._extract_crop_params_from_image (Crop._iter_image_dicts (JDict r1))
  = map Crop._extract_crop_params_from_image (Crop._iter_image_dicts (JDict r2)) ->
  dict_get "dexStats" r1 = dict_get "dexStats" r2 ->
  match Fixed3._sync_crop_sidecar r1 p st, Fixed3._sync_crop_sidecar r2 p st with
  | Ok o1, Ok o2 => snd o1 = snd o2
  | Raise e1, Raise e2 => e1 = e2
  | _, _ => False
  end.
Proof.
  intros Hit Hcap. unfold Fixed3._sync_crop_sidecar.
  destruct (Crop._iter_image_dicts (JDict r1)) as [|i1 l1],
           (Crop._iter_image_dicts (JDict r2)) as [|i2 l2]; try discriminate Hit;
    [reflexivity|].
  cbn [map] in Hit. injection Hit as Hi _.
  destruct (path_exists st p).
  - destruct (read_json st p) as [j|x]; [|reflexivity].
    destruct j as [| | | | | |e]; try reflexivity.
    destruct (is_not_none (dict_get "dexStats" e)); [reflexivity|].
    unfold Crop._apply_crop_params_to_images.
    rewrite !get_map_image_items_scalar by easy. rewrite Hcap.
    now destruct (is_not_none (Crop.map_image_dicts _ (dict_get "dexStats" r2))).
  - cbn [snd]. now rewrite Hi, Hcap.
Qed.

(** X24.  What a sidecar holds never depends on the bytes of the picture:
    one turn of the loop of [main] run with two different data URIs ends
    alike, with the same exception or with the same files and the same list
    of writes. *)
Theorem sidecar_independent_of_picture (stem : string) (rendered : json)
    (data_uri data_uri' sidecar : string) (s : Fixed3.run_state) :
  match Fixed3.process (Fixed3.MkRecord stem rendered data_uri sidecar) s,
        Fixed3.process (Fixed3.MkRecord stem rendered data_uri' sidecar) s with
  | Ok s1, Ok s2 => Fixed3.disk s1 = Fixed3.disk s2
  | Raise e1, Raise e2 => e1 = e2
  | _, _ => False
  end.
Proof.
  unfold Fixed3.process. cbn [Fixed3.rendered Fixed3.data_uri Fixed3.sidecar Fixed3.stem].
  destruct rendered as [| | | | | |rd]; try reflexivity.
  pose proof (sync_disk_congr (Crop._inject_src_into_images rd data_uri)
                (Crop._inject_src_into_images rd data_uri') sidecar (Fixed3.disk s)) as H.
  rewrite !crop_params_after_injection, !get_inject_other in H by easy.
  specialize (H eq_refl eq_refl).
  destruct (Fixed3._sync_crop_sidecar (Crop._inject_src_into_images rd data_uri) _ _),
           (Fixed3._sync_crop_sidecar (Crop._inject_src_into_images rd data_uri') _ _);
    cbn [bind Fixed3.disk]; exact H.
Qed.

(** ** The batch of the [fixed3] script *)

Lemma sync_frame (rendered : dict) (p : string) (st : fs) (out : dict) (st' : fs) :
  Fixed3._sync_crop_sidecar rendered p st = Ok (out, st') ->
  rd_deny st' = rd_deny st /\ wr_deny st' = wr_deny st /\
  forall q, q <> p -> files st' !! q = files st !! q.
Proof.
  intros Hs. destruct (sync_effect _ _ _ _ _ Hs) as [->|[_ (sc & -> & _)]]; [easy|].
  cbn [rd_deny wr_deny files]. repeat split. intros q Hq. now apply lookup_insert_ne.
Qed.

Lemma process_inv' (r : Fixed3.record) (s s' : Fixed3.run_state) :
  Fixed3.process r s = Ok s' ->
  (exists o, Fixed3.outputs s' = Fixed3.outputs s ++ [(Fixed3.stem r, o)]) /\
  rd_deny (Fixed3.disk s') = rd_deny (Fixed3.disk s) /\
  wr_deny (Fixed3.disk s') = wr_deny (Fixed3.disk s) /\
  forall q, q <> Fixed3.sidecar r ->
            files (Fixed3.disk s') !! q = files (Fixed3.disk s) !! q.
Proof.
  unfold Fixed3.process. destruct (Fixed3.rendered r) as [| | | | | |rd]; try discriminate.
  destruct (Fixed3._sync_crop_sidecar _ _ _) as [[o st']|] eqn:Hs; [|discriminate].
  cbn [bind fst snd]. intros [= <-]. cbn [Fixed3.outputs Fixed3.disk].
  split; [now exists o | now apply (sync_frame _ _ _ _ _ Hs)].
Qed.

(** X25.  A batch that completes gives one output per record, in the order
    of the records and under their stems, and touches no file but the
    sidecars of its records: every other file, and the access rights, are
    after the run what they were before. *)
Theorem run_one_output_per_record (rs : list Fixed3.record) (s s' : Fixed3.run_state) :
  Fixed3.run rs s = Ok s' ->
  (exists outs, Fixed3.outputs s' = Fixed3.outputs s ++ outs /\
                map fst outs = map Fixed3.stem rs) /\
  rd_deny (Fixed3.disk s') = rd_deny (Fixed3.disk s) /\
  wr_deny (Fixed3.disk s') = wr_deny (Fixed3.disk s) /\
  forall q, ~ In q (map Fixed3.sidecar rs) ->
            files (Fixed3.disk s') !! q = files (Fixed3.disk s) !! q.
Proof.
  revert s. induction rs as [|r rest IH]; intros s H.
  - injection H as <-. split; [exists []; now rewrite app_nil_r | easy].
  - cbn [Fixed3.run] in H. destruct (Fixed3.process r s) as [s1|] eqn:Hp; [|discriminate].
    cbn [bind] in H. apply process_inv' in Hp as ([o Ho] & Hrd & Hwr & Hf).
    apply IH in H as ((outs & Houts & Hst) & Hrd' & Hwr' & Hf').
    split; [|split; [congruence|split; [congruence|]]].
    + exists ((Fixed3.stem r, o) :: outs). rewrite Houts, Ho, <- app_assoc.
      split; [reflexivity|]. cbn [map fst]. now rewrite Hst.
    + intros q Hq. cbn [map] in Hq. rewrite Hf' by (intros Hin; apply Hq; now right).
      apply Hf. intros ->. apply Hq. now left.
Qed.

Lemma run_one_output_per_record_witness :
  let rs := [Fixed3.MkRecord "001"
               (JDict [("images", JList [JDict [("zoom", JInt 1)]]); ("dexStats", JStr "A")])
               "data:image/jpeg;base64,AA" "001.jpg.crop.json";
             Fixed3.MkRecord "002"
               (JDict [("images", JList [JDict [("src", JStr "x"); ("zoom", JInt 3)]])])
               "data:image/jpeg;base64,AA" "defaults.jpg.crop.json"] in
  let s := Fixed3.MkRun (MkFs {[ "notes.txt" := Malformed ]} ∅ ∅ []) [] in
  exists s',
    Fixed3.run rs s = Ok s' /\
    (exists outs, Fixed3.outputs s' = Fixed3.outputs s ++ outs /\
                  map fst outs = map Fixed3.stem rs) /\
    rd_deny (Fixed3.disk s') = rd_deny (Fixed3.disk s) /\
    wr_deny (Fixed3.disk s') = wr_deny (Fixed3.disk s) /\
    forall q, ~ In q (map Fixed3.sidecar rs) ->
              files (Fixed3.disk s') !! q = files (Fixed3.disk s) !! q.
Proof.
  cbv zeta.
  assert (Hrun : exists s',
            Fixed3.run
              [Fixed3.MkRecord "001"
                 (JDict [("images", JList [JDict [("zoom", JInt 1)]]); ("dexStats", JStr "A")])
                 "data:image/jpeg;base64,AA" "001.jpg.crop.json";
               Fixed3.MkRecord "002"
                 (JDict [("images", JList [JDict [("src", JStr "x"); ("zoom", JInt 3)]])])
                 "data:image/jpeg;base64,AA" "defaults.jpg.crop.json"]
              (Fixed3.MkRun (MkFs {[ "notes.txt" := Malformed ]} ∅ ∅ []) []) = Ok s')
    by (eexists; vm_compute; reflexivity).
  destruct Hrun as [s' Hrun]. exists s'. split; [exact Hrun|].
  exact (run_one_output_per_record _ _ _ Hrun).
Defined.
